(** * ImageJ ROI codec: a shallow embedding of [api/utils/roi.py]

    The development follows the Python module top-down: the values the
    codec handles, [struct]-style packing, the random-access output file,
    the field schema, the ROI classes, [ROIEncoder], [ROIDecoder] and the
    zip adapter.  The properties proved about them come last. *)

From Stdlib Require Import ZArith Lia String Ascii SpecFloat.
From Stdlib Require Import Strings.Byte.
From stdpp Require Import base option list gmap strings.

#[local] Open Scope string_scope.
#[local] Open Scope list_scope.
#[local] Open Scope Z_scope.

(** ** Python values and exceptions *)

(** A Python [float] is an IEEE binary64 number, kept in the canonical
    form of [SpecFloat] for precision 53 and maximal exponent 1024. *)
Definition float : Type := spec_float.

(** The dynamically typed values that flow through the codec: integers,
    floats and [bytes] objects. *)
Inductive pyval : Type :=
  | PyInt (z : Z)
  | PyFloat (f : float)
  | PyBytes (bs : list byte).

(** The exceptions the module can raise.  [struct_error] is
    [struct.error]; the three carrying a message are raised by the codec
    itself, the others by the interpreter or the standard library. *)
Inductive exn : Type :=
  | struct_error
  | OverflowError
  | ValueError
  | TypeError
  | KeyError
  | AttributeError (attr : string)
  | FileNotFoundError
  | IOError (msg : string)
  | Exception (msg : string)
  | NotImplementedError (msg : string).

Inductive result (A : Type) : Type :=
  | Ok (a : A)
  | Raise (e : exn).
Arguments Ok {A} a.
Arguments Raise {A} e.

#[global] Instance result_ret : MRet result := λ A a, Ok a.

#[global] Instance result_bind : MBind result := λ A B k r,
  match r with
  | Ok a => k a
  | Raise e => Raise e
  end.

(** ** Bytes and big-endian integers *)

#[global] Instance byte_eq_decision : EqDecision byte := byte_eq_dec.

Definition Z_of_byte (b : byte) : Z := Z.of_N (Byte.to_N b).

Definition byte_of_Z (z : Z) : byte :=
  default x00 (Byte.of_N (Z.to_N (z mod 256))).

(** The [n] low-order bytes of [z], most significant first. *)
Fixpoint be_bytes (n : nat) (z : Z) : list byte :=
  match n with
  | O => []
  | S k => byte_of_Z (z / 256 ^ Z.of_nat k) :: be_bytes k z
  end.

(** The unsigned big-endian value of a byte string. *)
Definition be_value (bs : list byte) : Z :=
  fold_left (λ acc b, acc * 256 + Z_of_byte b) bs 0.

(** Two's complement on [n] bytes, as [struct] writes a signed integer:
    out of range is a [struct.error]. *)
Definition pack_int (n : nat) (v : Z) : result (list byte) :=
  let half := 256 ^ Z.of_nat n / 2 in
  if bool_decide (- half ≤ v < half)
  then Ok (be_bytes n (v mod 256 ^ Z.of_nat n))
  else Raise struct_error.

Definition unpack_int (n : nat) (bs : list byte) : Z :=
  let u := be_value bs in
  if bool_decide (u < 256 ^ Z.of_nat n / 2) then u else u - 256 ^ Z.of_nat n.

(** ** Single-precision floats

    [struct.pack('>f', x)] casts the double to a C [float] and stores its
    four bytes; [struct.unpack('>f', b)] loads a C [float] and widens it.
    Both casts are the IEEE conversions, here [binary_normalize] at the
    target precision.  [SpecFloat] has one NaN, so NaN payloads are not
    tracked. *)

Definition is_inf (f : spec_float) : bool :=
  match f with S754_infinity _ => true | _ => false end.

Definition is_nan (f : spec_float) : bool :=
  match f with S754_nan => true | _ => false end.

Definition float_of_Z (z : Z) : float := binary_normalize 53 1024 z 0 false.

Definition single_of_double (x : float) : spec_float :=
  match x with
  | S754_finite s m e => binary_normalize 24 128 (cond_Zopp s (Zpos m)) e s
  | _ => x
  end.

Definition double_of_single (y : spec_float) : float :=
  match y with
  | S754_finite s m e => binary_normalize 53 1024 (cond_Zopp s (Zpos m)) e s
  | _ => y
  end.

(** Sign (1 bit), biased exponent (8 bits) and fraction (23 bits). *)
Definition join_bits (s : bool) (e m : Z) : Z :=
  (if s then 2 ^ 31 else 0) + (e mod 2 ^ 8) * 2 ^ 23 + m mod 2 ^ 23.

Definition bits_of_single (y : spec_float) : Z :=
  match y with
  | S754_zero s => join_bits s 0 0
  | S754_infinity s => join_bits s 255 0
  | S754_nan => join_bits false 255 (2 ^ 22)
  | S754_finite s m e =>
      if bool_decide (Zpos m < 2 ^ 23)
      then join_bits s 0 (Zpos m)
      else join_bits s (e + 150) (Zpos m - 2 ^ 23)
  end.

Definition single_of_bits (b : Z) : spec_float :=
  let s := bool_decide (2 ^ 31 ≤ b) in
  let e := (b / 2 ^ 23) mod 2 ^ 8 in
  let m := b mod 2 ^ 23 in
  if bool_decide (e = 0) then
    if bool_decide (m = 0) then S754_zero s
    else S754_finite s (Z.to_pos m) (-149)
  else if bool_decide (e = 255) then
    if bool_decide (m = 0) then S754_infinity s else S754_nan
  else S754_finite s (Z.to_pos (m + 2 ^ 23)) (e - 150).

(** The double one gets back after a trip through a C [float]: the value
    of [x] to single precision. *)
Definition as_single (x : float) : float :=
  double_of_single (single_of_bits (bits_of_single (single_of_double x))).

(** Python's [float(v)]. *)
Definition py_float (v : pyval) : result float :=
  match v with
  | PyInt z =>
      let f := float_of_Z z in
      if is_inf f then Raise OverflowError else Ok f
  | PyFloat f => Ok f
  | PyBytes _ => Raise ValueError
  end.

(** ** [struct.pack] and [struct.unpack], big-endian *)

(** The format characters the module uses: ['b'], ['h'], ['i'], ['f'] and
    a counted ['s']. *)
Inductive fmt : Type :=
  | Fmt_b
  | Fmt_h
  | Fmt_i
  | Fmt_f
  | Fmt_s (count : nat).

#[global] Instance fmt_eq_decision : EqDecision fmt.
Proof. solve_decision. Defined.

(** [struct.calcsize]. *)
Definition calcsize (t : fmt) : nat :=
  match t with
  | Fmt_b => 1
  | Fmt_h => 2
  | Fmt_i => 4
  | Fmt_f => 4
  | Fmt_s n => n
  end.

Definition pack_float (x : float) : result (list byte) :=
  let y := single_of_double x in
  if is_inf y && negb (is_inf x) then Raise OverflowError
  else Ok (be_bytes 4 (bits_of_single y)).

Definition unpack_float (bs : list byte) : float :=
  double_of_single (single_of_bits (be_value bs)).

(** ['s'] pads with zero bytes or truncates to the count. *)
Definition pack_bytes (n : nat) (bs : list byte) : list byte :=
  take n bs ++ replicate (n - length bs)%nat x00.

Definition struct_pack (t : fmt) (v : pyval) : result (list byte) :=
  match t, v with
  | Fmt_b, PyInt z => pack_int 1 z
  | Fmt_h, PyInt z => pack_int 2 z
  | Fmt_i, PyInt z => pack_int 4 z
  | Fmt_f, PyFloat x => pack_float x
  | Fmt_f, PyInt z =>
      let x := float_of_Z z in
      if is_inf x then Raise struct_error else pack_float x
  | Fmt_s n, PyBytes bs => Ok (pack_bytes n bs)
  | _, _ => Raise struct_error
  end.

Definition struct_unpack (t : fmt) (bs : list byte) : result pyval :=
  if bool_decide (length bs = calcsize t) then
    match t with
    | Fmt_b => Ok (PyInt (unpack_int 1 bs))
    | Fmt_h => Ok (PyInt (unpack_int 2 bs))
    | Fmt_i => Ok (PyInt (unpack_int 4 bs))
    | Fmt_f => Ok (PyFloat (unpack_float bs))
    | Fmt_s _ => Ok (PyBytes bs)
    end
  else Raise struct_error.

(** ** Files and byte strings *)

(** [f.seek(off); f.write(bs)] on a file opened for writing: bytes are
    overwritten in place, and a write past the end first fills the gap
    with zero bytes.  Writing no bytes leaves the file as it is, wherever
    the position. *)
Definition write_at (off : nat) (bs f : list byte) : list byte :=
  match bs with
  | [] => f
  | _ =>
      take off f ++ replicate (off - length f)%nat x00 ++ bs
        ++ drop (off + length bs)%nat f
  end.

(** Python's [data[a:b]]: a negative index counts from the end, and both
    ends are clamped to the length. *)
Definition slice_index (n i : Z) : Z :=
  if bool_decide (i < 0) then Z.max (i + n) 0 else Z.min i n.

Definition py_slice {A} (data : list A) (a b : Z) : list A :=
  let n := Z.of_nat (length data) in
  let a' := slice_index n a in
  let b' := slice_index n b in
  take (Z.to_nat (b' - a')) (drop (Z.to_nat a') data).

(** [bytes(name, 'utf-8')] for a string of code points below 256, which
    is what a Rocq [string] holds. *)
Definition utf8_char (c : ascii) : list byte :=
  let n := Z.of_N (N_of_ascii c) in
  if bool_decide (n < 128) then [byte_of_Z n]
  else [byte_of_Z (192 + n / 64); byte_of_Z (128 + n mod 64)].

Fixpoint utf8 (s : string) : list byte :=
  match s with
  | EmptyString => []
  | String c s' => utf8_char c ++ utf8 s'
  end.

(** ** Field schema ([ROIFileObject]) *)

Module HeaderTuple.
Record t : Type := make { type : fmt; size : nat; offset : Z }.
End HeaderTuple.

Definition first_digit (n : nat) : nat :=
  match Nat.to_uint n with
  | Decimal.Nil => 0
  | Decimal.D0 _ => 0
  | Decimal.D1 _ => 1
  | Decimal.D2 _ => 2
  | Decimal.D3 _ => 3
  | Decimal.D4 _ => 4
  | Decimal.D5 _ => 5
  | Decimal.D6 _ => 6
  | Decimal.D7 _ => 7
  | Decimal.D8 _ => 8
  | Decimal.D9 _ => 9
  end%nat.

(** The size table of [_type_size]; for a counted format the size of the
    character is multiplied by the first digit of the count. *)
Definition _type_size (_type : fmt) : nat :=
  match _type with
  | Fmt_h => 2
  | Fmt_f => 4
  | Fmt_i => 4
  | Fmt_b => 1
  | Fmt_s n => 1 * first_digit n
  end%nat.

Definition _header1_fields : list (string * fmt * Z) :=
  [ ("MAGIC", Fmt_s 4, 0);
    ("VERSION_OFFSET", Fmt_h, 4);
    ("TYPE", Fmt_b, 6);
    ("TOP", Fmt_h, 8);
    ("LEFT", Fmt_h, 10);
    ("BOTTOM", Fmt_h, 12);
    ("RIGHT", Fmt_h, 14);
    ("N_COORDINATES", Fmt_h, 16);
    ("X1", Fmt_f, 18);
    ("Y1", Fmt_f, 22);
    ("X2", Fmt_f, 26);
    ("Y2", Fmt_f, 30);
    ("XD", Fmt_f, 18);
    ("YD", Fmt_f, 22);
    ("WIDTHD", Fmt_f, 26);
    ("HEIGHTD", Fmt_f, 30);
    ("STROKE_WIDTH", Fmt_h, 34);
    ("SHAPE_ROI_SIZE", Fmt_i, 36);
    ("STROKE_COLOR", Fmt_i, 40);
    ("FILL_COLOR", Fmt_i, 44);
    ("SUBTYPE", Fmt_h, 48);
    ("OPTIONS", Fmt_h, 50);
    ("ARROW_STYLE", Fmt_b, 52);
    ("FLOAT_PARAM", Fmt_b, 52);
    ("POINT_TYPE", Fmt_b, 52);
    ("ARROW_HEAD_SIZE", Fmt_b, 53);
    ("ROUNDED_RECT_ARC_SIZE", Fmt_h, 54);
    ("POSITION", Fmt_i, 56);
    ("HEADER2_OFFSET", Fmt_i, 60);
    ("COORDINATES", Fmt_i, 64) ].

Definition _header2_fields : list (string * fmt * Z) :=
  [ ("C_POSITION", Fmt_i, 4);
    ("Z_POSITION", Fmt_i, 8);
    ("T_POSITION", Fmt_i, 12);
    ("NAME_OFFSET", Fmt_i, 16);
    ("NAME_LENGTH", Fmt_i, 20);
    ("OVERLAY_LABEL_COLOR", Fmt_i, 24);
    ("OVERLAY_FONT_SIZE", Fmt_h, 28);
    ("AVAILABLE_BYTE1", Fmt_b, 30);
    ("IMAGE_OPACITY", Fmt_b, 31);
    ("IMAGE_SIZE", Fmt_i, 32);
    ("FLOAT_STROKE_WIDTH", Fmt_f, 36);
    ("ROI_PROPS_OFFSET", Fmt_i, 40);
    ("ROI_PROPS_LENGTH", Fmt_i, 44) ].

Definition _header1_size : Z := 64.
Definition _header2_size : Z := 64.

(** The dictionary comprehension of [__init__]: a later entry with the
    same name would replace an earlier one. *)
Definition header_dict (fields : list (string * fmt * Z))
    : gmap string HeaderTuple.t :=
  foldl (λ d e, <[e.1.1 := HeaderTuple.make e.1.2 (_type_size e.1.2) e.2]> d)
        ∅ fields.

Definition _header1_dict : gmap string HeaderTuple.t :=
  header_dict _header1_fields.
Definition _header2_dict : gmap string HeaderTuple.t :=
  header_dict _header2_fields.

Definition _roi_types_rev : gmap string Z :=
  list_to_map
    [ ("polygon", 0); ("rect", 1); ("oval", 2); ("line", 3); ("freeline", 4);
      ("polyline", 5); ("no_roi", 6); ("freehand", 7); ("traced", 8);
      ("angle", 9); ("point", 10) ].

Definition _roi_types : gmap Z string :=
  list_to_map
    [ (0, "polygon"); (1, "rect"); (2, "oval"); (3, "line"); (4, "freeline");
      (5, "polyline"); (6, "no_roi"); (7, "freehand"); (8, "traces");
      (9, "angle"); (10, "point") ].

(** ** ROI classes *)

Module ROIObject.
Record t : Type := make {
  top : pyval;
  left : pyval;
  bottom : pyval;
  right : pyval;
  name : string;
  position : pyval
}.
End ROIObject.

(** An ROI object as the encoder sees it: an instance of one of the two
    classes of the module, or any other object that carries the base
    attributes and a [type] of its own. *)
Inductive roi : Type :=
  | ROIRect (base : ROIObject.t) (arc : pyval)
  | ROIShape (base : ROIObject.t) (x_coords y_coords : list pyval)
  | ROIOther (type : string) (base : ROIObject.t).

Definition roi_type (r : roi) : string :=
  match r with
  | ROIRect _ _ => "rect"
  | ROIShape _ _ _ => "shape"
  | ROIOther type _ => type
  end.

Definition roi_base (r : roi) : ROIObject.t :=
  match r with
  | ROIRect base _ => base
  | ROIShape base _ _ => base
  | ROIOther _ base => base
  end.

Definition ROIRect_init (top left bottom right arc : pyval) (name : string)
    (position : pyval) : roi :=
  ROIRect (ROIObject.make top left bottom right name position) arc.

(** Arithmetic and comparison of numbers; a NumPy array holds numbers of
    one kind, the mixed cases go through [float]. *)
Definition to_float (v : pyval) : float :=
  match v with
  | PyInt z => float_of_Z z
  | PyFloat f => f
  | PyBytes _ => S754_nan
  end.

Definition py_lt (a b : pyval) : bool :=
  match a, b with
  | PyInt x, PyInt y => bool_decide (x < y)
  | _, _ => SFltb (to_float a) (to_float b)
  end.

Definition py_isnan (a : pyval) : bool :=
  match a with
  | PyFloat f => is_nan f
  | _ => false
  end.

Definition py_sub (a b : pyval) : pyval :=
  match a, b with
  | PyInt x, PyInt y => PyInt (x - y)
  | _, _ => PyFloat (SFsub 53 1024 (to_float a) (to_float b))
  end.

Definition width (r : ROIObject.t) : pyval :=
  py_sub (ROIObject.right r) (ROIObject.left r).

Definition height (r : ROIObject.t) : pyval :=
  py_sub (ROIObject.bottom r) (ROIObject.top r).

(** [ndarray.min()] and [ndarray.max()]: a left-to-right reduction that
    keeps a NaN once it has met one; an empty array is a [ValueError]. *)
Definition np_minimum (io1 in2 : pyval) : pyval :=
  if py_lt io1 in2 || py_isnan io1 then io1 else in2.

Definition np_maximum (io1 in2 : pyval) : pyval :=
  if py_lt in2 io1 || py_isnan io1 then io1 else in2.

Definition np_min (a : list pyval) : result pyval :=
  match a with
  | [] => Raise ValueError
  | x :: a' => Ok (foldl np_minimum x a')
  end.

Definition np_max (a : list pyval) : result pyval :=
  match a with
  | [] => Raise ValueError
  | x :: a' => Ok (foldl np_maximum x a')
  end.

(** [top if not top is None else self.x_coords.min()]. *)
Definition or_else (given : option pyval) (derived : result pyval)
    : result pyval :=
  match given with
  | Some v => Ok v
  | None => derived
  end.

Definition ROIShape_init (x_coords y_coords : list pyval) (name : string)
    (position : pyval) (top left bottom right : option pyval) : result roi :=
  top ← or_else top (np_min x_coords);
  left ← or_else left (np_min x_coords);
  bottom ← or_else bottom (np_max x_coords);
  right ← or_else right (np_max y_coords);
  mret (ROIShape (ROIObject.make top left bottom right name position)
                 x_coords y_coords).

Definition float_0_0 : float := S754_zero false.
Definition float_1_0 : float := float_of_Z 1.
Definition float_4_0 : float := float_of_Z 4.

(** The loop body of [get_shapeArray]: [float(y)], [float(x)], [1.0]. *)
Definition shape_step (shapeArray : list float) (xy : pyval * pyval)
    : result (list float) :=
  fy ← py_float xy.2;
  fx ← py_float xy.1;
  mret (shapeArray ++ [fy; fx; float_1_0]).

Fixpoint shape_loop (shapeArray : list float) (pairs : list (pyval * pyval))
    : result (list float) :=
  match pairs with
  | [] => Ok shapeArray
  | xy :: pairs' =>
      shapeArray' ← shape_step shapeArray xy;
      shape_loop shapeArray' pairs'
  end.

Definition get_shapeArray (x_coords y_coords : list pyval)
    : result (list float) :=
  shapeArray ← shape_loop [float_0_0] (zip x_coords y_coords);
  mret (removelast shapeArray ++ [float_4_0]).

Definition enumerate {A} (l : list A) : list (nat * A) :=
  zip (seq 0 (length l)) l.

Definition get_coords_from_shapeArray {A} (shapeArray : list A)
    : list A * list A :=
  let x_coords :=
    (filter (λ iv, iv.1 mod 3 = 2)%nat (enumerate shapeArray)).*2 in
  let y_coords :=
    (filter (λ iv, iv.1 mod 3 = 1)%nat (enumerate shapeArray)).*2 in
  (x_coords, y_coords).

(** ** State and exceptions

    The encoder and the decoder are objects whose methods update
    attributes and may raise; a method is a function from the object's
    state to an outcome and the state it leaves behind, also when it
    raises. *)
Definition ST (S A : Type) : Type := S → result A * S.

#[global] Instance ST_ret {S} : MRet (ST S) := λ A a s, (Ok a, s).

#[global] Instance ST_bind {S} : MBind (ST S) := λ A B k m s,
  match m s with
  | (Ok a, s') => k a s'
  | (Raise e, s') => (Raise e, s')
  end.

Definition raise {S A} (e : exn) : ST S A := λ s, (Raise e, s).
Definition lift {S A} (r : result A) : ST S A := λ s, (r, s).
Definition get {S} : ST S S := λ s, (Ok s, s).
Definition modify {S} (f : S → S) : ST S unit := λ s, (Ok tt, f s).

(** A [for] loop over a list. *)
Fixpoint for_each {S A} (l : list A) (body : A → ST S unit) : ST S unit :=
  match l with
  | [] => mret tt
  | a :: l' => body a;; for_each l' body
  end.

(** ** The encoder ([ROIEncoder]) *)

Module Enc.
Record t : Type := make {
  roi_obj : roi;
  header2_offset : Z;
  f_obj : list byte
}.
End Enc.

Definition set_f_obj (f : list byte → list byte) (self : Enc.t) : Enc.t :=
  Enc.make (Enc.roi_obj self) (Enc.header2_offset self) (f (Enc.f_obj self)).

Definition set_header2_offset (v : Z) (self : Enc.t) : Enc.t :=
  Enc.make (Enc.roi_obj self) v (Enc.f_obj self).

Definition _write_var (offset : Z) (var_type : fmt) (value : pyval)
    : ST Enc.t unit :=
  (if bool_decide (offset < 0) then raise (IOError "Invalid argument")
   else mret tt);;
  binary ← lift (struct_pack var_type value);
  modify (set_f_obj (write_at (Z.to_nat offset) binary)).

Definition _write_header (header_name : string) (value : pyval)
    : ST Enc.t unit :=
  self ← get;
  match _header1_dict !! header_name with
  | Some header =>
      _write_var (HeaderTuple.offset header) (HeaderTuple.type header) value
  | None =>
      match _header2_dict !! header_name with
      | Some header =>
          _write_var (HeaderTuple.offset header + Enc.header2_offset self)
                     (HeaderTuple.type header) value
      | None =>
          raise (Exception ("Header variable " +:+ header_name +:+ " not found"))
      end
  end.

Definition _write_name : ST Enc.t unit :=
  self ← get;
  let offset := _header2_size + Enc.header2_offset self in
  let name := ROIObject.name (roi_base (Enc.roi_obj self)) in
  _write_header "NAME_OFFSET" (PyInt offset);;
  _write_header "NAME_LENGTH" (PyInt (Z.of_nat (String.length name)));;
  _write_var offset (Fmt_s (String.length name)) (PyBytes (utf8 name)).

(** [d[k]] on a dictionary. *)
Definition getitem {K V S} `{Countable K} (d : gmap K V) (k : K) : ST S V :=
  match d !! k with
  | Some v => mret v
  | None => raise KeyError
  end.

Definition _write_roi_rect : ST Enc.t unit :=
  self ← get;
  let roi_obj := Enc.roi_obj self in
  tag ← getitem _roi_types_rev (roi_type roi_obj);
  _write_header "TYPE" (PyInt tag);;
  _write_header "TOP" (ROIObject.top (roi_base roi_obj));;
  _write_header "LEFT" (ROIObject.left (roi_base roi_obj));;
  _write_header "BOTTOM" (ROIObject.bottom (roi_base roi_obj));;
  _write_header "RIGHT" (ROIObject.right (roi_base roi_obj));;
  _write_header "POSITION" (ROIObject.position (roi_base roi_obj));;
  _write_header "HEADER2_OFFSET" (PyInt _header1_size);;
  _write_name.

(** The float loop of [_write_roi_shape], [base] advancing by 4. *)
Fixpoint write_floats (base : Z) (shapeArray : list float) : ST Enc.t unit :=
  match shapeArray with
  | [] => mret tt
  | f :: rest => _write_var base Fmt_f (PyFloat f);; write_floats (base + 4) rest
  end.

(** [self.roi_obj.get_shapeArray()]: only a [ROIShape] has the method. *)
Definition roi_get_shapeArray (r : roi) : result (list float) :=
  match r with
  | ROIShape _ x_coords y_coords => get_shapeArray x_coords y_coords
  | _ => Raise (AttributeError "get_shapeArray")
  end.

Definition _write_roi_shape : ST Enc.t unit :=
  self ← get;
  let roi_obj := Enc.roi_obj self in
  shapeArray ← lift (roi_get_shapeArray roi_obj);
  tag ← getitem _roi_types_rev "rect";
  _write_header "TYPE" (PyInt tag);;
  _write_header "TOP" (ROIObject.top (roi_base roi_obj));;
  _write_header "LEFT" (ROIObject.left (roi_base roi_obj));;
  _write_header "BOTTOM" (ROIObject.bottom (roi_base roi_obj));;
  _write_header "RIGHT" (ROIObject.right (roi_base roi_obj));;
  _write_header "POSITION" (ROIObject.position (roi_base roi_obj));;
  _write_header "SHAPE_ROI_SIZE" (PyInt (Z.of_nat (length shapeArray)));;
  self ← get;
  write_floats (Enc.header2_offset self) shapeArray;;
  self ← get;
  modify (set_header2_offset
            (Enc.header2_offset self + 4 * Z.of_nat (length shapeArray)));;
  self ← get;
  _write_header "HEADER2_OFFSET" (PyInt (Enc.header2_offset self));;
  _write_name.

Definition not_implemented_writer (kind : string) : ST Enc.t unit :=
  raise (NotImplementedError
           ("Writing roi type " +:+ kind +:+ " is not implemented")).

(** The [_write_roi_*] methods of the class, as [getattr] finds them. *)
Definition encoder_methods : list (string * ST Enc.t unit) :=
  [ ("_write_roi_rect", _write_roi_rect);
    ("_write_roi_shape", _write_roi_shape);
    ("_write_roi_polygon", not_implemented_writer "polygon");
    ("_write_roi_oval", not_implemented_writer "oval");
    ("_write_roi_line", not_implemented_writer "line");
    ("_write_roi_freeline", not_implemented_writer "freeline");
    ("_write_roi_polyline", not_implemented_writer "polyline");
    ("_write_roi_no_roi", not_implemented_writer "no roi");
    ("_write_roi_freehand", not_implemented_writer "freehand");
    ("_write_roi_traced", not_implemented_writer "traced");
    ("_write_roi_angle", not_implemented_writer "angle");
    ("_write_roi_point", not_implemented_writer "point") ].

Definition getattr {M} (methods : list (string * M)) (attr : string)
    : result M :=
  match list_find (λ m, m.1 = attr) methods with
  | Some (_, m) => Ok m.2
  | None => Raise (AttributeError attr)
  end.

(** [b'Iout'] *)
Definition magic : list byte := [x49; x6f; x75; x74].

(** The body of [write] once the file is open: pad, magic, version and
    the type-specific writer. *)
Definition write_body : ST Enc.t unit :=
  modify (set_f_obj (write_at 0 (replicate 128 x00)));;
  _write_header "MAGIC" (PyBytes magic);;
  _write_header "VERSION_OFFSET" (PyInt 225);;
  self ← get;
  roi_writer ← lift (getattr encoder_methods
                       ("_write_roi_" +:+ roi_type (Enc.roi_obj self)));
  roi_writer.

(** ** The file system

    Plain files by path, and zip archives by path as the ordered list of
    their entries (name and uncompressed content).  Paths are compared as
    strings, and directories are taken to exist. *)
Module World.
Record t : Type := make {
  files : gmap string (list byte);
  zips : gmap string (list (string * list byte))
}.
End World.

Definition set_file (path : string) (content : list byte) (w : World.t)
    : World.t :=
  World.make (<[path := content]> (World.files w)) (World.zips w).

(** [write(path, roi_obj)].  The file is created by [open] and holds
    whatever has been written when the method returns or raises. *)
Definition write (path : string) (roi_obj : roi) : ST World.t unit :=
  λ w,
    let '(r, self) := write_body (Enc.make roi_obj _header1_size []) in
    (r, set_file path (Enc.f_obj self) w).

(** ** Paths ([os.path] on POSIX) *)

Fixpoint str_take (n : nat) (s : string) : string :=
  match n, s with
  | S n', String c s' => String c (str_take n' s')
  | _, _ => EmptyString
  end.

Fixpoint str_drop (n : nat) (s : string) : string :=
  match n, s with
  | S n', String _ s' => str_drop n' s'
  | _, _ => s
  end.

(** [s.rfind(c)]: the index of the last occurrence, or -1. *)
Fixpoint rfind (c : ascii) (s : string) : Z :=
  match s with
  | EmptyString => -1
  | String a s' =>
      let r := rfind c s' in
      if bool_decide (0 ≤ r) then r + 1
      else if bool_decide (a = c) then 0 else -1
  end.

Fixpoint all_chars (c : ascii) (s : string) : bool :=
  match s with
  | EmptyString => true
  | String a s' => bool_decide (a = c) && all_chars c s'
  end.

Fixpoint rstrip (c : ascii) (s : string) : string :=
  match s with
  | EmptyString => EmptyString
  | String a s' =>
      match rstrip c s' with
      | EmptyString => if bool_decide (a = c) then EmptyString else String a EmptyString
      | t => String a t
      end
  end.

Fixpoint lstrip (c : ascii) (s : string) : string :=
  match s with
  | EmptyString => EmptyString
  | String a s' => if bool_decide (a = c) then lstrip c s' else s
  end.

Definition basename (p : string) : string :=
  str_drop (Z.to_nat (rfind "/" p + 1)) p.

Definition dirname (p : string) : string :=
  let head := str_take (Z.to_nat (rfind "/" p + 1)) p in
  if all_chars "/" head then head else rstrip "/" head.

(** [splitext]: the extension starts at the last dot of the last
    component, unless only dots come before it there. *)
Definition splitext (p : string) : string * string :=
  let sepIndex := rfind "/" p in
  let dotIndex := rfind "." p in
  if bool_decide (sepIndex < dotIndex)
     && negb (all_chars "."
                (str_take (Z.to_nat (dotIndex - (sepIndex + 1)))
                          (str_drop (Z.to_nat (sepIndex + 1)) p)))
  then (str_take (Z.to_nat dotIndex) p, str_drop (Z.to_nat dotIndex) p)
  else (p, EmptyString).

(** [p.split('/')]. *)
Fixpoint split_sep (p : string) : list string :=
  match p with
  | EmptyString => [EmptyString]
  | String a p' =>
      if bool_decide (a = "/"%char) then EmptyString :: split_sep p'
      else match split_sep p' with
           | [] => [String a EmptyString]
           | comp :: comps => String a comp :: comps
           end
  end.

Fixpoint join_sep (comps : list string) : string :=
  match comps with
  | [] => EmptyString
  | [comp] => comp
  | comp :: comps' => comp +:+ "/" +:+ join_sep comps'
  end.

(** One turn of the loop of [normpath] over the components. *)
Definition normpath_step (initial_slashes : nat) (new_comps : list string)
    (comp : string) : list string :=
  if bool_decide (comp = EmptyString ∨ comp = ".") then new_comps
  else if bool_decide (comp ≠ ".."
                       ∨ (initial_slashes = 0%nat ∧ new_comps = [])
                       ∨ last new_comps = Some "..")
  then new_comps ++ [comp]
  else removelast new_comps.

Definition normpath (path : string) : string :=
  if bool_decide (path = EmptyString) then "."
  else
    let initial_slashes :=
      if String.prefix "/" path then
        if String.prefix "//" path && negb (String.prefix "///" path)
        then 2%nat else 1%nat
      else 0%nat in
    let comps := foldl (normpath_step initial_slashes) [] (split_sep path) in
    let path := join_sep comps in
    let path :=
      String.concat EmptyString (replicate initial_slashes "/") +:+ path in
    if bool_decide (path = EmptyString) then "." else path.

(** The entry name [ZipFile.write] gives a file added by its path: the
    normalised path without leading separators. *)
Definition arcname (filename : string) : string :=
  lstrip "/" (normpath filename).

(** ** The zip adapter, writing side *)

Definition set_zip (path : string) (entries : list (string * list byte))
    (w : World.t) : World.t :=
  World.make (World.files w) (<[path := entries]> (World.zips w)).

(** [zf.write(file_path)]: append the file as a new entry. *)
Definition zf_write (arc_path file_path : string) : ST World.t unit :=
  w ← get;
  match World.files w !! file_path with
  | None => raise FileNotFoundError
  | Some content =>
      modify (set_zip arc_path
                (default [] (World.zips w !! arc_path)
                   ++ [(arcname file_path, content)]))
  end.

(** [shutil.rmtree(dir)]: the files below [dir] are gone. *)
Definition rmtree (dir : string) (w : World.t) : World.t :=
  World.make
    (filter (λ kv, String.prefix (dir +:+ "/") kv.1 = false) (World.files w))
    (World.zips w).

Definition temp_dir_name (arc_path : string) : string :=
  let dir_name := dirname arc_path in
  let arc_name := (splitext (basename arc_path)).1 in
  dir_name +:+ "//RoiSet_" +:+ str_take (String.length arc_name - 4) arc_name.

Definition file_path (arc_path : string) (roi : roi) : string :=
  temp_dir_name arc_path +:+ "//" +:+ ROIObject.name (roi_base roi)
    +:+ ".roi".

Definition write_zip (arc_path : string) (rois : list roi)
    : ST World.t unit :=
  modify (set_zip arc_path []);;
  for_each rois (λ roi,
    write (file_path arc_path roi) roi;;
    zf_write arc_path (file_path arc_path roi));;
  modify (rmtree (temp_dir_name arc_path)).

(** ** The decoder ([ROIDecoder]) *)

Module Dec.
Record t : Type := make {
  data : list byte;
  name : string;
  header : gmap string pyval
}.
End Dec.

Definition set_header (f : gmap string pyval → gmap string pyval)
    (self : Dec.t) : Dec.t :=
  Dec.make (Dec.data self) (Dec.name self) (f (Dec.header self)).

Definition _get_var (offset : Z) (var_size : nat) (var_type : fmt)
    : ST Dec.t pyval :=
  self ← get;
  let binary :=
    py_slice (Dec.data self) offset (offset + Z.of_nat var_size) in
  lift (struct_unpack var_type binary).

Definition _get_header (header_name : string) : ST Dec.t pyval :=
  self ← get;
  match _header1_dict !! header_name with
  | Some header =>
      _get_var (HeaderTuple.offset header) (HeaderTuple.size header)
               (HeaderTuple.type header)
  | None =>
      match _header2_dict !! header_name with
      | Some header =>
          h2 ← getitem (Dec.header self) "HEADER2_OFFSET";
          match h2 with
          | PyInt h2 =>
              _get_var (HeaderTuple.offset header + h2)
                       (HeaderTuple.size header) (HeaderTuple.type header)
          | _ => raise TypeError
          end
      | None =>
          raise (Exception ("Header variable " +:+ header_name +:+ " not found"))
      end
  end.

Definition _set_header (header_name : string) : ST Dec.t unit :=
  value ← _get_header header_name;
  modify (set_header (insert header_name value)).

Definition to_read_h1 : list string :=
  [ "VERSION_OFFSET"; "TYPE"; "SUBTYPE"; "TOP"; "LEFT"; "BOTTOM"; "RIGHT";
    "N_COORDINATES"; "STROKE_WIDTH"; "SHAPE_ROI_SIZE"; "STROKE_COLOR";
    "FILL_COLOR"; "SUBTYPE"; "OPTIONS"; "POSITION"; "HEADER2_OFFSET" ].

(** Iterating [_header2_dict] gives its keys in insertion order. *)
Definition to_read_h2 : list string := _header2_fields.*1.*1.

Definition set_zero : list string :=
  [ "OVERLAY_LABEL_COLOR"; "OVERLAY_FONT_SIZE"; "IMAGE_OPACITY" ].

(** [a == b] on the values a header can hold. *)
Definition py_eq (a b : pyval) : bool :=
  match a, b with
  | PyInt x, PyInt y => bool_decide (x = y)
  | PyBytes x, PyBytes y => bool_decide (x = y)
  | PyBytes _, _ | _, PyBytes _ => false
  | _, _ => SFeqb (to_float a) (to_float b)
  end.

Definition read_header : ST Dec.t unit :=
  modify (set_header (λ _, ∅));;
  m ← _get_header "MAGIC";
  (if py_eq m (PyBytes magic) then mret tt
   else raise (IOError "Invalid ROI file, magic number mismatch"));;
  for_each (to_read_h1 ++ to_read_h2) _set_header;;
  for_each set_zero (λ h, modify (set_header (insert h (PyInt 0)))).

(** [self.header[k]]. *)
Definition header_item (k : string) : ST Dec.t pyval :=
  self ← get;
  getitem (Dec.header self) k.

Definition _read_roi_rect : ST Dec.t roi :=
  _set_header "ROUNDED_RECT_ARC_SIZE";;
  arc ← header_item "ROUNDED_RECT_ARC_SIZE";
  for_each ["TOP"; "LEFT"; "BOTTOM"; "RIGHT"; "POSITION"] _set_header;;
  top ← header_item "TOP";
  left ← header_item "LEFT";
  bottom ← header_item "BOTTOM";
  right ← header_item "RIGHT";
  position ← header_item "POSITION";
  self ← get;
  mret (ROIRect_init top left bottom right arc (Dec.name self) position).

(** The float loop of [_read_roi_shape], [base] advancing by 4. *)
Fixpoint read_floats (base : Z) (n : nat) : ST Dec.t (list pyval) :=
  match n with
  | O => mret []
  | S n' =>
      v ← _get_var base 4 Fmt_f;
      rest ← read_floats (base + 4) n';
      mret (v :: rest)
  end.

Definition _read_roi_shape : ST Dec.t roi :=
  type ← header_item "TYPE";
  rect ← getitem _roi_types_rev "rect";
  (if py_eq type (PyInt rect) then mret tt
   else raise (Exception "Invalid composite ROI type"));;
  top ← header_item "TOP";
  left ← header_item "LEFT";
  bottom ← header_item "BOTTOM";
  right ← header_item "RIGHT";
  position ← header_item "POSITION";
  n ← header_item "SHAPE_ROI_SIZE";
  shapeArray ←
    match n with
    | PyInt n => read_floats 64 (Z.to_nat n)
    | _ => raise TypeError
    end;
  let '(x_coords, y_coords) := get_coords_from_shapeArray shapeArray in
  self ← get;
  lift (ROIShape_init x_coords y_coords (Dec.name self) position
          (Some top) (Some left) (Some bottom) (Some right)).

Definition not_implemented_reader (kind : string) : ST Dec.t roi :=
  raise (NotImplementedError
           ("Reading roi type " +:+ kind +:+ " is not implemented")).

(** The [_read_roi_*] methods of the class, as [getattr] finds them. *)
Definition decoder_methods : list (string * ST Dec.t roi) :=
  [ ("_read_roi_rect", _read_roi_rect);
    ("_read_roi_shape", _read_roi_shape);
    ("_read_roi_polygon", not_implemented_reader "polygon");
    ("_read_roi_oval", not_implemented_reader "oval");
    ("_read_roi_line", not_implemented_reader "line");
    ("_read_roi_freeline", not_implemented_reader "freeline");
    ("_read_roi_polyline", not_implemented_reader "polyline");
    ("_read_roi_no_roi", not_implemented_reader "no roi");
    ("_read_roi_freehand", not_implemented_reader "freehand");
    ("_read_roi_traced", not_implemented_reader "traced");
    ("_read_roi_angle", not_implemented_reader "angle");
    ("_read_roi_point", not_implemented_reader "point") ].

(** [v > 0]. *)
Definition py_gt_0 (v : pyval) : result bool :=
  match v with
  | PyInt z => Ok (bool_decide (0 < z))
  | PyFloat f => Ok (SFltb (S754_zero false) f)
  | PyBytes _ => Raise TypeError
  end.

(** [self._roi_types[self.header['TYPE']]]. *)
Definition roi_type_name : ST Dec.t string :=
  type ← header_item "TYPE";
  match type with
  | PyInt tag => getitem _roi_types tag
  | _ => raise KeyError
  end.

(** The body of [read] once [self.data] and [self.name] are set. *)
Definition read_body : ST Dec.t roi :=
  read_header;;
  size ← header_item "SHAPE_ROI_SIZE";
  is_composite ← lift (py_gt_0 size);
  if is_composite : bool then _read_roi_shape
  else
    kind ← roi_type_name;
    match getattr decoder_methods ("_read_roi_" +:+ kind) with
    | Ok roi_reader => roi_reader
    | Raise (AttributeError _) =>
        raise (NotImplementedError
                 ("Reading roi type " +:+ kind +:+ " not implemented"))
    | Raise e => raise e
    end.

(** What [read] accepts: an open archive member or a path. *)
Inductive roi_source : Type :=
  | ZipExtFile (name : string) (content : list byte)
  | PathStr (path : string).

Definition stem (path : string) : string := (splitext (basename path)).1.

Definition read (roi_path : roi_source) (w : World.t) : result roi :=
  init ←
    match roi_path with
    | ZipExtFile name content => Ok (Dec.make content (stem name) ∅)
    | PathStr path =>
        match World.files w !! path with
        | Some content => Ok (Dec.make content (stem path) ∅)
        | None => Raise FileNotFoundError
        end
    end;
  (read_body init).1.

(** [zf.open(n)]: the member recorded last under the name [n]. *)
Definition zf_open (entries : list (string * list byte)) (n : string)
    : result roi_source :=
  match list_find (λ e, e.1 = n) (reverse entries) with
  | Some (_, e) => Ok (ZipExtFile n e.2)
  | None => Raise KeyError
  end.

Fixpoint read_entries (entries : list (string * list byte))
    (names : list string) (w : World.t) : result (list roi) :=
  match names with
  | [] => Ok []
  | n :: names' =>
      member ← zf_open entries n;
      r ← read member w;
      rois ← read_entries entries names' w;
      mret (r :: rois)
  end.

Definition read_zip (zip_path : string) (w : World.t) : result (list roi) :=
  match World.zips w !! zip_path with
  | None => Raise FileNotFoundError
  | Some entries => read_entries entries entries.*1 w
  end.

(** ** Notions used in the statements *)

(** A value [struct.pack] accepts comes back from [struct.unpack], a
    float to single precision. *)
Definition unpacked (t : fmt) (v : pyval) : pyval :=
  match t, v with
  | Fmt_f, PyFloat x => PyFloat (as_single x)
  | Fmt_f, PyInt z => PyFloat (as_single (float_of_Z z))
  | Fmt_s n, PyBytes bs => PyBytes (pack_bytes n bs)
  | _, _ => v
  end.

(** The [n] bytes of a file from position [a] on. *)
Definition sub {A} (a n : nat) (f : list A) : list A := take n (drop a f).

(** The value of format [t] stored at [offset], as [_get_var] reads it. *)
Definition field_at (data : list byte) (offset : Z) (t : fmt) : result pyval :=
  struct_unpack t (py_slice data offset (offset + Z.of_nat (calcsize t))).

(** The four bytes [struct.pack('>f', x)] produces when it succeeds. *)
Definition float_image (x : float) : list byte :=
  be_bytes 4 (bits_of_single (single_of_double x)).

(** The fields both writers store: type tag, bounding box and position,
    over the zero pad with magic and version. *)
Definition pad_image : list byte :=
  write_at 4 [x00; xe1] (write_at 0 magic (replicate 128 x00)).

Definition common_image (btag bt bl bb br bp : list byte) (f : list byte)
    : list byte :=
  write_at 56 bp (write_at 14 br (write_at 12 bb (write_at 10 bl
    (write_at 8 bt (write_at 6 btag f))))).

(** What [_write_name] adds for a header block 2 based at [h2]. *)
Definition name_image (h2 : nat) (name : string) (f : list byte) : list byte :=
  write_at (64 + h2) (pack_bytes (String.length name) (utf8 name))
    (write_at (20 + h2) (be_bytes 4 (Z.of_nat (String.length name)))
       (write_at (16 + h2) (be_bytes 4 (Z.of_nat (64 + h2))) f)).

Definition rect_image (bt bl bb br bp : list byte) (name : string)
    : list byte :=
  name_image 64 name
    (write_at 60 (be_bytes 4 64)
       (common_image [x01] bt bl bb br bp pad_image)).

Definition shape_image (bt bl bb br bp : list byte) (shapeArray : list float)
    (name : string) : list byte :=
  let n := length shapeArray in
  name_image (64 + 4 * n) name
    (write_at 60 (be_bytes 4 (Z.of_nat (64 + 4 * n)))
       (write_at 64 (concat (float_image <$> shapeArray))
          (write_at 36 (be_bytes 4 (Z.of_nat n))
             (common_image [x01] bt bl bb br bp pad_image)))).

(** The value [_get_header] finds for a field of header block 1, and for
    a field of header block 2 based at [h2]. *)
Definition h1_field (data : list byte) (k : string) : result pyval :=
  match _header1_dict !! k with
  | Some hd => field_at data (HeaderTuple.offset hd) (HeaderTuple.type hd)
  | None => Raise KeyError
  end.

Definition h2_field (data : list byte) (h2 : Z) (k : string) : result pyval :=
  match _header2_dict !! k with
  | Some hd => field_at data (HeaderTuple.offset hd + h2) (HeaderTuple.type hd)
  | None => Raise KeyError
  end.

(** The raw header fields of a buffer that the decoder branches on. *)
Definition stored_type (data : list byte) : Z := unpack_int 1 (sub 6 1 data).
Definition stored_shape_roi_size (data : list byte) : Z :=
  unpack_int 4 (sub 36 4 data).
Definition stored_header2_offset (data : list byte) : Z :=
  unpack_int 4 (sub 60 4 data).

(** What the shape writer emits for the coordinate pairs, in the words of
    the specification: [y, x, 1.0] for each pair [(x, y)]. *)
Definition emitted (pairs : list (pyval * pyval)) : list float :=
  flat_map (λ xy, [to_float xy.2; to_float xy.1; float_1_0]) pairs.

(** The flat array of the specification: a leading [0.0], the emitted
    values without the last one, a trailing [4.0]. *)
Definition shape_array_spec (x_coords y_coords : list pyval) : list float :=
  [float_0_0] ++ removelast (emitted (zip x_coords y_coords)) ++ [float_4_0].

(** A coordinate [float()] accepts. *)
Definition convertible (v : pyval) : Prop := py_float v = Ok (to_float v).

(** A coordinate as it comes back from a file: a float, rounded to single
    precision. *)
Definition to_single (v : pyval) : pyval := PyFloat (as_single (to_float v)).

(** The values of a list at the indices congruent to [r] modulo 3, the
    first element having index [k]. *)
Definition every_third {A} (r k : nat) (l : list A) : list A :=
  (filter (λ iv, iv.1 mod 3 = r)%nat (zip (seq k (length l)) l)).*2.

(** The shape array with an arbitrary leading and trailing value. *)
Definition shape_form (c z : float) (pairs : list (pyval * pyval))
    : list float :=
  removelast (c :: emitted pairs) ++ [z].

(** The kinds the format knows and the module does not implement, and the
    words the encoder's message uses for each. *)
Definition unsupported_kinds : list string :=
  [ "polygon"; "oval"; "line"; "freeline"; "polyline"; "no_roi"; "freehand";
    "traced"; "angle"; "point" ].

Definition kind_label (kind : string) : string :=
  if bool_decide (kind = "no_roi") then "no roi" else kind.


(** A name without ['/'], and a name that is not made of dots only. *)
Definition no_slash (s : string) : Prop := rfind "/" s = -1.

(** The name the decoder gives an ROI read from the file [<name>.roi]. *)
Definition roi_file_stem (name : string) : string :=
  (splitext (name +:+ ".roi")).1.

(** What decoding makes of an encoded ROI, [name'] being the name taken
    from the file: a rectangle loses its corner arc, a shape has its
    zipped coordinates to single precision. *)
Definition rename (name' : string) (base : ROIObject.t) : ROIObject.t :=
  ROIObject.make (ROIObject.top base) (ROIObject.left base)
    (ROIObject.bottom base) (ROIObject.right base) name'
    (ROIObject.position base).

Definition decoded (name' : string) (r : roi) : roi :=
  match r with
  | ROIShape base x_coords y_coords =>
      ROIShape (rename name' base)
        (to_single <$> (zip x_coords y_coords).*1)
        (to_single <$> (zip x_coords y_coords).*2)
  | _ => ROIRect (rename name' (roi_base r)) (PyInt 0)
  end.

(** A path whose last component is [f]. *)
Definition ends_in_file (s f : string) : Prop :=
  s = f ∨ ∃ z, s = z +:+ "/" +:+ f.

(** Header block 2 of the encoded ROI lies inside its file: always for a
    rectangle; for a shape, when the name is not empty or at most one
    pair is stored. *)
Definition header2_fits (r : roi) : Prop :=
  match r with
  | ROIShape base x_coords y_coords =>
      ROIObject.name base ≠ EmptyString ∨ (length (zip x_coords y_coords) ≤ 1)%nat
  | _ => True
  end.


(** The name of the archive entry of an ROI. *)
Definition entry_name (arc_path : string) (r : roi) : string :=
  arcname (file_path arc_path r).

(** ** Sample inputs *)

(** The world in which nothing has been written yet. *)
Definition empty_world : World.t := World.make ∅ ∅.

Definition sample_shape : roi :=
  ROIShape (ROIObject.make (PyInt 1) (PyInt 1) (PyInt 3) (PyInt 6)
              "roi-0000-0000" (PyInt 0))
           [PyInt 1; PyInt 2; PyInt 3] [PyInt 4; PyInt 5; PyInt 6].

(** The rectangle of the specification's scenario, and the same with a
    corner arc. *)
Definition sample_rect : roi :=
  ROIRect_init (PyInt 10) (PyInt 5) (PyInt 50) (PyInt 40) (PyInt 0)
    "roi-0001-0000" (PyInt 1).

Definition sample_rounded_rect : roi :=
  ROIRect_init (PyInt 10) (PyInt 5) (PyInt 50) (PyInt 40) (PyInt 7)
    "roi-0001-0000" (PyInt 1).

(** A buffer that stops after header block 1: valid magic, type tag 2
    (oval), SHAPE_ROI_SIZE = 1 and HEADER2_OFFSET = 64. *)
Definition truncated_composite : list byte :=
  write_at 60 [x00; x00; x00; x40]
    (write_at 36 [x00; x00; x00; x01]
       (write_at 6 [x02] (write_at 0 magic (replicate 64 x00)))).

Definition sample_base : ROIObject.t :=
  ROIObject.make (PyInt 10) (PyInt 5) (PyInt 50) (PyInt 40) "roi-0001-0000"
    (PyInt 1).

(** Two rectangles with different bounds whose names, "x" and "./x", are
    different but lead to the same file. *)
Definition rect_x : roi :=
  ROIRect_init (PyInt 1) (PyInt 2) (PyInt 3) (PyInt 4) (PyInt 0) "x" (PyInt 1).

Definition rect_dot_x : roi :=
  ROIRect_init (PyInt 5) (PyInt 6) (PyInt 7) (PyInt 8) (PyInt 0) "./x"
    (PyInt 2).

(** ** Areas *)

(** Multiplication of numbers. *)
Definition py_mul (a b : pyval) : pyval :=
  match a, b with
  | PyInt x, PyInt y => PyInt (x * y)
  | _, _ => PyFloat (SFmul 53 1024 (to_float a) (to_float b))
  end.

(** The [area] property: [ROIRect] has its own, the other classes
    inherit the one of [ROIObject]. *)
Definition area (r : roi) : result pyval :=
  match r with
  | ROIRect base arc =>
      if py_eq arc (PyInt 0) then Ok (py_mul (width base) (height base))
      else Raise (NotImplementedError "Rounded rectangle area not implemented")
  | _ => Raise (NotImplementedError "Area not implemented")
  end.

(** ** More sample inputs *)

(** A 128-byte buffer as another program may write it: valid magic, type
    tag [tag], corner arc 7 at bytes 54-55, HEADER2_OFFSET = 64 and no
    name. *)
Definition foreign_buffer (tag : byte) : list byte :=
  write_at 60 [x00; x00; x00; x40]
    (write_at 54 [x00; x07]
       (write_at 6 [tag] (write_at 0 magic (replicate 128 x00)))).


(** * Properties *)

(** ** Bytes and integers *)

Lemma Z_of_byte_range b : 0 ≤ Z_of_byte b < 256.
Proof.
  unfold Z_of_byte. pose proof (Byte.to_N_bounded b). lia.
Qed.

Lemma Z_of_byte_of_Z z : Z_of_byte (byte_of_Z z) = z mod 256.
Proof.
  unfold Z_of_byte, byte_of_Z.
  assert (Hr : 0 ≤ z mod 256 < 256) by (apply Z.mod_pos_bound; lia).
  destruct (Byte.of_N (Z.to_N (z mod 256))) as [b|] eqn:Hb; simpl.
  - apply Byte.to_of_N in Hb. rewrite Hb. lia.
  - apply Byte.of_N_None_iff in Hb. lia.
Qed.

Lemma length_be_bytes n z : length (be_bytes n z) = n.
Proof. induction n; simpl; congruence. Qed.

Lemma be_value_acc bs acc :
  fold_left (λ a b, a * 256 + Z_of_byte b) bs acc
  = acc * 256 ^ Z.of_nat (length bs) + be_value bs.
Proof.
  unfold be_value. revert acc.
  induction bs as [|b bs IH]; intros acc; simpl fold_left.
  - simpl. lia.
  - rewrite IH, (IH (0 * 256 + Z_of_byte b)).
    rewrite length_cons, Nat2Z.inj_succ, Z.pow_succ_r by lia. lia.
Qed.

Lemma be_value_cons b bs :
  be_value (b :: bs) = Z_of_byte b * 256 ^ Z.of_nat (length bs) + be_value bs.
Proof.
  unfold be_value at 1. simpl fold_left. rewrite be_value_acc. lia.
Qed.

Lemma be_value_be_bytes n z :
  be_value (be_bytes n z) = z mod 256 ^ Z.of_nat n.
Proof.
  induction n as [|k IH].
  - unfold be_value. simpl. rewrite Z.mod_1_r. done.
  - simpl be_bytes. rewrite be_value_cons, IH, length_be_bytes, Z_of_byte_of_Z.
    rewrite Nat2Z.inj_succ, Z.pow_succ_r by lia.
    assert (0 < 256 ^ Z.of_nat k) by (apply Z.pow_pos_nonneg; lia).
    rewrite (Z.mul_comm 256), Z.rem_mul_r by lia. lia.
Qed.

Lemma pack_int_inv n v bs :
  pack_int n v = Ok bs →
  let half := 256 ^ Z.of_nat n / 2 in
  - half ≤ v < half ∧ bs = be_bytes n (v mod 256 ^ Z.of_nat n).
Proof.
  unfold pack_int. case_bool_decide; [|done]. intros [= <-]. done.
Qed.

Lemma unpack_pack_int n v bs :
  (0 < n)%nat → pack_int n v = Ok bs →
  length bs = n ∧ unpack_int n bs = v.
Proof.
  intros Hn [Hv ->]%pack_int_inv. rewrite length_be_bytes. split; [done|].
  unfold unpack_int. rewrite be_value_be_bytes.
  assert (Hp : 256 ^ Z.of_nat n = 2 * (256 ^ Z.of_nat n / 2)).
  { destruct n as [|k]; [lia|].
    rewrite Nat2Z.inj_succ, Z.pow_succ_r by lia.
    replace (256 * 256 ^ Z.of_nat k) with ((128 * 256 ^ Z.of_nat k) * 2) by lia.
    rewrite Z.div_mul by lia. lia. }
  set (m := 256 ^ Z.of_nat n) in *. set (h := m / 2) in *.
  assert (0 < h).
  { assert (0 < m) by (apply Z.pow_pos_nonneg; lia). lia. }
  rewrite Z.mod_mod by lia.
  destruct (decide (0 ≤ v)).
  - rewrite Z.mod_small by lia. case_bool_decide; lia.
  - replace (v mod m) with (v + m).
    + case_bool_decide; lia.
    + apply Z.mod_unique with (-1); lia.
Qed.

(** ** Floats *)

Lemma join_bits_range s e m : 0 ≤ join_bits s e m < 256 ^ 4.
Proof.
  unfold join_bits.
  pose proof (Z.mod_pos_bound e (2 ^ 8)).
  pose proof (Z.mod_pos_bound m (2 ^ 23)).
  destruct s; lia.
Qed.

Lemma bits_of_single_range y : 0 ≤ bits_of_single y < 256 ^ 4.
Proof.
  destruct y; simpl; try case_bool_decide; apply join_bits_range.
Qed.

Lemma pack_float_inv x bs :
  pack_float x = Ok bs →
  bs = be_bytes 4 (bits_of_single (single_of_double x)).
Proof.
  unfold pack_float. destruct (_ && _); [done|]. by intros [= <-].
Qed.

Lemma unpack_pack_float x bs :
  pack_float x = Ok bs → length bs = 4%nat ∧ unpack_float bs = as_single x.
Proof.
  intros ->%pack_float_inv. rewrite length_be_bytes. split; [done|].
  unfold unpack_float, as_single. rewrite be_value_be_bytes.
  rewrite Z.mod_small; [done|]. apply bits_of_single_range.
Qed.

Lemma length_pack_bytes n bs : length (pack_bytes n bs) = n.
Proof.
  unfold pack_bytes. rewrite length_app, length_take, length_replicate. lia.
Qed.

Lemma struct_pack_length t v bs :
  struct_pack t v = Ok bs → length bs = calcsize t.
Proof.
  destruct t, v; simpl; try done.
  - intros H. by apply unpack_pack_int in H as [? _]; [|lia].
  - intros H. by apply unpack_pack_int in H as [? _]; [|lia].
  - intros H. by apply unpack_pack_int in H as [? _]; [|lia].
  - destruct (is_inf _); [done|]. intros H. by apply unpack_pack_float in H as [? _].
  - intros H. by apply unpack_pack_float in H as [? _].
  - intros [= <-]. apply length_pack_bytes.
Qed.

Lemma struct_unpack_pack t v bs :
  struct_pack t v = Ok bs → struct_unpack t bs = Ok (unpacked t v).
Proof.
  intros H. pose proof (struct_pack_length _ _ _ H) as Hl.
  unfold struct_unpack. rewrite bool_decide_eq_true_2 by done.
  destruct t, v; simpl in *; try done.
  - by apply unpack_pack_int in H as [_ ->]; [|lia].
  - by apply unpack_pack_int in H as [_ ->]; [|lia].
  - by apply unpack_pack_int in H as [_ ->]; [|lia].
  - destruct (is_inf _); [done|]. by apply unpack_pack_float in H as [_ ->].
  - by apply unpack_pack_float in H as [_ ->].
  - by injection H as <-.
Qed.

Lemma struct_unpack_raise t bs e :
  struct_unpack t bs = Raise e → e = struct_error ∧ length bs ≠ calcsize t.
Proof.
  unfold struct_unpack. case_bool_decide; [by destruct t|]. by intros [= <-].
Qed.

(** ** Files and slices *)

Lemma length_sub {A} a n (f : list A) :
  (a + n ≤ length f)%nat → length (sub a n f) = n.
Proof. intros. unfold sub. rewrite length_take, length_drop. lia. Qed.

Lemma sub_app_l {A} a n (f g : list A) :
  (a + n ≤ length f)%nat → sub a n (f ++ g) = sub a n f.
Proof.
  intros. unfold sub. rewrite drop_app_le by lia.
  rewrite take_app_le; [done|]. rewrite length_drop. lia.
Qed.

Lemma sub_app_r {A} a n (f g : list A) :
  (length f ≤ a)%nat → sub a n (f ++ g) = sub (a - length f) n g.
Proof.
  intros. unfold sub. rewrite drop_app_ge by lia. done.
Qed.

Lemma sub_take {A} a n k (f : list A) :
  (a + n ≤ k)%nat → sub a n (take k f) = sub a n f.
Proof.
  intros. unfold sub. rewrite !take_drop_commute, take_take.
  do 2 f_equal. lia.
Qed.

Lemma sub_split {A} a n m (f : list A) :
  sub a (n + m) f = sub a n f ++ sub (a + n) m f.
Proof.
  unfold sub. by rewrite <-(drop_drop f), take_take_drop.
Qed.

Lemma sub_all {A} (f : list A) : sub 0 (length f) f = f.
Proof. unfold sub. rewrite drop_0. apply firstn_all. Qed.

Lemma length_write_at_ge o bs f : (length f ≤ length (write_at o bs f))%nat.
Proof.
  unfold write_at. destruct bs as [|b bs]; [done|].
  rewrite !length_app, length_take, length_replicate, length_drop. lia.
Qed.

Lemma length_write_at o bs f :
  bs ≠ [] → length (write_at o bs f) = (length f `max` (o + length bs))%nat.
Proof.
  unfold write_at. destruct bs as [|b bs]; [done|]. intros _.
  rewrite !length_app, length_take, length_replicate, length_drop. lia.
Qed.

Lemma write_at_unfold o bs f :
  bs ≠ [] →
  ∃ pre, length pre = o ∧ write_at o bs f = pre ++ bs ++ drop (o + length bs) f
         ∧ pre = take o f ++ replicate (o - length f) x00.
Proof.
  intros Hne. exists (take o f ++ replicate (o - length f) x00).
  split_and!; [|by destruct bs; rewrite <-?app_assoc|done].
  rewrite length_app, length_take, length_replicate. lia.
Qed.

Lemma sub_write_at_same o bs f : sub o (length bs) (write_at o bs f) = bs.
Proof.
  destruct (decide (bs = [])) as [->|Hne]; [done|].
  destruct (write_at_unfold o bs f Hne) as (pre & Hpre & -> & _).
  rewrite sub_app_r by lia. rewrite Hpre, Nat.sub_diag.
  rewrite sub_app_l by lia. apply sub_all.
Qed.

Lemma sub_write_at_before o bs f a n :
  (a + n ≤ o)%nat → (a + n ≤ length f)%nat →
  sub a n (write_at o bs f) = sub a n f.
Proof.
  intros ? ?.
  destruct (decide (bs = [])) as [->|Hne]; [done|].
  destruct (write_at_unfold o bs f Hne) as (pre & Hpre & -> & ->).
  rewrite sub_app_l by lia.
  rewrite sub_app_l by (rewrite length_take; lia).
  apply sub_take. lia.
Qed.

Lemma sub_write_at_after o bs f a n :
  (o + length bs ≤ a)%nat →
  sub a n (write_at o bs f) = sub a n f.
Proof.
  intros ?.
  destruct (decide (bs = [])) as [->|Hne]; [done|].
  destruct (write_at_unfold o bs f Hne) as (pre & Hpre & -> & _).
  rewrite app_assoc, sub_app_r by (rewrite length_app; lia).
  unfold sub. rewrite drop_drop, length_app. do 2 f_equal. lia.
Qed.

Lemma write_at_app o a b f :
  a ≠ [] →
  write_at (o + length a) b (write_at o a f) = write_at o (a ++ b) f.
Proof.
  intros Ha.
  destruct (decide (b = [])) as [->|Hb]; [by rewrite app_nil_r|].
  assert (Hab : a ++ b ≠ []) by (by destruct a).
  pose proof (length_write_at o a f Ha) as Hlen.
  destruct (write_at_unfold (o + length a) b (write_at o a f) Hb)
    as (pre1 & _ & -> & ->).
  destruct (write_at_unfold o (a ++ b) f Hab) as (pre2 & _ & -> & ->).
  destruct (write_at_unfold o a f Ha) as (pre & Hpre & Hw & <-).
  rewrite Hlen.
  replace (o + length a - length f `max` (o + length a))%nat with 0%nat by lia.
  simpl replicate. rewrite app_nil_r, Hw.
  rewrite (app_assoc pre a), take_app_length' by (rewrite length_app; lia).
  rewrite (drop_app_ge (pre ++ a)) by (rewrite length_app; lia).
  rewrite drop_drop, !length_app, <-!app_assoc. do 3 f_equal.
  f_equal. lia.
Qed.

Lemma py_slice_sub {A} (data : list A) a n :
  0 ≤ a → a + Z.of_nat n ≤ Z.of_nat (length data) →
  py_slice data a (a + Z.of_nat n) = sub (Z.to_nat a) n data.
Proof.
  intros. unfold py_slice, slice_index, sub.
  rewrite !bool_decide_eq_false_2 by lia.
  rewrite !Z.min_l by lia. f_equal. lia.
Qed.

Lemma length_py_slice_le {A} (data : list A) a b :
  0 ≤ a → a < b →
  Z.of_nat (length (py_slice data a b)) = b - a →
  b ≤ Z.of_nat (length data).
Proof.
  intros ? ?. unfold py_slice, slice_index.
  rewrite !bool_decide_eq_false_2 by lia.
  rewrite length_take, length_drop. lia.
Qed.

(** ** Running the encoder *)

Lemma ST_bind_unfold {S A B} (m : ST S A) (k : A → ST S B) s :
  (m ≫= k) s = match m s with
               | (Ok a, s') => k a s'
               | (Raise e, s') => (Raise e, s')
               end.
Proof. done. Qed.

Lemma h1_MAGIC : _header1_dict !! "MAGIC" = Some (HeaderTuple.make (Fmt_s 4) 4 0).
Proof. by vm_compute. Qed.
Lemma h1_VERSION_OFFSET :
  _header1_dict !! "VERSION_OFFSET" = Some (HeaderTuple.make Fmt_h 2 4).
Proof. by vm_compute. Qed.
Lemma h1_TYPE : _header1_dict !! "TYPE" = Some (HeaderTuple.make Fmt_b 1 6).
Proof. by vm_compute. Qed.
Lemma h1_TOP : _header1_dict !! "TOP" = Some (HeaderTuple.make Fmt_h 2 8).
Proof. by vm_compute. Qed.
Lemma h1_LEFT : _header1_dict !! "LEFT" = Some (HeaderTuple.make Fmt_h 2 10).
Proof. by vm_compute. Qed.
Lemma h1_BOTTOM : _header1_dict !! "BOTTOM" = Some (HeaderTuple.make Fmt_h 2 12).
Proof. by vm_compute. Qed.
Lemma h1_RIGHT : _header1_dict !! "RIGHT" = Some (HeaderTuple.make Fmt_h 2 14).
Proof. by vm_compute. Qed.
Lemma h1_SHAPE_ROI_SIZE :
  _header1_dict !! "SHAPE_ROI_SIZE" = Some (HeaderTuple.make Fmt_i 4 36).
Proof. by vm_compute. Qed.
Lemma h1_ROUNDED_RECT_ARC_SIZE :
  _header1_dict !! "ROUNDED_RECT_ARC_SIZE" = Some (HeaderTuple.make Fmt_h 2 54).
Proof. by vm_compute. Qed.
Lemma h1_POSITION :
  _header1_dict !! "POSITION" = Some (HeaderTuple.make Fmt_i 4 56).
Proof. by vm_compute. Qed.
Lemma h1_HEADER2_OFFSET :
  _header1_dict !! "HEADER2_OFFSET" = Some (HeaderTuple.make Fmt_i 4 60).
Proof. by vm_compute. Qed.
Lemma h1_NAME_OFFSET : _header1_dict !! "NAME_OFFSET" = None.
Proof. by vm_compute. Qed.
Lemma h1_NAME_LENGTH : _header1_dict !! "NAME_LENGTH" = None.
Proof. by vm_compute. Qed.
Lemma h2_NAME_OFFSET :
  _header2_dict !! "NAME_OFFSET" = Some (HeaderTuple.make Fmt_i 4 16).
Proof. by vm_compute. Qed.
Lemma h2_NAME_LENGTH :
  _header2_dict !! "NAME_LENGTH" = Some (HeaderTuple.make Fmt_i 4 20).
Proof. by vm_compute. Qed.

#[local] Opaque _header1_dict _header2_dict _roi_types_rev _roi_types.
#[local] Arguments write_at : simpl never.
#[local] Arguments be_bytes : simpl never.
#[local] Arguments pack_bytes : simpl never.
#[local] Arguments pack_int : simpl never.
#[local] Arguments pack_float : simpl never.
#[local] Arguments float_image : simpl never.
#[local] Arguments utf8 : simpl never.

Lemma mret_run {S A} (a : A) (s : S) : (mret a : ST S A) s = (Ok a, s).
Proof. done. Qed.

Lemma get_bind {S A} (k : S → ST S A) s : (get ≫= k) s = k s s.
Proof. done. Qed.

Lemma _write_var_run off ty v s :
  0 ≤ off →
  _write_var off ty v s
  = match struct_pack ty v with
    | Ok bs => (Ok tt, set_f_obj (write_at (Z.to_nat off) bs) s)
    | Raise e => (Raise e, s)
    end.
Proof.
  intros. unfold _write_var. rewrite bool_decide_eq_false_2 by lia.
  rewrite !ST_bind_unfold. simpl. unfold lift.
  by destruct (struct_pack ty v).
Qed.

Lemma _write_header_h1 name hd v s :
  _header1_dict !! name = Some hd →
  _write_header name v s
  = _write_var (HeaderTuple.offset hd) (HeaderTuple.type hd) v s.
Proof.
  intros H. unfold _write_header. by rewrite get_bind, H.
Qed.

Lemma _write_header_h2 name hd v s :
  _header1_dict !! name = None → _header2_dict !! name = Some hd →
  _write_header name v s
  = _write_var (HeaderTuple.offset hd + Enc.header2_offset s)
               (HeaderTuple.type hd) v s.
Proof.
  intros H1 H2. unfold _write_header. by rewrite get_bind, H1, H2.
Qed.

(** One successful header write, peeled off a sequence. *)
Lemma _write_header_h1_step {A} name hd v (k : ST Enc.t A) s r s' :
  _header1_dict !! name = Some hd → 0 ≤ HeaderTuple.offset hd →
  (_write_header name v;; k) s = (Ok r, s') →
  ∃ bs, struct_pack (HeaderTuple.type hd) v = Ok bs
        ∧ k (set_f_obj (write_at (Z.to_nat (HeaderTuple.offset hd)) bs) s)
          = (Ok r, s').
Proof.
  intros H ?. rewrite ST_bind_unfold, (_write_header_h1 _ _ _ _ H).
  rewrite _write_var_run by done.
  destruct (struct_pack _ v) as [bs|]; [|done]. eauto.
Qed.

Lemma pack_int_values :
  pack_int 1 1 = Ok [x01] ∧ pack_int 2 225 = Ok [x00; xe1].
Proof. by vm_compute. Qed.

Lemma write_common_inv {A} tag base (k : ST Enc.t A) s r s' :
  (_write_header "TYPE" (PyInt tag);;
   _write_header "TOP" (ROIObject.top base);;
   _write_header "LEFT" (ROIObject.left base);;
   _write_header "BOTTOM" (ROIObject.bottom base);;
   _write_header "RIGHT" (ROIObject.right base);;
   _write_header "POSITION" (ROIObject.position base);;
   k) s = (Ok r, s') →
  ∃ btag bt bl bb br bp,
    pack_int 1 tag = Ok btag
    ∧ struct_pack Fmt_h (ROIObject.top base) = Ok bt
    ∧ struct_pack Fmt_h (ROIObject.left base) = Ok bl
    ∧ struct_pack Fmt_h (ROIObject.bottom base) = Ok bb
    ∧ struct_pack Fmt_h (ROIObject.right base) = Ok br
    ∧ struct_pack Fmt_i (ROIObject.position base) = Ok bp
    ∧ k (set_f_obj (common_image btag bt bl bb br bp) s) = (Ok r, s').
Proof.
  intros H.
  eapply _write_header_h1_step in H as (btag & ? & H); [|apply h1_TYPE|done].
  eapply _write_header_h1_step in H as (bt & ? & H); [|apply h1_TOP|done].
  eapply _write_header_h1_step in H as (bl & ? & H); [|apply h1_LEFT|done].
  eapply _write_header_h1_step in H as (bb & ? & H); [|apply h1_BOTTOM|done].
  eapply _write_header_h1_step in H as (br & ? & H); [|apply h1_RIGHT|done].
  eapply _write_header_h1_step in H as (bp & ? & H); [|apply h1_POSITION|done].
  exists btag, bt, bl, bb, br, bp. split_and!; try done.
Qed.

Lemma _write_name_inv s s' :
  0 ≤ Enc.header2_offset s →
  _write_name s = (Ok tt, s') →
  let name := ROIObject.name (roi_base (Enc.roi_obj s)) in
  Z.of_nat (String.length name) < 2 ^ 31
  ∧ 64 + Enc.header2_offset s < 2 ^ 31
  ∧ s' = set_f_obj (name_image (Z.to_nat (Enc.header2_offset s)) name) s.
Proof.
  intros Hh2. unfold _write_name. rewrite get_bind.
  rewrite ST_bind_unfold.
  rewrite (_write_header_h2 _ _ _ _ h1_NAME_OFFSET h2_NAME_OFFSET).
  simpl. rewrite _write_var_run by lia. simpl.
  destruct (pack_int 4 _) as [bo|] eqn:Hbo; [|done].
  rewrite ST_bind_unfold.
  rewrite (_write_header_h2 _ _ _ _ h1_NAME_LENGTH h2_NAME_LENGTH).
  simpl. rewrite _write_var_run by lia. simpl.
  destruct (pack_int 4 (Z.of_nat _)) as [bn|] eqn:Hbn; [|done].
  rewrite _write_var_run by (unfold _header2_size; lia). simpl.
  intros [= <-].
  apply pack_int_inv in Hbo as [Hro ->]. apply pack_int_inv in Hbn as [Hrn ->].
  change (256 ^ Z.of_nat 4 / 2) with (2 ^ 31) in *.
  change (256 ^ Z.of_nat 4) with (2 ^ 32) in *.
  unfold _header2_size in *.
  split_and!; [lia..|].
  unfold set_f_obj, name_image. simpl. f_equal.
  rewrite !Z.mod_small by lia.
  replace (Z.to_nat (64 + Enc.header2_offset s))
    with (64 + Z.to_nat (Enc.header2_offset s))%nat by lia.
  replace (Z.to_nat (20 + Enc.header2_offset s))
    with (20 + Z.to_nat (Enc.header2_offset s))%nat by lia.
  replace (Z.to_nat (16 + Enc.header2_offset s))
    with (16 + Z.to_nat (Enc.header2_offset s))%nat by lia.
  do 4 f_equal. lia.
Qed.

Lemma write_floats_inv base fs s s' :
  0 ≤ base →
  write_floats base fs s = (Ok tt, s') →
  Forall (λ f, pack_float f = Ok (float_image f)) fs
  ∧ s' = set_f_obj (write_at (Z.to_nat base) (concat (float_image <$> fs))) s.
Proof.
  revert base s. induction fs as [|f fs IH]; intros base s Hb; simpl.
  - intros [= <-]. split; [done|]. by destruct s.
  - rewrite ST_bind_unfold, _write_var_run by done. simpl.
    destruct (pack_float f) as [bs|] eqn:Hf; [|done].
    intros H. apply IH in H as [Hfs ->]; [|lia].
    pose proof (pack_float_inv _ _ Hf) as ->. fold (float_image f).
    split; [by constructor|].
    unfold set_f_obj. simpl. f_equal.
    replace (Z.to_nat (base + 4))
      with (Z.to_nat base + length (float_image f))%nat
      by (unfold float_image; rewrite length_be_bytes; lia).
    apply write_at_app. unfold float_image. done.
Qed.

Lemma write_at_nil bs : write_at 0 bs [] = bs.
Proof.
  unfold write_at. destruct bs as [|b bs]; [done|].
  rewrite take_nil, drop_nil, app_nil_r. done.
Qed.

Lemma roi_types_rev_rect : _roi_types_rev !! "rect" = Some 1.
Proof. by vm_compute. Qed.

Lemma getattr_write_rect :
  getattr encoder_methods "_write_roi_rect" = Ok _write_roi_rect.
Proof. reflexivity. Qed.

Lemma getattr_write_shape :
  getattr encoder_methods "_write_roi_shape" = Ok _write_roi_shape.
Proof. reflexivity. Qed.

Lemma pack_magic : struct_pack (Fmt_s 4) (PyBytes magic) = Ok magic.
Proof. reflexivity. Qed.

Lemma pack_version : struct_pack Fmt_h (PyInt 225) = Ok [x00; xe1].
Proof. reflexivity. Qed.

(** [write] up to the dispatch: the pad, the magic and the version are in
    the file before the writer is looked up. *)
Lemma write_body_prefix roi_obj :
  write_body (Enc.make roi_obj _header1_size [])
  = let self := Enc.make roi_obj _header1_size pad_image in
    match getattr encoder_methods ("_write_roi_" +:+ roi_type roi_obj) with
    | Ok roi_writer => roi_writer self
    | Raise e => (Raise e, self)
    end.
Proof.
  unfold write_body. rewrite ST_bind_unfold. unfold modify at 1.
  rewrite ST_bind_unfold, (_write_header_h1 _ _ _ _ h1_MAGIC).
  rewrite _write_var_run by done.
  cbn [HeaderTuple.type HeaderTuple.offset]. rewrite pack_magic.
  rewrite ST_bind_unfold, (_write_header_h1 _ _ _ _ h1_VERSION_OFFSET).
  rewrite _write_var_run by done.
  cbn [HeaderTuple.type HeaderTuple.offset]. rewrite pack_version.
  rewrite get_bind, ST_bind_unfold.
  unfold lift, set_f_obj. cbn [Enc.roi_obj Enc.header2_offset Enc.f_obj].
  rewrite write_at_nil. done.
Qed.

Lemma write_body_rect r s' :
  roi_type r = "rect" →
  write_body (Enc.make r _header1_size []) = (Ok tt, s') →
  let base := roi_base r in
  ∃ bt bl bb br bp,
    struct_pack Fmt_h (ROIObject.top base) = Ok bt
    ∧ struct_pack Fmt_h (ROIObject.left base) = Ok bl
    ∧ struct_pack Fmt_h (ROIObject.bottom base) = Ok bb
    ∧ struct_pack Fmt_h (ROIObject.right base) = Ok br
    ∧ struct_pack Fmt_i (ROIObject.position base) = Ok bp
    ∧ Z.of_nat (String.length (ROIObject.name base)) < 2 ^ 31
    ∧ Enc.f_obj s' = rect_image bt bl bb br bp (ROIObject.name base).
Proof.
  intros Hty. rewrite write_body_prefix, Hty.
  change ("_write_roi_" +:+ "rect") with "_write_roi_rect".
  rewrite getattr_write_rect. cbv zeta.
  unfold _write_roi_rect. rewrite get_bind. cbn [Enc.roi_obj].
  rewrite ST_bind_unfold, Hty. unfold getitem at 1.
  rewrite roi_types_rev_rect, mret_run.
  intros H. apply write_common_inv in H
    as (btag & bt & bl & bb & br & bp & Htag & ? & ? & ? & ? & ? & H).
  rewrite (proj1 pack_int_values) in Htag. injection Htag as <-.
  eapply _write_header_h1_step in H as (bh & Hbh & H);
    [|apply h1_HEADER2_OFFSET|done].
  simpl in Hbh. apply pack_int_inv in Hbh as [_ ->].
  apply _write_name_inv in H as (? & ? & ->); [|done].
  exists bt, bl, bb, br, bp. split_and!; done.
Qed.

Lemma write_body_shape base x_coords y_coords s' :
  write_body (Enc.make (ROIShape base x_coords y_coords) _header1_size [])
    = (Ok tt, s') →
  ∃ shapeArray bt bl bb br bp,
    get_shapeArray x_coords y_coords = Ok shapeArray
    ∧ struct_pack Fmt_h (ROIObject.top base) = Ok bt
    ∧ struct_pack Fmt_h (ROIObject.left base) = Ok bl
    ∧ struct_pack Fmt_h (ROIObject.bottom base) = Ok bb
    ∧ struct_pack Fmt_h (ROIObject.right base) = Ok br
    ∧ struct_pack Fmt_i (ROIObject.position base) = Ok bp
    ∧ Forall (λ f, pack_float f = Ok (float_image f)) shapeArray
    ∧ 128 + 4 * Z.of_nat (length shapeArray) < 2 ^ 31
    ∧ Z.of_nat (String.length (ROIObject.name base)) < 2 ^ 31
    ∧ Enc.f_obj s' = shape_image bt bl bb br bp shapeArray (ROIObject.name base).
Proof.
  rewrite write_body_prefix. simpl roi_type.
  change ("_write_roi_" +:+ "shape") with "_write_roi_shape".
  rewrite getattr_write_shape. cbv zeta.
  unfold _write_roi_shape. rewrite get_bind. simpl Enc.roi_obj.
  rewrite ST_bind_unfold. simpl roi_get_shapeArray. unfold lift at 1.
  destruct (get_shapeArray x_coords y_coords) as [shapeArray|]; [|done].
  rewrite ST_bind_unfold. unfold getitem at 1.
  rewrite roi_types_rev_rect. simpl mret. unfold ST_ret at 1.
  intros H. apply write_common_inv in H
    as (btag & bt & bl & bb & br & bp & Htag & ? & ? & ? & ? & ? & H).
  rewrite (proj1 pack_int_values) in Htag. injection Htag as <-.
  eapply _write_header_h1_step in H as (bn & Hbn & H);
    [|apply h1_SHAPE_ROI_SIZE|done].
  simpl in Hbn. apply pack_int_inv in Hbn as [Hn ->].
  rewrite get_bind, ST_bind_unfold in H. simpl Enc.header2_offset in H.
  destruct (write_floats _ _ _) as [[[]|] s1] eqn:Hfl; [|done].
  apply write_floats_inv in Hfl as [Hfs ->]; [|done].
  rewrite get_bind, ST_bind_unfold in H. simpl in H.
  rewrite get_bind in H.
  eapply _write_header_h1_step in H as (bh & Hbh & H);
    [|apply h1_HEADER2_OFFSET|done].
  simpl in Hbh. apply pack_int_inv in Hbh as [Hh ->].
  apply _write_name_inv in H as (? & Hoff & ->);
    [|simpl; unfold _header1_size; lia].
  simpl in Hoff. unfold _header1_size in *.
  change (256 ^ Z.of_nat 4 / 2) with (2 ^ 31) in *.
  change (256 ^ Z.of_nat 4) with (2 ^ 32) in *.
  exists shapeArray, bt, bl, bb, br, bp. split_and!; try done; [lia|].
  simpl. unfold shape_image. rewrite !Z.mod_small by lia.
  replace (Z.to_nat (64 + 4 * Z.of_nat (length shapeArray)))
    with (64 + 4 * length shapeArray)%nat by lia.
  do 3 f_equal. lia.
Qed.

(** ** Running the decoder *)

Lemma for_each_app {S A} (l1 l2 : list A) (body : A → ST S unit) s :
  for_each (l1 ++ l2) body s = (for_each l1 body;; for_each l2 body) s.
Proof.
  revert s. induction l1 as [|a l1 IH]; intros s; simpl.
  - done.
  - rewrite !ST_bind_unfold. destruct (body a s) as [[[]|e] s1]; [|done].
    rewrite IH. done.
Qed.

Lemma header_dict_entry fields k hd :
  header_dict fields !! k = Some hd →
  ∃ t, (k, t, HeaderTuple.offset hd) ∈ fields
       ∧ hd = HeaderTuple.make t (_type_size t) (HeaderTuple.offset hd).
Proof.
  unfold header_dict.
  induction fields as [|[[k' t] o] fields IH] using rev_ind; simpl.
  - by rewrite lookup_empty.
  - rewrite foldl_app. simpl. destruct (decide (k' = k)) as [->|Hne].
    + rewrite lookup_insert_eq. intros [= <-]. exists t. simpl.
      split; [|done]. apply elem_of_app. right. by left.
    + rewrite lookup_insert_ne by done. intros (t' & ? & ?)%IH.
      exists t'. split; [|done]. apply elem_of_app. by left.
Qed.

#[local] Transparent _header1_dict _header2_dict.

Lemma header1_entry k hd :
  _header1_dict !! k = Some hd →
  HeaderTuple.size hd = calcsize (HeaderTuple.type hd)
  ∧ 0 ≤ HeaderTuple.offset hd
  ∧ HeaderTuple.offset hd + Z.of_nat (calcsize (HeaderTuple.type hd)) ≤ 68
  ∧ (0 < calcsize (HeaderTuple.type hd))%nat
  ∧ (k ∈ to_read_h1 →
     HeaderTuple.offset hd + Z.of_nat (calcsize (HeaderTuple.type hd)) ≤ 64
     ∧ HeaderTuple.type hd ≠ Fmt_s 4).
Proof.
  intros (t & Hin & ->)%header_dict_entry. simpl.
  unfold _header1_fields in Hin.
  repeat (apply elem_of_cons in Hin as [[= -> -> Ho]|Hin];
          [rewrite Ho; split_and!; [done|lia|simpl; lia|simpl; lia|];
           first [ intros _; split; [simpl; lia|done]
                 | intros Hk; exfalso; revert Hk;
                   apply (bool_decide_unpack _); by vm_compute ] |]).
  by apply elem_of_nil in Hin.
Qed.

Lemma header2_entry k hd :
  _header2_dict !! k = Some hd →
  HeaderTuple.size hd = calcsize (HeaderTuple.type hd)
  ∧ 4 ≤ HeaderTuple.offset hd
  ∧ HeaderTuple.offset hd + Z.of_nat (calcsize (HeaderTuple.type hd)) ≤ 48
  ∧ (0 < calcsize (HeaderTuple.type hd))%nat
  ∧ _header1_dict !! k = None
  ∧ k ≠ "HEADER2_OFFSET".
Proof.
  intros (t & Hin & ->)%header_dict_entry. simpl.
  unfold _header2_fields in Hin.
  repeat (apply elem_of_cons in Hin as [[= -> -> Ho]|Hin];
          [rewrite Ho; split_and!;
             [done|lia|simpl; lia|simpl; lia|by vm_compute|done] |]).
  by apply elem_of_nil in Hin.
Qed.

Lemma to_read_h1_known : Forall (λ k, is_Some (_header1_dict !! k)) to_read_h1.
Proof. apply (bool_decide_unpack _). by vm_compute. Qed.

Lemma to_read_h2_known : Forall (λ k, is_Some (_header2_dict !! k)) to_read_h2.
Proof. apply (bool_decide_unpack _). by vm_compute. Qed.

#[local] Opaque _header1_dict _header2_dict.

Lemma _get_var_run offset var_size var_type self :
  _get_var offset var_size var_type self
  = (struct_unpack var_type
       (py_slice (Dec.data self) offset (offset + Z.of_nat var_size)), self).
Proof. done. Qed.

Lemma _get_header_h1 k self :
  is_Some (_header1_dict !! k) →
  _get_header k self = (h1_field (Dec.data self) k, self).
Proof.
  intros [hd Hhd]. unfold _get_header, h1_field. rewrite get_bind, Hhd.
  rewrite _get_var_run. unfold field_at.
  by destruct (header1_entry _ _ Hhd) as (-> & _).
Qed.

Lemma _get_header_h2 k h2 self :
  is_Some (_header2_dict !! k) →
  Dec.header self !! "HEADER2_OFFSET" = Some (PyInt h2) →
  _get_header k self = (h2_field (Dec.data self) h2 k, self).
Proof.
  intros [hd Hhd] Hh2. unfold _get_header, h2_field. rewrite get_bind, Hhd.
  destruct (header2_entry _ _ Hhd) as (Hsz & _ & _ & _ & -> & _).
  rewrite ST_bind_unfold. unfold getitem. rewrite Hh2. simpl.
  rewrite _get_var_run. unfold field_at. by rewrite Hsz.
Qed.

Lemma _set_header_run k self v :
  _get_header k self = (v, self) →
  _set_header k self
  = match v with
    | Ok v => (Ok tt, set_header (insert k v) self)
    | Raise e => (Raise e, self)
    end.
Proof.
  intros H. unfold _set_header. rewrite ST_bind_unfold, H. by destruct v.
Qed.

(** A loop of [_set_header] over known fields of one header block, whose
    values [field] do not depend on the entries the loop adds. *)
Lemma for_each_set_header (field : string → result pyval) l self :
  (∀ self', Dec.data self' = Dec.data self →
            (∀ k, k ∉ l → Dec.header self' !! k = Dec.header self !! k) →
            ∀ k, k ∈ l → _get_header k self' = (field k, self')) →
  match for_each l _set_header self with
  | (Ok _, self') =>
      Dec.data self' = Dec.data self ∧ Dec.name self' = Dec.name self
      ∧ (∀ k, k ∈ l → ∃ v, field k = Ok v ∧ Dec.header self' !! k = Some v)
      ∧ (∀ k, k ∉ l → Dec.header self' !! k = Dec.header self !! k)
  | (Raise e, _) => ∃ k, k ∈ l ∧ field k = Raise e
  end.
Proof.
  revert self. induction l as [|k l IH]; intros self Hget; simpl.
  - split_and!; try done. intros k Hk. by apply elem_of_nil in Hk.
  - rewrite ST_bind_unfold.
    rewrite (_set_header_run _ _ (field k))
      by (apply Hget; [done|done|by left]).
    destruct (field k) as [v|e] eqn:Hv.
    2:{ exists k. split; [by left|done]. }
    set (self1 := set_header (insert k v) self).
    specialize (IH self1). destruct (for_each l _set_header self1) as [[[]|e] self'].
    + destruct IH as (Hd & Hn & Hin & Hout).
      { intros self2 Hd' Hout' k' Hk'. apply Hget; [done| |by right].
        intros k'' Hk''. rewrite Hout' by (intros ?; apply Hk''; by right).
        unfold self1. simpl. apply lookup_insert_ne.
        intros ->. apply Hk''. by left. }
      split_and!; try done.
      * intros k' Hk'. destruct (decide (k' ∈ l)) as [Hl|Hl]; [by apply Hin|].
        apply elem_of_cons in Hk' as [->|?]; [|done].
        exists v. split; [done|]. rewrite Hout by done.
        unfold self1. simpl. apply lookup_insert_eq.
      * intros k' Hk'. rewrite Hout by (intros ?; apply Hk'; by right).
        unfold self1. simpl. apply lookup_insert_ne.
        intros ->. apply Hk'. by left.
    + destruct IH as (k' & Hk' & He).
      { intros self2 Hd' Hout' k' Hk'. apply Hget; [done| |by right].
        intros k'' Hk''. rewrite Hout' by (intros ?; apply Hk''; by right).
        unfold self1. simpl. apply lookup_insert_ne.
        intros ->. apply Hk''. by left. }
      exists k'. split; [by right|done].
Qed.

Lemma field_at_raise data off t e :
  field_at data off t = Raise e → e = struct_error.
Proof. unfold field_at. by intros [? _]%struct_unpack_raise. Qed.

Lemma h1_field_raise data k e :
  is_Some (_header1_dict !! k) → h1_field data k = Raise e → e = struct_error.
Proof. intros [hd Hhd]. unfold h1_field. rewrite Hhd. apply field_at_raise. Qed.

Lemma h2_field_raise data h2 k e :
  is_Some (_header2_dict !! k) → h2_field data h2 k = Raise e → e = struct_error.
Proof. intros [hd Hhd]. unfold h2_field. rewrite Hhd. apply field_at_raise. Qed.

Lemma field_at_sub data off t :
  0 ≤ off → off + Z.of_nat (calcsize t) ≤ Z.of_nat (length data) →
  field_at data off t = struct_unpack t (sub (Z.to_nat off) (calcsize t) data)
  ∧ length (sub (Z.to_nat off) (calcsize t) data) = calcsize t.
Proof.
  intros. unfold field_at. rewrite py_slice_sub by done.
  split; [done|]. apply length_sub. lia.
Qed.

Lemma field_at_Ok_inv data off t v :
  0 ≤ off → (0 < calcsize t)%nat → field_at data off t = Ok v →
  off + Z.of_nat (calcsize t) ≤ Z.of_nat (length data)
  ∧ struct_unpack t (sub (Z.to_nat off) (calcsize t) data) = Ok v.
Proof.
  intros ? ? H. unfold field_at, struct_unpack in H.
  case_bool_decide as Hl; [|done].
  assert (off + Z.of_nat (calcsize t) ≤ Z.of_nat (length data)).
  { apply (length_py_slice_le data off); lia. }
  split; [done|]. rewrite py_slice_sub in H, Hl by done.
  unfold struct_unpack. by rewrite bool_decide_eq_true_2.
Qed.

Lemma for_each_set_zero l self :
  match for_each l (λ h, modify (set_header (insert h (PyInt 0)))) self with
  | (Ok _, self') =>
      Dec.data self' = Dec.data self ∧ Dec.name self' = Dec.name self
      ∧ (∀ k, k ∉ l → Dec.header self' !! k = Dec.header self !! k)
  | (Raise _, _) => False
  end.
Proof.
  revert self. induction l as [|h l IH]; intros self; simpl.
  - done.
  - rewrite ST_bind_unfold. unfold modify at 1.
    specialize (IH (set_header (insert h (PyInt 0)) self)).
    destruct (for_each l _ _) as [[[]|e] self']; [|done].
    destruct IH as (-> & -> & Hout). split_and!; try done.
    intros k Hk. rewrite Hout by (intros ?; apply Hk; by right).
    simpl. apply lookup_insert_ne. intros ->. apply Hk. by left.
Qed.

Lemma to_read_h1_not_zeroed : Forall (λ k, k ∉ set_zero) to_read_h1.
Proof. apply (bool_decide_unpack _). by vm_compute. Qed.

Lemma HEADER2_OFFSET_read : "HEADER2_OFFSET" ∈ to_read_h1.
Proof. apply (bool_decide_unpack _). by vm_compute. Qed.

Lemma h1_field_HEADER2_OFFSET data v :
  h1_field data "HEADER2_OFFSET" = Ok v →
  v = PyInt (stored_header2_offset data) ∧ (64 ≤ length data)%nat.
Proof.
  unfold h1_field. rewrite h1_HEADER2_OFFSET. simpl.
  intros [Hlen H]%field_at_Ok_inv; [|done|simpl; lia].
  simpl in *. unfold struct_unpack in H. case_bool_decide; [|done].
  injection H as <-. split; [done|lia].
Qed.

(** [read_header]: on success every listed field was in range and is in
    the dictionary; a failure is the magic mismatch or a field that runs
    past the buffer. *)
Lemma read_header_spec data name hdr0 :
  match read_header (Dec.make data name hdr0) with
  | (Ok _, self) =>
      Dec.data self = data ∧ Dec.name self = name
      ∧ field_at data 0 (Fmt_s 4) = Ok (PyBytes magic)
      ∧ (∀ k, k ∈ to_read_h1 →
              ∃ v, h1_field data k = Ok v ∧ Dec.header self !! k = Some v)
      ∧ (∀ k, k ∈ to_read_h2 →
              ∃ v, h2_field data (stored_header2_offset data) k = Ok v)
  | (Raise e, _) =>
      (e = IOError "Invalid ROI file, magic number mismatch"
       ∧ ∃ m, field_at data 0 (Fmt_s 4) = Ok (PyBytes m) ∧ m ≠ magic)
      ∨ (e = struct_error
         ∧ (field_at data 0 (Fmt_s 4) = Raise struct_error
            ∨ (field_at data 0 (Fmt_s 4) = Ok (PyBytes magic)
               ∧ ((∃ k, k ∈ to_read_h1 ∧ h1_field data k = Raise struct_error)
                  ∨ (∃ k, k ∈ to_read_h2
                          ∧ h2_field data (stored_header2_offset data) k
                            = Raise struct_error)))))
  end.
Proof.
  unfold read_header. rewrite ST_bind_unfold. unfold modify at 1.
  set (self0 := set_header (λ _, ∅) (Dec.make data name hdr0)).
  rewrite ST_bind_unfold, _get_header_h1 by (rewrite h1_MAGIC; eauto).
  unfold h1_field at 1. rewrite h1_MAGIC. simpl Dec.data.
  cbn [HeaderTuple.offset HeaderTuple.type].
  destruct (field_at data 0 (Fmt_s 4)) as [m|e] eqn:Hm.
  2:{ right. apply field_at_raise in Hm as Hs. subst e. split; [done|by left]. }
  assert (∃ bs, m = PyBytes bs) as [bs ->].
  { unfold field_at, struct_unpack in Hm. case_bool_decide; [|done].
    injection Hm as <-. eauto. }
  rewrite ST_bind_unfold. unfold py_eq. case_bool_decide as Hmagic.
  2:{ left. split; [done|]. eauto. }
  subst bs. change ((mret () : ST Dec.t ()) self0) with (Ok (), self0).
  cbv iota beta.
  rewrite ST_bind_unfold, for_each_app, ST_bind_unfold.
  pose proof (for_each_set_header (h1_field data) to_read_h1 self0) as H1.
  destruct (for_each to_read_h1 _set_header self0) as [[[]|e] self1].
  2:{ destruct H1 as (k & Hk & He).
      { intros self' Hd _ k Hk. rewrite _get_header_h1, Hd; [done|].
        by eapply Forall_forall in Hk; [|apply to_read_h1_known]. }
      right. assert (e = struct_error) as ->.
      { eapply h1_field_raise; [|done].
        by eapply Forall_forall in Hk; [|apply to_read_h1_known]. }
      split; [done|]. right. split; [done|]. left. eauto. }
  destruct H1 as (Hd1 & Hn1 & Hin1 & _).
  { intros self' Hd _ k Hk. rewrite _get_header_h1, Hd; [done|].
    by eapply Forall_forall in Hk; [|apply to_read_h1_known]. }
  destruct (Hin1 _ HEADER2_OFFSET_read) as (vh & Hvh & Hh2).
  apply h1_field_HEADER2_OFFSET in Hvh as [-> _].
  set (h2 := stored_header2_offset data) in *.
  pose proof (for_each_set_header (h2_field data h2) to_read_h2 self1) as H2.
  destruct (for_each to_read_h2 _set_header self1) as [[[]|e] self2].
  2:{ destruct H2 as (k & Hk & He).
      { intros self' Hd Hout k Hk.
        assert (is_Some (_header2_dict !! k)) as Hk2
          by (by eapply Forall_forall in Hk; [|apply to_read_h2_known]).
        rewrite (_get_header_h2 _ h2), Hd, Hd1; [done|done|].
        rewrite Hout; [done|]. intros Hk'.
        eapply Forall_forall in Hk'; [|apply to_read_h2_known].
        destruct Hk' as [hd Hhd]. by apply header2_entry in Hhd as (_&_&_&_&_&?). }
      right. assert (e = struct_error) as ->.
      { eapply h2_field_raise; [|done].
        by eapply Forall_forall in Hk; [|apply to_read_h2_known]. }
      split; [done|]. right. split; [done|]. right. eauto. }
  destruct H2 as (Hd2 & Hn2 & Hin2 & Hout2).
  { intros self' Hd Hout k Hk.
    assert (is_Some (_header2_dict !! k)) as Hk2
      by (by eapply Forall_forall in Hk; [|apply to_read_h2_known]).
    rewrite (_get_header_h2 _ h2), Hd, Hd1; [done|done|].
    rewrite Hout; [done|]. intros Hk'.
    eapply Forall_forall in Hk'; [|apply to_read_h2_known].
    destruct Hk' as [hd Hhd]. by apply header2_entry in Hhd as (_&_&_&_&_&?). }
  pose proof (for_each_set_zero set_zero self2) as H3.
  destruct (for_each set_zero _ self2) as [[[]|e] self3]; [|done].
  destruct H3 as (Hd3 & Hn3 & Hout3).
  split_and!.
  - by rewrite Hd3, Hd2, Hd1.
  - by rewrite Hn3, Hn2, Hn1.
  - done.
  - intros k Hk. destruct (Hin1 k Hk) as (v & Hv & Hl). exists v.
    split; [done|]. rewrite Hout3, Hout2; [done| |].
    + intros Hk2. eapply Forall_forall in Hk2; [|apply to_read_h2_known].
      destruct Hk2 as [hd Hhd]. apply header2_entry in Hhd as (_&_&_&_&Hn&_).
      eapply Forall_forall in Hk; [|apply to_read_h1_known].
      simpl in Hk. rewrite Hn in Hk. by destruct Hk.
    + by eapply Forall_forall in Hk; [|apply to_read_h1_not_zeroed].
  - intros k Hk. destruct (Hin2 k Hk) as (v & Hv & _). eauto.
Qed.

(** ** The bytes of an encoded ROI *)

Lemma le_length_write_at k o bs f :
  (k ≤ length f)%nat → (k ≤ length (write_at o bs f))%nat.
Proof. pose proof (length_write_at_ge o bs f). lia. Qed.

Lemma le_length_write_at_end k o bs f :
  bs ≠ [] → (k ≤ o + length bs)%nat → (k ≤ length (write_at o bs f))%nat.
Proof. intros Hne ?. rewrite length_write_at by done. lia. Qed.

Lemma sub_write_at_same' o bs f n :
  n = length bs → sub o n (write_at o bs f) = bs.
Proof. intros ->. apply sub_write_at_same. Qed.

Lemma pad_image_length : length pad_image = 128%nat.
Proof. reflexivity. Qed.

#[local] Opaque pad_image.

Ltac len_ge :=
  repeat apply le_length_write_at; rewrite pad_image_length; lia.

Lemma le_length_write_at_end' k o bs f :
  (0 < length bs)%nat → (k ≤ o + length bs)%nat →
  (k ≤ length (write_at o bs f))%nat.
Proof.
  intros ? ?. apply le_length_write_at_end; [|done].
  intros ->. simpl in *. lia.
Qed.

Lemma length_concat_float_image fs :
  length (concat (float_image <$> fs)) = (4 * length fs)%nat.
Proof.
  induction fs as [|f fs IH]; [done|].
  rewrite fmap_cons. cbn [concat]. rewrite length_app, IH.
  unfold float_image. rewrite length_be_bytes. simpl length. lia.
Qed.

Ltac len_ge' :=
  first
    [ lia
    | rewrite pad_image_length; lia
    | apply le_length_write_at_end'; lia
    | apply le_length_write_at; len_ge' ].

Ltac sub_peel' :=
  repeat first
    [ rewrite sub_write_at_same' by lia
    | rewrite sub_write_at_after by lia
    | rewrite sub_write_at_before by len_ge' ].

Section encoded_images.
Context (bt bl bb br bp : list byte) (name : string).
Context (Hbt : length bt = 2%nat) (Hbl : length bl = 2%nat).
Context (Hbb : length bb = 2%nat) (Hbr : length br = 2%nat).
Context (Hbp : length bp = 4%nat).

Lemma rect_image_length :
  (128 ≤ length (rect_image bt bl bb br bp name))%nat.
Proof using All.
  unfold rect_image, name_image, common_image. len_ge.
Qed.

Lemma rect_image_fields :
  let image := rect_image bt bl bb br bp name in
  sub 0 4 image = magic
  ∧ sub 6 1 image = [x01]
  ∧ sub 8 2 image = bt ∧ sub 10 2 image = bl
  ∧ sub 12 2 image = bb ∧ sub 14 2 image = br
  ∧ sub 36 4 image = replicate 4 x00
  ∧ sub 54 2 image = replicate 2 x00
  ∧ sub 56 4 image = bp
  ∧ sub 60 4 image = be_bytes 4 64.
Proof using All.
  pose proof (length_be_bytes 4 64).
  pose proof (length_be_bytes 4 (Z.of_nat (64 + 64))).
  pose proof (length_be_bytes 4 (Z.of_nat (String.length name))).
  unfold rect_image, name_image, common_image.
  split_and!; sub_peel'; try done; by vm_compute.
Qed.

Context (shapeArray : list float) (Hn : (0 < length shapeArray)%nat).

Lemma shape_image_length :
  (128 ≤ length (shape_image bt bl bb br bp shapeArray name))%nat.
Proof using All.
  unfold shape_image, name_image, common_image. len_ge.
Qed.

(** Header block 2 lies inside the file when the name has at least one
    character, or when it still falls inside the initial pad. *)
Lemma shape_image_header2 :
  name ≠ EmptyString ∨ (length shapeArray ≤ 4)%nat →
  (64 + 4 * length shapeArray + 48
   ≤ length (shape_image bt bl bb br bp shapeArray name))%nat.
Proof using All.
  intros [Hname|Hsmall].
  - unfold shape_image, name_image. apply le_length_write_at_end'.
    + rewrite length_pack_bytes. destruct name; [done|simpl; lia].
    + lia.
  - pose proof shape_image_length. lia.
Qed.

Lemma shape_image_fields :
  let image := shape_image bt bl bb br bp shapeArray name in
  sub 0 4 image = magic
  ∧ sub 6 1 image = [x01]
  ∧ sub 8 2 image = bt ∧ sub 10 2 image = bl
  ∧ sub 12 2 image = bb ∧ sub 14 2 image = br
  ∧ sub 36 4 image = be_bytes 4 (Z.of_nat (length shapeArray))
  ∧ sub 56 4 image = bp
  ∧ sub 60 4 image = be_bytes 4 (Z.of_nat (64 + 4 * length shapeArray))
  ∧ sub 64 (4 * length shapeArray) image
    = concat (float_image <$> shapeArray).
Proof using All.
  pose proof (length_be_bytes 4 (Z.of_nat (length shapeArray))).
  pose proof (length_be_bytes 4 (Z.of_nat (64 + 4 * length shapeArray))).
  pose proof (length_be_bytes 4
                (Z.of_nat (64 + (64 + 4 * length shapeArray)))).
  pose proof (length_be_bytes 4 (Z.of_nat (String.length name))).
  pose proof (length_concat_float_image shapeArray).
  unfold shape_image, name_image, common_image.
  split_and!; sub_peel'; try done; by vm_compute.
Qed.
End encoded_images.

(** ** Decoding a buffer *)

Lemma field_at_image data off t bs :
  (off + calcsize t ≤ length data)%nat → sub off (calcsize t) data = bs →
  field_at data (Z.of_nat off) t = struct_unpack t bs.
Proof.
  intros ? <-. destruct (field_at_sub data (Z.of_nat off) t) as [-> _]; [lia..|].
  by rewrite Nat2Z.id.
Qed.

(** When the magic matches and both header blocks lie inside the buffer,
    [read_header] succeeds, whatever else the buffer holds. *)
Lemma read_header_ok data name hdr0 :
  sub 0 4 data = magic → (64 ≤ length data)%nat →
  0 ≤ stored_header2_offset data →
  stored_header2_offset data + 48 ≤ Z.of_nat (length data) →
  ∃ self, read_header (Dec.make data name hdr0) = (Ok tt, self).
Proof.
  intros Hmagic Hlen Hh2 Hh2'.
  pose proof (read_header_spec data name hdr0) as H.
  destruct (read_header _) as [[[]|e] self]; [eauto|]. exfalso.
  assert (Hm : field_at data 0 (Fmt_s 4) = Ok (PyBytes magic)).
  { change 0 with (Z.of_nat 0). erewrite field_at_image; [|simpl; lia|done].
    done. }
  destruct H
    as [(_ & m & Hm' & Hne)|(_ & [Hm'|(_ & [(k & Hk & He)|(k & Hk & He)])])].
  - congruence.
  - congruence.
  - eapply Forall_forall in Hk as Hk'; [|apply to_read_h1_known].
    destruct Hk' as [hd Hhd]. unfold h1_field in He. rewrite Hhd in He.
    destruct (header1_entry _ _ Hhd) as (_ & ? & _ & _ & Hr).
    destruct (Hr Hk) as [? _].
    destruct (field_at_sub data (HeaderTuple.offset hd) (HeaderTuple.type hd))
      as [Hf Hl]; [lia..|].
    rewrite Hf in He. apply struct_unpack_raise in He as [_ ?]. done.
  - eapply Forall_forall in Hk as Hk'; [|apply to_read_h2_known].
    destruct Hk' as [hd Hhd]. unfold h2_field in He. rewrite Hhd in He.
    destruct (header2_entry _ _ Hhd) as (_ & ? & ? & _).
    destruct (field_at_sub data
                (HeaderTuple.offset hd + stored_header2_offset data)
                (HeaderTuple.type hd)) as [Hf Hl]; [lia..|].
    rewrite Hf in He. apply struct_unpack_raise in He as [_ ?]. done.
Qed.

Lemma read_header_item data name hdr0 self k hd :
  read_header (Dec.make data name hdr0) = (Ok tt, self) →
  k ∈ to_read_h1 → _header1_dict !! k = Some hd →
  ∃ v, Dec.header self !! k = Some v
       ∧ struct_unpack (HeaderTuple.type hd)
           (sub (Z.to_nat (HeaderTuple.offset hd))
                (calcsize (HeaderTuple.type hd)) data) = Ok v.
Proof.
  intros Hrun Hk Hhd. pose proof (read_header_spec data name hdr0) as H.
  rewrite Hrun in H. destruct H as (_ & _ & _ & Hin & _).
  destruct (Hin k Hk) as (v & Hv & Hl). exists v. split; [done|].
  unfold h1_field in Hv. rewrite Hhd in Hv.
  destruct (header1_entry _ _ Hhd) as (_ & ? & _ & ? & _).
  by apply field_at_Ok_inv in Hv as [_ ?].
Qed.

Lemma read_header_state data name hdr0 self :
  read_header (Dec.make data name hdr0) = (Ok tt, self) →
  Dec.data self = data ∧ Dec.name self = name ∧ (64 ≤ length data)%nat
  ∧ sub 0 4 data = magic.
Proof.
  intros Hrun. pose proof (read_header_spec data name hdr0) as H.
  rewrite Hrun in H. destruct H as (? & ? & Hm & Hin & _).
  destruct (Hin _ HEADER2_OFFSET_read) as (v & Hv & _).
  apply h1_field_HEADER2_OFFSET in Hv as [_ ?].
  split_and!; try done.
  change 0 with (Z.of_nat 0) in Hm.
  erewrite field_at_image in Hm; [|simpl; lia|done].
  unfold struct_unpack in Hm. case_bool_decide; [|done]. by injection Hm.
Qed.

Lemma in_to_read_h1 k : bool_decide (k ∈ to_read_h1) = true → k ∈ to_read_h1.
Proof. apply bool_decide_eq_true_1. Qed.

Lemma header_item_run k v self :
  Dec.header self !! k = Some v → header_item k self = (Ok v, self).
Proof. intros H. unfold header_item. rewrite get_bind. unfold getitem. by rewrite H. Qed.

(** The header entries the readers use, after a successful
    [read_header]. *)
Lemma read_header_items data name hdr0 self :
  read_header (Dec.make data name hdr0) = (Ok tt, self) →
  Dec.header self !! "TYPE" = Some (PyInt (stored_type data))
  ∧ Dec.header self !! "SHAPE_ROI_SIZE"
    = Some (PyInt (stored_shape_roi_size data))
  ∧ Dec.header self !! "TOP" = Some (PyInt (unpack_int 2 (sub 8 2 data)))
  ∧ Dec.header self !! "LEFT" = Some (PyInt (unpack_int 2 (sub 10 2 data)))
  ∧ Dec.header self !! "BOTTOM" = Some (PyInt (unpack_int 2 (sub 12 2 data)))
  ∧ Dec.header self !! "RIGHT" = Some (PyInt (unpack_int 2 (sub 14 2 data)))
  ∧ Dec.header self !! "POSITION"
    = Some (PyInt (unpack_int 4 (sub 56 4 data))).
Proof.
  intros Hrun.
  split_and!.
  - destruct (read_header_item _ _ _ _ _ _ Hrun
                (in_to_read_h1 "TYPE" eq_refl) h1_TYPE) as (v & -> & Hv).
    unfold struct_unpack in Hv. case_bool_decide; [|done]. by injection Hv as <-.
  - destruct (read_header_item _ _ _ _ _ _ Hrun
                (in_to_read_h1 "SHAPE_ROI_SIZE" eq_refl) h1_SHAPE_ROI_SIZE)
      as (v & -> & Hv).
    unfold struct_unpack in Hv. case_bool_decide; [|done]. by injection Hv as <-.
  - destruct (read_header_item _ _ _ _ _ _ Hrun
                (in_to_read_h1 "TOP" eq_refl) h1_TOP) as (v & -> & Hv).
    unfold struct_unpack in Hv. case_bool_decide; [|done]. by injection Hv as <-.
  - destruct (read_header_item _ _ _ _ _ _ Hrun
                (in_to_read_h1 "LEFT" eq_refl) h1_LEFT) as (v & -> & Hv).
    unfold struct_unpack in Hv. case_bool_decide; [|done]. by injection Hv as <-.
  - destruct (read_header_item _ _ _ _ _ _ Hrun
                (in_to_read_h1 "BOTTOM" eq_refl) h1_BOTTOM) as (v & -> & Hv).
    unfold struct_unpack in Hv. case_bool_decide; [|done]. by injection Hv as <-.
  - destruct (read_header_item _ _ _ _ _ _ Hrun
                (in_to_read_h1 "RIGHT" eq_refl) h1_RIGHT) as (v & -> & Hv).
    unfold struct_unpack in Hv. case_bool_decide; [|done]. by injection Hv as <-.
  - destruct (read_header_item _ _ _ _ _ _ Hrun
                (in_to_read_h1 "POSITION" eq_refl) h1_POSITION) as (v & -> & Hv).
    unfold struct_unpack in Hv. case_bool_decide; [|done]. by injection Hv as <-.
Qed.

Lemma read_floats_state base n self :
  (read_floats base n self).2 = self.
Proof.
  revert base. induction n as [|n IH]; intros base; simpl; [done|].
  rewrite ST_bind_unfold, _get_var_run.
  destruct (struct_unpack _ _) as [v|e]; [|done].
  rewrite ST_bind_unfold. specialize (IH (base + 4)).
  destruct (read_floats (base + 4) n self) as [[rest|e] s']; simpl in *; done.
Qed.

Lemma read_floats_raise base n self e s' :
  read_floats base n self = (Raise e, s') → e = struct_error.
Proof.
  revert base. induction n as [|n IH]; intros base; simpl; [done|].
  rewrite ST_bind_unfold, _get_var_run.
  destruct (struct_unpack _ _) as [v|e'] eqn:Hv.
  2:{ intros [= <- _]. by apply struct_unpack_raise in Hv as [? _]. }
  rewrite ST_bind_unfold. specialize (IH (base + 4)).
  destruct (read_floats (base + 4) n self) as [[rest|e'] s'']; [done|].
  exact IH.
Qed.

Lemma unpack_float_image x : unpack_float (float_image x) = as_single x.
Proof.
  unfold unpack_float, float_image, as_single. rewrite be_value_be_bytes.
  rewrite Z.mod_small; [done|]. apply bits_of_single_range.
Qed.

(** Reading back a block of packed floats. *)
Lemma read_floats_image fs base self :
  (base + 4 * length fs ≤ length (Dec.data self))%nat →
  sub base (4 * length fs) (Dec.data self) = concat (float_image <$> fs) →
  read_floats (Z.of_nat base) (length fs) self
  = (Ok ((λ x, PyFloat (as_single x)) <$> fs), self).
Proof.
  revert base. induction fs as [|f fs IH]; intros base Hlen Hsub; [done|].
  rewrite length_cons in Hlen, Hsub.
  replace (4 * S (length fs))%nat with (4 + 4 * length fs)%nat in Hsub by lia.
  rewrite sub_split, fmap_cons in Hsub. cbn [concat] in Hsub.
  apply app_inj_1 in Hsub as [Hf Hfs].
  2:{ rewrite length_sub by lia. unfold float_image. by rewrite length_be_bytes. }
  cbn [length read_floats]. rewrite ST_bind_unfold, _get_var_run.
  change (Z.of_nat 4) with (Z.of_nat (calcsize Fmt_f)).
  fold (field_at (Dec.data self) (Z.of_nat base) Fmt_f).
  erewrite field_at_image; [|simpl; lia|exact Hf].
  unfold struct_unpack. rewrite bool_decide_eq_true_2
    by (unfold float_image; by rewrite length_be_bytes).
  rewrite ST_bind_unfold.
  replace (Z.of_nat base + 4) with (Z.of_nat (base + 4)) by lia.
  rewrite IH by (done || lia). by rewrite unpack_float_image.
Qed.

Lemma or_else_Some v d : or_else (Some v) d = Ok v.
Proof. done. Qed.

(** [_read_roi_shape] on a decoder whose header has been read. *)
Lemma _read_roi_shape_run self t top left bottom right position n :
  Dec.header self !! "TYPE" = Some (PyInt t) →
  Dec.header self !! "TOP" = Some top →
  Dec.header self !! "LEFT" = Some left →
  Dec.header self !! "BOTTOM" = Some bottom →
  Dec.header self !! "RIGHT" = Some right →
  Dec.header self !! "POSITION" = Some position →
  Dec.header self !! "SHAPE_ROI_SIZE" = Some (PyInt n) →
  _read_roi_shape self
  = if bool_decide (t = 1) then
      match read_floats 64 (Z.to_nat n) self with
      | (Ok shapeArray, _) =>
          let '(x_coords, y_coords) := get_coords_from_shapeArray shapeArray in
          (Ok (ROIShape (ROIObject.make top left bottom right (Dec.name self)
                           position) x_coords y_coords), self)
      | (Raise e, _) => (Raise e, self)
      end
    else (Raise (Exception "Invalid composite ROI type"), self).
Proof.
  intros Ht Htop Hleft Hbottom Hright Hpos Hn. unfold _read_roi_shape.
  rewrite ST_bind_unfold, (header_item_run _ _ _ Ht).
  rewrite ST_bind_unfold. unfold getitem at 1. rewrite roi_types_rev_rect.
  change ((mret 1 : ST Dec.t Z) self) with (Ok 1, self). cbv iota beta.
  rewrite ST_bind_unfold. unfold py_eq. case_bool_decide; [|done].
  change ((mret () : ST Dec.t ()) self) with (Ok (), self). cbv iota beta.
  rewrite ST_bind_unfold, (header_item_run _ _ _ Htop).
  rewrite ST_bind_unfold, (header_item_run _ _ _ Hleft).
  rewrite ST_bind_unfold, (header_item_run _ _ _ Hbottom).
  rewrite ST_bind_unfold, (header_item_run _ _ _ Hright).
  rewrite ST_bind_unfold, (header_item_run _ _ _ Hpos).
  rewrite ST_bind_unfold, (header_item_run _ _ _ Hn).
  rewrite ST_bind_unfold.
  pose proof (read_floats_state 64 (Z.to_nat n) self) as Hst.
  destruct (read_floats 64 (Z.to_nat n) self) as [[shapeArray|e] s'];
    simpl in Hst; subst s'; [|done].
  destruct (get_coords_from_shapeArray shapeArray) as [x_coords y_coords].
  rewrite get_bind. done.
Qed.

Lemma _read_roi_shape_raise self e s' :
  _read_roi_shape self = (Raise e, s') →
  Dec.header self !! "TYPE" = Some (PyInt 1) →
  is_Some (Dec.header self !! "TOP") →
  is_Some (Dec.header self !! "LEFT") →
  is_Some (Dec.header self !! "BOTTOM") →
  is_Some (Dec.header self !! "RIGHT") →
  is_Some (Dec.header self !! "POSITION") →
  (∃ n, Dec.header self !! "SHAPE_ROI_SIZE" = Some (PyInt n)) →
  e = struct_error.
Proof.
  intros H Ht [? Htop] [? Hleft] [? Hbottom] [? Hright] [? Hpos] [n Hn].
  rewrite (_read_roi_shape_run _ _ _ _ _ _ _ _ Ht Htop Hleft Hbottom
             Hright Hpos Hn) in H.
  rewrite bool_decide_eq_true_2 in H by done.
  destruct (read_floats 64 (Z.to_nat n) self) as [[shapeArray|e'] s''] eqn:Hfl.
  - by destruct (get_coords_from_shapeArray shapeArray).
  - injection H as <- _. by eapply read_floats_raise.
Qed.

Lemma h1_field_h data k off :
  _header1_dict !! k = Some (HeaderTuple.make Fmt_h 2 (Z.of_nat off)) →
  (off + 2 ≤ length data)%nat →
  h1_field data k = Ok (PyInt (unpack_int 2 (sub off 2 data))).
Proof.
  intros Hk ?. unfold h1_field. rewrite Hk. simpl.
  erewrite field_at_image; [|simpl; lia|done].
  unfold struct_unpack.
  by rewrite bool_decide_eq_true_2 by (apply length_sub; simpl; lia).
Qed.

Lemma h1_field_i data k off :
  _header1_dict !! k = Some (HeaderTuple.make Fmt_i 4 (Z.of_nat off)) →
  (off + 4 ≤ length data)%nat →
  h1_field data k = Ok (PyInt (unpack_int 4 (sub off 4 data))).
Proof.
  intros Hk ?. unfold h1_field. rewrite Hk. simpl.
  erewrite field_at_image; [|simpl; lia|done].
  unfold struct_unpack.
  by rewrite bool_decide_eq_true_2 by (apply length_sub; simpl; lia).
Qed.

Lemma set_header_h1_run k v self :
  is_Some (_header1_dict !! k) → h1_field (Dec.data self) k = Ok v →
  _set_header k self = (Ok tt, set_header (insert k v) self).
Proof.
  intros Hk Hv. rewrite (_set_header_run _ _ (h1_field (Dec.data self) k)).
  - by rewrite Hv.
  - by apply _get_header_h1.
Qed.

(** [_read_roi_rect] re-reads its fields from the buffer; all of them lie
    in header block 1. *)
Lemma _read_roi_rect_run self :
  (64 ≤ length (Dec.data self))%nat →
  let data := Dec.data self in
  (_read_roi_rect self).1
  = Ok (ROIRect_init (PyInt (unpack_int 2 (sub 8 2 data)))
          (PyInt (unpack_int 2 (sub 10 2 data)))
          (PyInt (unpack_int 2 (sub 12 2 data)))
          (PyInt (unpack_int 2 (sub 14 2 data)))
          (PyInt (unpack_int 2 (sub 54 2 data)))
          (Dec.name self)
          (PyInt (unpack_int 4 (sub 56 4 data)))).
Proof.
  intros Hlen data. unfold _read_roi_rect.
  set (d := Dec.data self) in *. subst data.
  assert (Harc := h1_field_h d _ 54 h1_ROUNDED_RECT_ARC_SIZE ltac:(lia)).
  assert (Htop := h1_field_h d _ 8 h1_TOP ltac:(lia)).
  assert (Hleft := h1_field_h d _ 10 h1_LEFT ltac:(lia)).
  assert (Hbottom := h1_field_h d _ 12 h1_BOTTOM ltac:(lia)).
  assert (Hright := h1_field_h d _ 14 h1_RIGHT ltac:(lia)).
  assert (Hpos := h1_field_i d _ 56 h1_POSITION ltac:(lia)).
  rewrite ST_bind_unfold.
  rewrite (set_header_h1_run _ _ _ (mk_is_Some _ _ h1_ROUNDED_RECT_ARC_SIZE) Harc).
  set (s1 := set_header _ self).
  rewrite ST_bind_unfold.
  rewrite (header_item_run _ (PyInt (unpack_int 2 (sub 54 2 d))))
    by apply lookup_insert_eq.
  rewrite ST_bind_unfold. cbn [for_each].
  rewrite ST_bind_unfold.
  rewrite (set_header_h1_run _ _ s1 (mk_is_Some _ _ h1_TOP) Htop).
  set (s2 := set_header _ s1).
  rewrite ST_bind_unfold.
  rewrite (set_header_h1_run _ _ s2 (mk_is_Some _ _ h1_LEFT) Hleft).
  set (s3 := set_header _ s2).
  rewrite ST_bind_unfold.
  rewrite (set_header_h1_run _ _ s3 (mk_is_Some _ _ h1_BOTTOM) Hbottom).
  set (s4 := set_header _ s3).
  rewrite ST_bind_unfold.
  rewrite (set_header_h1_run _ _ s4 (mk_is_Some _ _ h1_RIGHT) Hright).
  set (s5 := set_header _ s4).
  rewrite ST_bind_unfold.
  rewrite (set_header_h1_run _ _ s5 (mk_is_Some _ _ h1_POSITION) Hpos).
  set (s6 := set_header _ s5).
  change ((mret () : ST Dec.t ()) s6) with (Ok (), s6). cbv iota beta.
  rewrite ST_bind_unfold,
    (header_item_run "TOP" (PyInt (unpack_int 2 (sub 8 2 d)))).
  2:{ unfold s6, s5, s4, s3, s2. simpl. by simplify_map_eq. }
  rewrite ST_bind_unfold,
    (header_item_run "LEFT" (PyInt (unpack_int 2 (sub 10 2 d)))).
  2:{ unfold s6, s5, s4, s3. simpl. by simplify_map_eq. }
  rewrite ST_bind_unfold,
    (header_item_run "BOTTOM" (PyInt (unpack_int 2 (sub 12 2 d)))).
  2:{ unfold s6, s5, s4. simpl. by simplify_map_eq. }
  rewrite ST_bind_unfold,
    (header_item_run "RIGHT" (PyInt (unpack_int 2 (sub 14 2 d)))).
  2:{ unfold s6, s5. simpl. by simplify_map_eq. }
  rewrite ST_bind_unfold,
    (header_item_run "POSITION" (PyInt (unpack_int 4 (sub 56 4 d)))).
  2:{ unfold s6. simpl. by simplify_map_eq. }
  rewrite get_bind. done.
Qed.

Lemma roi_types_1 : _roi_types !! 1 = Some "rect".
Proof. by vm_compute. Qed.

Lemma getattr_read_rect :
  getattr decoder_methods "_read_roi_rect" = Ok _read_roi_rect.
Proof. reflexivity. Qed.

(** [read] after the header: the shape branch when [SHAPE_ROI_SIZE] is
    positive, the dispatch on the type tag otherwise. *)
Lemma read_body_run data name hdr0 self :
  read_header (Dec.make data name hdr0) = (Ok tt, self) →
  read_body (Dec.make data name hdr0)
  = if bool_decide (0 < stored_shape_roi_size data) then _read_roi_shape self
    else
      (kind ← roi_type_name;
       match getattr decoder_methods ("_read_roi_" +:+ kind) with
       | Ok roi_reader => roi_reader
       | Raise (AttributeError _) =>
           raise (NotImplementedError
                    ("Reading roi type " +:+ kind +:+ " not implemented"))
       | Raise e => raise e
       end) self.
Proof.
  intros Hrun. unfold read_body. rewrite ST_bind_unfold, Hrun.
  destruct (read_header_items _ _ _ _ Hrun) as (_ & Hsize & _).
  rewrite ST_bind_unfold, (header_item_run _ _ _ Hsize).
  rewrite ST_bind_unfold. unfold lift, py_gt_0.
  by case_bool_decide.
Qed.

Lemma read_body_rect data name hdr0 self :
  read_header (Dec.make data name hdr0) = (Ok tt, self) →
  stored_shape_roi_size data ≤ 0 → stored_type data = 1 →
  (read_body (Dec.make data name hdr0)).1
  = Ok (ROIRect_init (PyInt (unpack_int 2 (sub 8 2 data)))
          (PyInt (unpack_int 2 (sub 10 2 data)))
          (PyInt (unpack_int 2 (sub 12 2 data)))
          (PyInt (unpack_int 2 (sub 14 2 data)))
          (PyInt (unpack_int 2 (sub 54 2 data)))
          name
          (PyInt (unpack_int 4 (sub 56 4 data)))).
Proof.
  intros Hrun Hsize Htype. rewrite (read_body_run _ _ _ _ Hrun).
  rewrite bool_decide_eq_false_2 by lia.
  destruct (read_header_items _ _ _ _ Hrun) as (Ht & _).
  destruct (read_header_state _ _ _ _ Hrun) as (Hd & Hn & Hlen & _).
  rewrite ST_bind_unfold. unfold roi_type_name.
  rewrite ST_bind_unfold, (header_item_run _ _ _ Ht), Htype.
  unfold getitem. rewrite roi_types_1.
  change ((mret "rect" : ST Dec.t string) self) with (Ok "rect", self).
  cbv iota beta.
  change ("_read_roi_" +:+ "rect") with "_read_roi_rect".
  rewrite getattr_read_rect, _read_roi_rect_run by (rewrite Hd; lia).
  by rewrite Hd, Hn.
Qed.

(** ** The shape array *)

Lemma py_float_Ok v f : py_float v = Ok f → f = to_float v.
Proof.
  destruct v; simpl; try done.
  - destruct (is_inf _); [done|]. by intros [= <-].
  - by intros [= <-].
Qed.

Lemma shape_loop_spec pairs acc arr :
  shape_loop acc pairs = Ok arr ↔
  Forall (λ xy, convertible xy.1 ∧ convertible xy.2) pairs
  ∧ arr = acc ++ emitted pairs.
Proof.
  revert acc. induction pairs as [|[x y] pairs IH]; intros acc; simpl.
  - rewrite app_nil_r. split; [by intros [= <-]|by intros [_ ->]].
  - unfold shape_step. simpl. rewrite Forall_cons. unfold convertible at 1 2.
    simpl.
    destruct (py_float y) as [fy|] eqn:Hy; simpl.
    2:{ split; [done|]. by intros [[[_ ?] _] _]. }
    destruct (py_float x) as [fx|] eqn:Hx; simpl.
    2:{ split; [done|]. by intros [[[? _] _] _]. }
    apply py_float_Ok in Hx as Hx', Hy as Hy'. subst fx fy.
    rewrite IH, <-app_assoc. simpl. split.
    + intros [? ->]. done.
    + intros [[_ ?] ->]. done.
Qed.

Lemma get_shapeArray_spec x_coords y_coords arr :
  get_shapeArray x_coords y_coords = Ok arr ↔
  Forall (λ xy, convertible xy.1 ∧ convertible xy.2) (zip x_coords y_coords)
  ∧ arr = shape_form float_0_0 float_4_0 (zip x_coords y_coords).
Proof.
  unfold get_shapeArray, shape_form.
  destruct (shape_loop _ _) as [a|e] eqn:Hl; simpl.
  - apply shape_loop_spec in Hl as [Hc ->]. split.
    + by intros [= <-].
    + by intros [_ ->].
  - split; [done|]. intros [Hc _].
    assert (shape_loop [float_0_0] (zip x_coords y_coords)
            = Ok ([float_0_0] ++ emitted (zip x_coords y_coords)))
      by (by apply shape_loop_spec).
    congruence.
Qed.

Lemma shape_form_nil c z : shape_form c z [] = [z].
Proof. done. Qed.

Lemma shape_form_cons c z xy pairs :
  shape_form c z (xy :: pairs)
  = c :: to_float xy.2 :: to_float xy.1 :: shape_form float_1_0 z pairs.
Proof. done. Qed.

Lemma length_shape_form c z pairs :
  length (shape_form c z pairs) = (3 * length pairs + 1)%nat.
Proof.
  revert c. induction pairs as [|xy pairs IH]; intros c; [done|].
  rewrite shape_form_cons. simpl. rewrite IH. lia.
Qed.

(** For at least one pair the array is the one the specification
    describes. *)
Lemma shape_form_spec x_coords y_coords :
  zip x_coords y_coords ≠ [] →
  shape_form float_0_0 float_4_0 (zip x_coords y_coords)
  = shape_array_spec x_coords y_coords.
Proof.
  unfold shape_form, shape_array_spec. intros Hne.
  destruct (zip x_coords y_coords) as [|xy pairs]; [done|]. done.
Qed.

Lemma every_third_cons {A} r k (a : A) l :
  every_third r k (a :: l)
  = (if decide (k mod 3 = r)%nat then [a] else []) ++ every_third r (S k) l.
Proof.
  unfold every_third.
  change (zip (seq k (length (a :: l))) (a :: l))
    with ((k, a) :: zip (seq (S k) (length l)) l).
  rewrite filter_cons. cbn [fst].
  by destruct (decide (k mod 3 = r)%nat).
Qed.

Lemma every_third_shape_form {A} (g : float → A) c z pairs k :
  (k mod 3 = 0)%nat →
  every_third 2 k (g <$> shape_form c z pairs)
    = (λ xy, g (to_float xy.1)) <$> pairs
  ∧ every_third 1 k (g <$> shape_form c z pairs)
    = (λ xy, g (to_float xy.2)) <$> pairs.
Proof.
  revert c k. induction pairs as [|xy pairs IH]; intros c k Hk.
  - rewrite shape_form_nil. simpl. rewrite !every_third_cons, Hk. done.
  - rewrite shape_form_cons, !fmap_cons, !every_third_cons.
    assert (S k mod 3 = 1)%nat.
    { rewrite <-Nat.add_1_r, Nat.Div0.add_mod, Hk. done. }
    assert (S (S k) mod 3 = 2)%nat.
    { replace (S (S k)) with (k + 2)%nat by lia.
      rewrite Nat.Div0.add_mod, Hk. done. }
    assert (S (S (S k)) mod 3 = 0)%nat.
    { replace (S (S (S k))) with (k + 1 * 3)%nat by lia.
      by rewrite Nat.Div0.mod_add. }
    destruct (IH float_1_0 (S (S (S k)))) as [-> ->]; [done|].
    rewrite Hk, H, H0. done.
Qed.

Lemma get_coords_shape_form {A} (g : float → A) c z pairs :
  get_coords_from_shapeArray (g <$> shape_form c z pairs)
  = ((λ xy, g (to_float xy.1)) <$> pairs, (λ xy, g (to_float xy.2)) <$> pairs).
Proof.
  unfold get_coords_from_shapeArray, enumerate.
  fold (every_third 2 0 (g <$> shape_form c z pairs)).
  fold (every_third 1 0 (g <$> shape_form c z pairs)).
  by destruct (every_third_shape_form g c z pairs 0) as [-> ->].
Qed.

(** ** Encoding followed by decoding *)

Lemma write_inv path roi_obj w r w' :
  write path roi_obj w = (r, w') →
  ∃ self, write_body (Enc.make roi_obj _header1_size []) = (r, self)
          ∧ w' = set_file path (Enc.f_obj self) w.
Proof.
  unfold write. destruct (write_body _) as [r' self]. intros [= <- <-]. eauto.
Qed.

Lemma unpack_int_be_bytes n z :
  (0 < n)%nat → 0 ≤ z < 256 ^ Z.of_nat n / 2 →
  unpack_int n (be_bytes n z) = z.
Proof.
  intros Hn Hz.
  assert (256 ^ Z.of_nat n / 2 ≤ 256 ^ Z.of_nat n).
  { apply Z.div_le_upper_bound; [lia|].
    assert (0 < 256 ^ Z.of_nat n) by (apply Z.pow_pos_nonneg; lia). lia. }
  destruct (unpack_pack_int n z (be_bytes n z) Hn) as [_ ?]; [|done].
  unfold pack_int. rewrite bool_decide_eq_true_2 by lia.
  by rewrite Z.mod_small by lia.
Qed.

Lemma pack_h_inv v bs :
  struct_pack Fmt_h v = Ok bs →
  length bs = 2%nat ∧ v = PyInt (unpack_int 2 bs).
Proof.
  destruct v; try done. simpl. intros H.
  by apply unpack_pack_int in H as [? ->]; [|lia].
Qed.

Lemma pack_i_inv v bs :
  struct_pack Fmt_i v = Ok bs →
  length bs = 4%nat ∧ v = PyInt (unpack_int 4 bs).
Proof.
  destruct v; try done. simpl. intros H.
  by apply unpack_pack_int in H as [? ->]; [|lia].
Qed.

Lemma read_ZipExtFile name content w :
  read (ZipExtFile name content) w
  = (read_body (Dec.make content (stem name) ∅)).1.
Proof. done. Qed.

Lemma read_PathStr path content w :
  World.files w !! path = Some content →
  read (PathStr path) w = (read_body (Dec.make content (stem path) ∅)).1.
Proof. intros H. unfold read. by rewrite H. Qed.

(** Decoding the bytes of an encoded rectangle. *)
Lemma decode_rect_image base bt bl bb br bp name' :
  struct_pack Fmt_h (ROIObject.top base) = Ok bt →
  struct_pack Fmt_h (ROIObject.left base) = Ok bl →
  struct_pack Fmt_h (ROIObject.bottom base) = Ok bb →
  struct_pack Fmt_h (ROIObject.right base) = Ok br →
  struct_pack Fmt_i (ROIObject.position base) = Ok bp →
  (read_body (Dec.make (rect_image bt bl bb br bp (ROIObject.name base))
                name' ∅)).1
  = Ok (ROIRect_init (ROIObject.top base) (ROIObject.left base)
          (ROIObject.bottom base) (ROIObject.right base) (PyInt 0) name'
          (ROIObject.position base)).
Proof.
  intros [Hbt Ht]%pack_h_inv [Hbl Hl]%pack_h_inv [Hbb Hb]%pack_h_inv
         [Hbr Hr]%pack_h_inv [Hbp Hp]%pack_i_inv.
  set (data := rect_image bt bl bb br bp (ROIObject.name base)).
  pose proof (rect_image_length bt bl bb br bp (ROIObject.name base)
                Hbt Hbl Hbb Hbr Hbp) as Hlen.
  destruct (rect_image_fields bt bl bb br bp (ROIObject.name base)
              Hbt Hbl Hbb Hbr Hbp)
    as (Hmagic & Htype & Htop & Hleft & Hbottom & Hright & Hsize & Harc
        & Hpos & Hh2).
  fold data in Hlen, Hmagic, Htype, Htop, Hleft, Hbottom, Hright, Hsize,
    Harc, Hpos, Hh2.
  assert (Hoff : stored_header2_offset data = 64).
  { unfold stored_header2_offset. rewrite Hh2. by vm_compute. }
  destruct (read_header_ok data name' ∅) as [self Hrun];
    [done|lia|lia|lia|].
  rewrite (read_body_rect _ _ _ _ Hrun).
  - rewrite Htop, Hleft, Hbottom, Hright, Harc, Hpos.
    rewrite <-Ht, <-Hl, <-Hb, <-Hr, <-Hp. done.
  - unfold stored_shape_roi_size. rewrite Hsize. by vm_compute.
  - unfold stored_type. rewrite Htype. by vm_compute.
Qed.

(** Decoding the bytes of an encoded shape, when header block 2 lies
    inside the file. *)
Lemma decode_shape_image base pairs bt bl bb br bp name' :
  let shapeArray := shape_form float_0_0 float_4_0 pairs in
  struct_pack Fmt_h (ROIObject.top base) = Ok bt →
  struct_pack Fmt_h (ROIObject.left base) = Ok bl →
  struct_pack Fmt_h (ROIObject.bottom base) = Ok bb →
  struct_pack Fmt_h (ROIObject.right base) = Ok br →
  struct_pack Fmt_i (ROIObject.position base) = Ok bp →
  128 + 4 * Z.of_nat (length shapeArray) < 2 ^ 31 →
  ROIObject.name base ≠ EmptyString ∨ (length shapeArray ≤ 4)%nat →
  (read_body
     (Dec.make (shape_image bt bl bb br bp shapeArray (ROIObject.name base))
        name' ∅)).1
  = Ok (ROIShape
          (ROIObject.make (ROIObject.top base) (ROIObject.left base)
             (ROIObject.bottom base) (ROIObject.right base) name'
             (ROIObject.position base))
          (to_single <$> pairs.*1) (to_single <$> pairs.*2)).
Proof.
  intros shapeArray
         [Hbt Ht]%pack_h_inv [Hbl Hl]%pack_h_inv [Hbb Hb]%pack_h_inv
         [Hbr Hr]%pack_h_inv [Hbp Hp]%pack_i_inv Hbig Hname.
  assert (Hn : (0 < length shapeArray)%nat).
  { unfold shapeArray. rewrite length_shape_form. lia. }
  set (data := shape_image bt bl bb br bp shapeArray (ROIObject.name base)).
  pose proof (shape_image_length bt bl bb br bp (ROIObject.name base)
                Hbt Hbl Hbb Hbr Hbp shapeArray Hn) as Hlen.
  pose proof (shape_image_header2 bt bl bb br bp (ROIObject.name base)
                Hbt Hbl Hbb Hbr Hbp shapeArray Hn Hname) as Hlen2.
  destruct (shape_image_fields bt bl bb br bp (ROIObject.name base)
              Hbt Hbl Hbb Hbr Hbp shapeArray Hn)
    as (Hmagic & Htype & Htop & Hleft & Hbottom & Hright & Hsize
        & Hpos & Hh2 & Hfloats).
  fold data in Hlen, Hlen2, Hmagic, Htype, Htop, Hleft, Hbottom, Hright,
    Hsize, Hpos, Hh2, Hfloats.
  change (256 ^ Z.of_nat 4 / 2) with (2 ^ 31) in *.
  assert (Hoff : stored_header2_offset data
                 = Z.of_nat (64 + 4 * length shapeArray)).
  { unfold stored_header2_offset. rewrite Hh2.
    apply unpack_int_be_bytes; [lia|].
    change (256 ^ Z.of_nat 4 / 2) with (2 ^ 31). lia. }
  assert (Hsz : stored_shape_roi_size data = Z.of_nat (length shapeArray)).
  { unfold stored_shape_roi_size. rewrite Hsize.
    apply unpack_int_be_bytes; [lia|].
    change (256 ^ Z.of_nat 4 / 2) with (2 ^ 31). lia. }
  assert (Hty : stored_type data = 1).
  { unfold stored_type. rewrite Htype. by vm_compute. }
  destruct (read_header_ok data name' ∅) as [self Hrun];
    [done|lia|lia|lia|].
  rewrite (read_body_run _ _ _ _ Hrun).
  rewrite bool_decide_eq_true_2 by lia.
  destruct (read_header_items _ _ _ _ Hrun)
    as (Htag & Hsize' & Htop' & Hleft' & Hbottom' & Hright' & Hpos').
  destruct (read_header_state _ _ _ _ Hrun) as (Hd & Hnm & _ & _).
  rewrite (_read_roi_shape_run _ _ _ _ _ _ _ _ Htag Htop' Hleft' Hbottom'
             Hright' Hpos' Hsize').
  rewrite Hty, bool_decide_eq_true_2 by done.
  rewrite Hsz, Nat2Z.id.
  change 64 with (Z.of_nat 64).
  rewrite read_floats_image by (rewrite Hd; done || lia).
  unfold shapeArray at 1. rewrite get_coords_shape_form.
  rewrite Htop, Hleft, Hbottom, Hright, Hpos.
  rewrite <-Ht, <-Hl, <-Hb, <-Hr, <-Hp, Hnm.
  rewrite <-!list_fmap_compose. done.
Qed.

Lemma shape_encoded path base x_coords y_coords w w' :
  write path (ROIShape base x_coords y_coords) w = (Ok tt, w') →
  ∃ bt bl bb br bp,
    let shapeArray := shape_form float_0_0 float_4_0 (zip x_coords y_coords) in
    get_shapeArray x_coords y_coords = Ok shapeArray
    ∧ struct_pack Fmt_h (ROIObject.top base) = Ok bt
    ∧ struct_pack Fmt_h (ROIObject.left base) = Ok bl
    ∧ struct_pack Fmt_h (ROIObject.bottom base) = Ok bb
    ∧ struct_pack Fmt_h (ROIObject.right base) = Ok br
    ∧ struct_pack Fmt_i (ROIObject.position base) = Ok bp
    ∧ 128 + 4 * Z.of_nat (length shapeArray) < 2 ^ 31
    ∧ World.files w' !! path
      = Some (shape_image bt bl bb br bp shapeArray (ROIObject.name base)).
Proof.
  intros (self & Hbody & ->)%write_inv.
  apply write_body_shape in Hbody
    as (arr & bt & bl & bb & br & bp & Harr & ? & ? & ? & ? & ? & _ & ? & _ & Hf).
  apply get_shapeArray_spec in Harr as Harr'. destruct Harr' as [_ ->].
  exists bt, bl, bb, br, bp. split_and!; try done.
  simpl. rewrite lookup_insert_eq. by rewrite Hf.
Qed.

Lemma rect_encoded path r w w' :
  roi_type r = "rect" →
  write path r w = (Ok tt, w') →
  let base := roi_base r in
  ∃ bt bl bb br bp,
    struct_pack Fmt_h (ROIObject.top base) = Ok bt
    ∧ struct_pack Fmt_h (ROIObject.left base) = Ok bl
    ∧ struct_pack Fmt_h (ROIObject.bottom base) = Ok bb
    ∧ struct_pack Fmt_h (ROIObject.right base) = Ok br
    ∧ struct_pack Fmt_i (ROIObject.position base) = Ok bp
    ∧ World.files w' !! path
      = Some (rect_image bt bl bb br bp (ROIObject.name base)).
Proof.
  intros Hty (self & Hbody & ->)%write_inv.
  apply write_body_rect in Hbody
    as (bt & bl & bb & br & bp & ? & ? & ? & ? & ? & _ & Hf); [|done].
  exists bt, bl, bb, br, bp. split_and!; try done.
  simpl. rewrite lookup_insert_eq. by rewrite Hf.
Qed.





(** C2. For every shape ROI with n >= 1 coordinate pairs (x_i, y_i), the
    flat array built for encoding is a leading 0.0, then y_i, x_i, 1.0
    for each pair with the last emitted value removed, then a trailing
    4.0; it has 3n+1 elements; the encoder writes this count into the
    SHAPE_ROI_SIZE field (an int32 at byte 36) and the floats themselves
    from byte 64 on. *)
Theorem shape_array_layout x_coords y_coords n :
  length x_coords = n → length y_coords = n → (1 ≤ n)%nat →
  Forall convertible x_coords → Forall convertible y_coords →
  get_shapeArray x_coords y_coords = Ok (shape_array_spec x_coords y_coords)
  ∧ length (shape_array_spec x_coords y_coords) = (3 * n + 1)%nat
  ∧ ∀ path base w w',
      write path (ROIShape base x_coords y_coords) w = (Ok tt, w') →
      ∃ data,
        World.files w' !! path = Some data
        ∧ stored_shape_roi_size data = 3 * Z.of_nat n + 1
        ∧ sub 64 (4 * (3 * n + 1)) data
          = concat (float_image <$> shape_array_spec x_coords y_coords).
Proof.
  intros Hx Hy Hn Hcx Hcy.
  assert (Hne : zip x_coords y_coords ≠ []).
  { intros Hz. apply (f_equal length) in Hz. rewrite length_zip in Hz.
    simpl in Hz. lia. }
  assert (Hlen : length (shape_array_spec x_coords y_coords) = (3 * n + 1)%nat).
  { rewrite <-shape_form_spec, length_shape_form, length_zip by done. lia. }
  split_and!; [|done|].
  - apply get_shapeArray_spec. split; [|by rewrite shape_form_spec].
    apply Forall_forall. intros [x y] Hin. simpl.
    split.
    + eapply Forall_forall; [apply Hcx|]. by eapply elem_of_zip_l.
    + eapply Forall_forall; [apply Hcy|]. by eapply elem_of_zip_r.
  - intros path base w w'
      (bt & bl & bb & br & bp & _ & [Hbt _]%pack_h_inv & [Hbl _]%pack_h_inv
       & [Hbb _]%pack_h_inv & [Hbr _]%pack_h_inv & [Hbp _]%pack_i_inv
       & Hbig & Hfile)%shape_encoded.
    rewrite shape_form_spec in Hfile, Hbig by done. rewrite Hlen in Hbig.
    eexists. split; [exact Hfile|].
    destruct (shape_image_fields bt bl bb br bp (ROIObject.name base)
                Hbt Hbl Hbb Hbr Hbp (shape_array_spec x_coords y_coords))
      as (_ & _ & _ & _ & _ & _ & Hsize & _ & _ & Hfloats); [lia|].
    rewrite Hlen in Hsize, Hfloats. split; [|done].
    unfold stored_shape_roi_size. rewrite Hsize.
    rewrite unpack_int_be_bytes; [lia|lia|].
    change (256 ^ Z.of_nat 4 / 2) with (2 ^ 31). lia.
Qed.

(** The scenario of the specification: xCoords = [1,2,3] and
    yCoords = [4,5,6] give [0.0, 4,1,1.0, 5,2,1.0, 6,3,4.0], of length
    10, and the header field holds 10. *)
Lemma shape_array_layout_witness :
  get_shapeArray [PyInt 1; PyInt 2; PyInt 3] [PyInt 4; PyInt 5; PyInt 6]
    = Ok (float_of_Z <$> [0; 4; 1; 1; 5; 2; 1; 6; 3; 4])
  ∧ ∃ data,
      World.files (write "/tmp/roi-0000-0000.roi" sample_shape empty_world).2
        !! "/tmp/roi-0000-0000.roi" = Some data
      ∧ stored_shape_roi_size data = 10.
Proof.
  destruct (shape_array_layout
              [PyInt 1; PyInt 2; PyInt 3] [PyInt 4; PyInt 5; PyInt 6] 3
              eq_refl eq_refl) as (Harr & _ & Hfile).
  - lia.
  - repeat constructor.
  - repeat constructor.
  - split; [exact Harr|].
    destruct (Hfile "/tmp/roi-0000-0000.roi"
                (ROIObject.make (PyInt 1) (PyInt 1) (PyInt 3) (PyInt 6)
                   "roi-0000-0000" (PyInt 0))
                empty_world
                (write "/tmp/roi-0000-0000.roi" sample_shape empty_world).2)
      as (data & Hd & Hs & _).
    + vm_compute. reflexivity.
    + exists data. split; [exact Hd|exact Hs].
Defined.

(** A rectangle that has been encoded: bytes 54-55 of the file are zero,
    and reading it gives the rectangle with arc 0 and the name of the
    file. *)
Lemma rect_decodes path base arc w w' :
  write path (ROIRect base arc) w = (Ok tt, w') →
  (∃ data, World.files w' !! path = Some data ∧ sub 54 2 data = [x00; x00])
  ∧ read (PathStr path) w'
    = Ok (ROIRect_init (ROIObject.top base) (ROIObject.left base)
            (ROIObject.bottom base) (ROIObject.right base) (PyInt 0)
            (stem path) (ROIObject.position base)).
Proof.
  intros (bt & bl & bb & br & bp & Ht & Hl & Hb & Hr & Hp & Hfile)
    %rect_encoded; [|done].
  simpl in *. split.
  - eexists. split; [exact Hfile|].
    apply pack_h_inv in Ht as [? _], Hl as [? _], Hb as [? _], Hr as [? _].
    apply pack_i_inv in Hp as [? _].
    by destruct (rect_image_fields bt bl bb br bp (ROIObject.name base))
      as (_ & _ & _ & _ & _ & _ & _ & ? & _).
  - rewrite (read_PathStr _ _ _ Hfile). by apply decode_rect_image.
Qed.

(** C10. For every rectangle ROI, whatever its corner arc, the encoder
    leaves bytes 54-55 (ROUNDED_RECT_ARC_SIZE) at zero, and decoding the
    encoded rectangle yields arc = 0; bounds and position come back as
    written. *)
Theorem rect_arc_not_preserved path base arc w w' :
  write path (ROIRect base arc) w = (Ok tt, w') →
  (∃ data, World.files w' !! path = Some data ∧ sub 54 2 data = [x00; x00])
  ∧ read (PathStr path) w'
    = Ok (ROIRect_init (ROIObject.top base) (ROIObject.left base)
            (ROIObject.bottom base) (ROIObject.right base) (PyInt 0)
            (stem path) (ROIObject.position base)).
Proof. apply rect_decodes. Qed.

Lemma rect_arc_not_preserved_witness :
  read (PathStr "/tmp/roi-0001-0000.roi")
       (write "/tmp/roi-0001-0000.roi" sample_rounded_rect empty_world).2
  = Ok (ROIRect_init (PyInt 10) (PyInt 5) (PyInt 50) (PyInt 40) (PyInt 0)
          "roi-0001-0000" (PyInt 1)).
Proof.
  refine (eq_trans
    (proj2 (rect_arc_not_preserved "/tmp/roi-0001-0000.roi"
       (ROIObject.make (PyInt 10) (PyInt 5) (PyInt 50) (PyInt 40)
          "roi-0001-0000" (PyInt 1))
       (PyInt 7) empty_world _ _)) _).
  - vm_compute. reflexivity.
  - vm_compute. reflexivity.
Defined.

(** ** The bounding box of a shape *)





(** ** Rejected inputs *)

Lemma field_at_magic data :
  (4 ≤ length data)%nat →
  field_at data 0 (Fmt_s 4) = Ok (PyBytes (take 4 data)).
Proof.
  intros. change 0 with (Z.of_nat 0).
  erewrite field_at_image; [|simpl; lia|done].
  unfold struct_unpack, sub. rewrite drop_0. cbn [calcsize].
  by rewrite bool_decide_eq_true_2 by (rewrite length_take; lia).
Qed.

Lemma read_body_header_raise data name hdr0 e self :
  read_header (Dec.make data name hdr0) = (Raise e, self) →
  (read_body (Dec.make data name hdr0)).1 = Raise e.
Proof. intros H. unfold read_body. by rewrite ST_bind_unfold, H. Qed.



(** C5, amended. For every buffer whose header can be read (valid magic
    and both header blocks inside the buffer) and whose SHAPE_ROI_SIZE
    field is greater than 0, decoding runs the shape reader whatever the
    stored type tag, and fails with Exception('Invalid composite ROI
    type') exactly when the type tag at byte 6 is not the rectangle
    tag 1. *)
Theorem composite_branch name data w self :
  read_header (Dec.make data (stem name) ∅) = (Ok tt, self) →
  0 < stored_shape_roi_size data →
  read (ZipExtFile name data) w = (_read_roi_shape self).1
  ∧ (read (ZipExtFile name data) w
       = Raise (Exception "Invalid composite ROI type")
     ↔ stored_type data ≠ 1).
Proof.
  intros Hrun Hsize. rewrite read_ZipExtFile, (read_body_run _ _ _ _ Hrun).
  rewrite bool_decide_eq_true_2 by done. split; [done|].
  destruct (read_header_items _ _ _ _ Hrun)
    as (Htag & Hsize' & Htop & Hleft & Hbottom & Hright & Hpos).
  rewrite (_read_roi_shape_run _ _ _ _ _ _ _ _ Htag Htop Hleft Hbottom
             Hright Hpos Hsize').
  case_bool_decide as Ht.
  - split; [|done].
    pose proof (read_floats_raise 64 (Z.to_nat (stored_shape_roi_size data))
                  self) as Hfl.
    destruct (read_floats _ _ _) as [[shapeArray|e] s'].
    + by destruct (get_coords_from_shapeArray shapeArray).
    + simpl. intros [= ->]. by specialize (Hfl _ _ eq_refl).
  - done.
Qed.

Lemma composite_branch_witness :
  read (ZipExtFile "x.roi"
          (write_at 6 [x02] (write_at 64 (replicate 64 x00) truncated_composite)))
       empty_world
  = Raise (Exception "Invalid composite ROI type").
Proof.
  refine (proj2 (proj2 (composite_branch "x.roi"
    (write_at 6 [x02] (write_at 64 (replicate 64 x00) truncated_composite))
    empty_world
    (read_header
       (Dec.make (write_at 6 [x02]
                    (write_at 64 (replicate 64 x00) truncated_composite))
          "x" ∅)).2 _ _)) _).
  - vm_compute. reflexivity.
  - vm_compute. reflexivity.
  - vm_compute. discriminate.
Defined.

(** C5 as stated fails: a buffer with valid magic, SHAPE_ROI_SIZE = 1 and
    type tag 2 that ends after header block 1 is rejected with
    [struct.error] while header block 2 is read, before the type tag is
    looked at. *)
Lemma truncated_composite_struct_error :
  take 4 truncated_composite = magic
  ∧ 0 < stored_shape_roi_size truncated_composite
  ∧ stored_type truncated_composite ≠ 1
  ∧ read (ZipExtFile "x.roi" truncated_composite) empty_world
    = Raise struct_error.
Proof. vm_compute. split_and!; done. Qed.




(** ** Paths *)

Lemma rfind_bounds c s : -1 ≤ rfind c s < Z.of_nat (String.length s).
Proof.
  induction s as [|a s IH]; simpl; [lia|].
  repeat case_bool_decide; lia.
Qed.

Lemma app_nil_str (t : string) : EmptyString +:+ t = t.
Proof. done. Qed.

Lemma app_cons_str a (s t : string) : String a s +:+ t = String a (s +:+ t).
Proof. done. Qed.

Lemma rfind_app c s t :
  rfind c (s +:+ t)
  = if bool_decide (0 ≤ rfind c t) then Z.of_nat (String.length s) + rfind c t
    else rfind c s.
Proof.
  induction s as [|a s IH].
  - rewrite app_nil_str. simpl.
    case_bool_decide; [lia|]. pose proof (rfind_bounds c t). lia.
  - rewrite app_cons_str. simpl. rewrite IH. pose proof (rfind_bounds c s).
    repeat case_bool_decide; lia.
Qed.

Lemma str_drop_app s t : str_drop (String.length s) (s +:+ t) = t.
Proof.
  induction s as [|a s IH]; [by destruct t|]. by rewrite app_cons_str.
Qed.


Lemma app_assoc_str (a b c : string) : (a +:+ b) +:+ c = a +:+ (b +:+ c).
Proof.
  induction a as [|x a IH]; [done|]. rewrite !app_cons_str. by rewrite IH.
Qed.

Lemma length_app_str (a b : string) :
  String.length (a +:+ b) = (String.length a + String.length b)%nat.
Proof.
  induction a as [|x a IH]; [done|]. rewrite app_cons_str. simpl.
  by rewrite IH.
Qed.

Lemma app_inv_tail_str (a b c : string) : a +:+ c = b +:+ c → a = b.
Proof.
  revert b. induction a as [|x a IH]; intros [|y b];
    rewrite ?app_cons_str, ?app_nil_str; try done.
  - intros H. apply (f_equal String.length) in H. simpl in H.
    rewrite length_app_str in H. lia.
  - intros H. apply (f_equal String.length) in H. simpl in H.
    rewrite length_app_str in H. lia.
  - intros [= -> ?]. f_equal. by apply IH.
Qed.

Lemma basename_no_slash f : no_slash f → basename f = f.
Proof. unfold basename, no_slash. intros ->. by destruct f. Qed.

Lemma basename_app_slash x f :
  no_slash f → basename (x +:+ "/" +:+ f) = f.
Proof.
  unfold basename, no_slash. intros Hf.
  replace (x +:+ "/" +:+ f) with ((x +:+ "/") +:+ f) by apply app_assoc_str.
  rewrite rfind_app, Hf. rewrite bool_decide_eq_false_2 by lia.
  rewrite rfind_app. simpl rfind.
  rewrite (bool_decide_eq_true_2 (0 ≤ 0)) by done.
  replace (Z.to_nat (Z.of_nat (String.length x) + 0 + 1))
    with (String.length (x +:+ "/")) by (rewrite length_app_str; simpl; lia).
  apply str_drop_app.
Qed.



(** ** Rectangles *)

Lemma _write_header_h1_ok {A} name hd v bs (k : ST Enc.t A) s :
  _header1_dict !! name = Some hd → 0 ≤ HeaderTuple.offset hd →
  struct_pack (HeaderTuple.type hd) v = Ok bs →
  (_write_header name v;; k) s
  = k (set_f_obj (write_at (Z.to_nat (HeaderTuple.offset hd)) bs) s).
Proof.
  intros H ? Hp. rewrite ST_bind_unfold, (_write_header_h1 _ _ _ _ H).
  rewrite _write_var_run by done. by rewrite Hp.
Qed.

Lemma pack_int_ok n v :
  - (256 ^ Z.of_nat n / 2) ≤ v < 256 ^ Z.of_nat n / 2 →
  pack_int n v = Ok (be_bytes n (v mod 256 ^ Z.of_nat n)).
Proof. intros. unfold pack_int. by rewrite bool_decide_eq_true_2. Qed.

Lemma _write_name_ok s :
  0 ≤ Enc.header2_offset s →
  64 + Enc.header2_offset s < 2 ^ 31 →
  Z.of_nat (String.length (ROIObject.name (roi_base (Enc.roi_obj s)))) < 2 ^ 31 →
  _write_name s
  = (Ok tt,
     set_f_obj (name_image (Z.to_nat (Enc.header2_offset s))
                  (ROIObject.name (roi_base (Enc.roi_obj s)))) s).
Proof.
  intros Hh2 Hoff Hlen.
  destruct (_write_name s) as [[[]|e] s'] eqn:Hrun.
  - by apply _write_name_inv in Hrun as (_ & _ & ->).
  - exfalso. revert Hrun. unfold _write_name. rewrite get_bind.
    rewrite ST_bind_unfold.
    rewrite (_write_header_h2 _ _ _ _ h1_NAME_OFFSET h2_NAME_OFFSET).
    cbn [HeaderTuple.offset HeaderTuple.type].
    rewrite _write_var_run by lia. cbn [struct_pack].
    rewrite pack_int_ok
      by (change (256 ^ Z.of_nat 4 / 2) with (2 ^ 31);
          unfold _header2_size; lia).
    rewrite ST_bind_unfold.
    rewrite (_write_header_h2 _ _ _ _ h1_NAME_LENGTH h2_NAME_LENGTH).
    cbn [HeaderTuple.offset HeaderTuple.type].
    rewrite _write_var_run by (cbn [set_f_obj Enc.header2_offset]; lia).
    cbn [struct_pack].
    rewrite pack_int_ok by (change (256 ^ Z.of_nat 4 / 2) with (2 ^ 31); lia).
    rewrite _write_var_run by (unfold _header2_size; lia).
    cbn [struct_pack]. done.
Qed.

(** Encoding a rectangle whose fields fit succeeds. *)
Lemma write_rect_ok path t l b r p name arc w :
  - 2 ^ 15 ≤ t < 2 ^ 15 → - 2 ^ 15 ≤ l < 2 ^ 15 →
  - 2 ^ 15 ≤ b < 2 ^ 15 → - 2 ^ 15 ≤ r < 2 ^ 15 →
  - 2 ^ 31 ≤ p < 2 ^ 31 → Z.of_nat (String.length name) < 2 ^ 31 →
  ∃ w', write path
          (ROIRect_init (PyInt t) (PyInt l) (PyInt b) (PyInt r) arc name
             (PyInt p)) w = (Ok tt, w').
Proof.
  intros Ht Hl Hb Hr Hp Hname. unfold write, ROIRect_init.
  rewrite write_body_prefix. simpl roi_type.
  change ("_write_roi_" +:+ "rect") with "_write_roi_rect".
  rewrite getattr_write_rect. cbv zeta.
  unfold _write_roi_rect. rewrite get_bind.
  cbn [Enc.roi_obj roi_type roi_base ROIObject.top ROIObject.left
       ROIObject.bottom ROIObject.right ROIObject.position].
  rewrite ST_bind_unfold. unfold getitem at 1. rewrite roi_types_rev_rect.
  rewrite mret_run. cbv iota beta.
  erewrite (_write_header_h1_ok "TYPE"); [|apply h1_TYPE|done|reflexivity].
  erewrite (_write_header_h1_ok "TOP");
    [|apply h1_TOP|done|by apply (pack_int_ok 2)].
  erewrite (_write_header_h1_ok "LEFT");
    [|apply h1_LEFT|done|by apply (pack_int_ok 2)].
  erewrite (_write_header_h1_ok "BOTTOM");
    [|apply h1_BOTTOM|done|by apply (pack_int_ok 2)].
  erewrite (_write_header_h1_ok "RIGHT");
    [|apply h1_RIGHT|done|by apply (pack_int_ok 2)].
  erewrite (_write_header_h1_ok "POSITION");
    [|apply h1_POSITION|done|by apply (pack_int_ok 4)].
  erewrite (_write_header_h1_ok "HEADER2_OFFSET");
    [|apply h1_HEADER2_OFFSET|done|reflexivity].
  rewrite _write_name_ok; [eauto|done|done|done].
Qed.




(** ** Entry names in the archive *)

Lemma split_sep_no_slash f : no_slash f → split_sep f = [f].
Proof.
  unfold no_slash. induction f as [|a f IH]; [done|]. simpl.
  pose proof (rfind_bounds "/" f).
  case_bool_decide; [lia|]. case_bool_decide as Ha; [done|].
  intros _. rewrite IH by lia. done.
Qed.

Lemma split_sep_nonempty x : split_sep x ≠ [].
Proof.
  destruct x as [|a x]; [done|]. simpl.
  case_bool_decide; [done|]. by destruct (split_sep x).
Qed.

Lemma split_sep_app x f :
  split_sep (x +:+ "/" +:+ f) = split_sep x ++ split_sep f.
Proof.
  induction x as [|a x IH].
  - rewrite app_nil_str. done.
  - rewrite app_cons_str. simpl. rewrite IH.
    case_bool_decide; [done|]. pose proof (split_sep_nonempty x).
    by destruct (split_sep x).
Qed.

Lemma normpath_step_file init comps f :
  f ≠ EmptyString → f ≠ "." → f ≠ ".." → normpath_step init comps f = comps ++ [f].
Proof.
  intros. unfold normpath_step.
  rewrite bool_decide_eq_false_2 by (by intros [?|?]).
  by rewrite bool_decide_eq_true_2 by (by left).
Qed.

Lemma join_sep_snoc comps f :
  join_sep (comps ++ [f])
  = match comps with
    | [] => f
    | _ => join_sep comps +:+ "/" +:+ f
    end.
Proof.
  induction comps as [|c comps IH]; [done|].
  destruct comps as [|c' comps]; [done|].
  change (join_sep ((c :: c' :: comps) ++ [f]))
    with (c +:+ "/" +:+ join_sep ((c' :: comps) ++ [f])).
  rewrite IH.
  change (join_sep (c :: c' :: comps))
    with (c +:+ "/" +:+ join_sep (c' :: comps)).
  by rewrite !app_assoc_str.
Qed.

Lemma basename_ends_in_file s f :
  no_slash f → ends_in_file s f → basename s = f.
Proof.
  intros Hf [->|[z ->]].
  - by apply basename_no_slash.
  - by apply basename_app_slash.
Qed.

Lemma lstrip_no_slash f : no_slash f → lstrip "/" f = f.
Proof.
  unfold no_slash. destruct f as [|a f]; [done|]. simpl.
  pose proof (rfind_bounds "/" f).
  case_bool_decide; [lia|]. by case_bool_decide.
Qed.

Lemma lstrip_ends_in_file s f :
  no_slash f → ends_in_file s f → ends_in_file (lstrip "/" s) f.
Proof.
  intros Hf [->|[z ->]].
  - left. by apply lstrip_no_slash.
  - induction z as [|a z IH].
    + rewrite app_nil_str. simpl. left. by apply lstrip_no_slash.
    + rewrite app_cons_str. simpl. case_bool_decide; [done|].
      right. exists (String a z). by rewrite app_cons_str.
Qed.

Lemma normpath_ends_in_file x f :
  no_slash f → f ≠ EmptyString → f ≠ "." → f ≠ ".." →
  ends_in_file (normpath (x +:+ "/" +:+ f)) f.
Proof.
  intros Hf Hne Hd Hdd. unfold normpath.
  rewrite bool_decide_eq_false_2.
  2:{ intros H. apply (f_equal String.length) in H.
      rewrite !length_app_str in H. simpl in H. lia. }
  rewrite split_sep_app, (split_sep_no_slash f) by done.
  set (init := if String.prefix "/" _ then _ else _).
  rewrite foldl_app. cbn [foldl].
  rewrite normpath_step_file by done.
  set (comps := foldl _ _ _). rewrite join_sep_snoc.
  assert (Hinit : (init = 0 ∨ init = 1 ∨ init = 2)%nat).
  { unfold init. destruct (String.prefix "/" _); [|by left].
    destruct (_ && _); auto. }
  clearbody comps. clearbody init.
  assert (Hform : ends_in_file
            (String.concat EmptyString (replicate init "/")
               +:+ match comps with
                   | [] => f
                   | _ :: _ => join_sep comps +:+ "/" +:+ f
                   end) f).
  { destruct comps as [|c comps'].
    - destruct Hinit as [-> | [-> | ->]].
      + left. done.
      + right. by exists EmptyString.
      + right. by exists "/".
    - right. eexists. by rewrite <-app_assoc_str. }
  case_bool_decide as Hempty; [|done].
  rewrite Hempty in Hform. destruct Hform as [<-|[z Hz]]; [done|].
  apply (f_equal String.length) in Hz. rewrite !length_app_str in Hz.
  simpl in Hz. lia.
Qed.

Lemma roi_file_name_ok name :
  no_slash name →
  let f := name +:+ ".roi" in
  no_slash f ∧ f ≠ EmptyString ∧ f ≠ "." ∧ f ≠ "..".
Proof.
  intros Hname f. unfold f, no_slash in *. split_and!.
  - by rewrite rfind_app, Hname.
  - intros H. apply (f_equal String.length) in H.
    rewrite length_app_str in H. simpl in H. lia.
  - intros H. apply (f_equal String.length) in H.
    rewrite length_app_str in H. simpl in H. lia.
  - intros H. apply (f_equal String.length) in H.
    rewrite length_app_str in H. simpl in H. lia.
Qed.

(** The entry of an ROI whose name has no slash ends in [<name>.roi]. *)
Lemma basename_arcname arc_path r :
  no_slash (ROIObject.name (roi_base r)) →
  basename (entry_name arc_path r)
  = ROIObject.name (roi_base r) +:+ ".roi".
Proof.
  intros Hname. destruct (roi_file_name_ok _ Hname) as (Hf & ? & ? & ?).
  apply basename_ends_in_file; [done|].
  unfold entry_name, arcname. apply lstrip_ends_in_file; [done|].
  unfold file_path.
  replace (temp_dir_name arc_path +:+ "//"
             +:+ ROIObject.name (roi_base r) +:+ ".roi")
    with ((temp_dir_name arc_path +:+ "/") +:+ "/"
            +:+ (ROIObject.name (roi_base r) +:+ ".roi")).
  - by apply normpath_ends_in_file.
  - by rewrite !app_assoc_str.
Qed.

Lemma stem_arcname arc_path r :
  no_slash (ROIObject.name (roi_base r)) →
  stem (entry_name arc_path r)
  = roi_file_stem (ROIObject.name (roi_base r)).
Proof. intros H. unfold stem. by rewrite basename_arcname. Qed.

Lemma arcname_inj arc_path r1 r2 :
  no_slash (ROIObject.name (roi_base r1)) →
  no_slash (ROIObject.name (roi_base r2)) →
  entry_name arc_path r1 = entry_name arc_path r2 →
  ROIObject.name (roi_base r1) = ROIObject.name (roi_base r2).
Proof.
  intros H1 H2 Harc. apply (f_equal basename) in Harc.
  rewrite !basename_arcname in Harc by done. by apply app_inv_tail_str in Harc.
Qed.

(** ** The archive *)

Lemma app_inv_head_str (a b c : string) : a +:+ b = a +:+ c → b = c.
Proof.
  induction a as [|x a IH]; [done|]. rewrite !app_cons_str.
  intros [= ?]. by apply IH.
Qed.

(** An object of another class is encoded only when its [type] is
    ['rect']. *)
Lemma write_body_other type base s' :
  write_body (Enc.make (ROIOther type base) _header1_size []) = (Ok tt, s') →
  type = "rect".
Proof.
  rewrite write_body_prefix. simpl roi_type. cbv zeta.
  destruct (getattr _ _) as [m|] eqn:Hg; [|done].
  unfold getattr in Hg.
  destruct (list_find _ _) as [[i [n m']]|] eqn:Hf; [|done].
  injection Hg as <-. apply list_find_Some in Hf as (Hl & Hn & _).
  simpl in Hn. apply list_elem_of_lookup_2 in Hl. unfold encoder_methods in Hl.
  repeat (apply elem_of_cons in Hl as [[= -> ->]|Hl];
          [first [ by apply (app_inv_head_str "_write_roi_") in Hn
                 | done ] |]).
  - by apply elem_of_nil in Hl.
Qed.

Lemma write_Ok_type path r w w' :
  write path r w = (Ok tt, w') →
  match r with ROIShape _ _ _ => True | _ => roi_type r = "rect" end.
Proof.
  destruct r as [base arc|base xs ys|type base]; try done.
  intros (self & Hbody & _)%write_inv. by apply write_body_other in Hbody.
Qed.

(** Whatever [write] accepts, [read] gives back as [decoded] says. *)
Lemma encoded_decodes path r w w' name' :
  write path r w = (Ok tt, w') → header2_fits r →
  ∃ data, World.files w' !! path = Some data
          ∧ (read_body (Dec.make data name' ∅)).1 = Ok (decoded name' r).
Proof.
  intros Hw Hfit. pose proof (write_Ok_type _ _ _ _ Hw) as Hty.
  destruct r as [base arc|base xs ys|type base].
  - apply rect_encoded in Hw
      as (bt & bl & bb & br & bp & ? & ? & ? & ? & ? & Hfile); [|done].
    eexists. split; [exact Hfile|]. by apply decode_rect_image.
  - apply shape_encoded in Hw
      as (bt & bl & bb & br & bp & _ & ? & ? & ? & ? & ? & ? & Hfile).
    eexists. split; [exact Hfile|]. apply decode_shape_image; try done.
    rewrite length_shape_form. destruct Hfit; [by left|right; lia].
  - apply rect_encoded in Hw
      as (bt & bl & bb & br & bp & ? & ? & ? & ? & ? & Hfile); [|done].
    eexists. split; [exact Hfile|]. by apply decode_rect_image.
Qed.


Lemma write_zips path r w res w' :
  write path r w = (res, w') →
  World.zips w' = World.zips w
  ∧ (res = Ok tt → is_Some (World.files w' !! path)).
Proof.
  intros (self & _ & ->)%write_inv. split; [done|]. intros _. simpl.
  rewrite lookup_insert_eq. eauto.
Qed.

(** The loop of [write_zip]: one entry per ROI, in order, appended to
    what the archive holds. *)
Lemma write_zip_loop arc_path rois w w' entries0 :
  World.zips w !! arc_path = Some entries0 →
  for_each rois (λ roi,
    write (file_path arc_path roi) roi;;
    zf_write arc_path (file_path arc_path roi)) w = (Ok tt, w') →
  ∃ images,
    World.zips w' !! arc_path
      = Some (entries0 ++ zip (entry_name arc_path <$> rois) images)
    ∧ Forall2 (λ r img, ∃ w1 w2,
                 write (file_path arc_path r) r w1 = (Ok tt, w2)
                 ∧ World.files w2 !! file_path arc_path r = Some img)
        rois images.
Proof.
  revert w entries0. induction rois as [|r rois IH]; intros w entries0 Hz.
  - simpl. intros [= <-]. exists []. rewrite app_nil_r. by split.
  - cbn [for_each]. rewrite !ST_bind_unfold.
    destruct (write _ r w) as [[[]|e] w1] eqn:Hw; [|done].
    destruct (write_zips _ _ _ _ _ Hw) as [Hz1 [img Himg]]; [done|].
    unfold zf_write at 1. rewrite get_bind, Himg. unfold modify at 1.
    rewrite Hz1, Hz. cbn [default].
    intros Hrest. eapply IH in Hrest as (images & Hz' & Himgs);
      [|simpl; apply lookup_insert_eq].
    exists (img :: images). split.
    + rewrite Hz', <-app_assoc. done.
    + constructor; [|done]. eauto.
Qed.


Lemma write_zip_inv arc_path rois w w' :
  write_zip arc_path rois w = (Ok tt, w') →
  ∃ images,
    World.zips w' !! arc_path
      = Some (zip (entry_name arc_path <$> rois) images)
    ∧ Forall2 (λ r img, ∃ w1 w2,
                 write (file_path arc_path r) r w1 = (Ok tt, w2)
                 ∧ World.files w2 !! file_path arc_path r = Some img)
        rois images.
Proof.
  unfold write_zip. rewrite ST_bind_unfold. unfold modify at 1.
  rewrite ST_bind_unfold.
  destruct (for_each rois _ _) as [[[]|e] w1] eqn:Hloop; [|done].
  apply (write_zip_loop _ _ _ _ []) in Hloop as (images & Hz & Himgs).
  2:{ simpl. apply lookup_insert_eq. }
  unfold modify. intros [= <-]. exists images. by split.
Qed.

Lemma lookup_fst_unique {A B} (l : list (A * B)) k a b :
  NoDup l.*1 → (k, a) ∈ l → (k, b) ∈ l → a = b.
Proof.
  induction l as [|[k' c] l IH]; intros Hnd Ha Hb.
  - by apply elem_of_nil in Ha.
  - rewrite fmap_cons in Hnd. apply NoDup_cons in Hnd as [Hk Hnd].
    apply elem_of_cons in Ha as [Ha|Ha]; apply elem_of_cons in Hb as [Hb|Hb].
    + congruence.
    + injection Ha as -> ->. destruct Hk. apply list_elem_of_fmap.
      by exists (k', b).
    + injection Hb as -> ->. destruct Hk. apply list_elem_of_fmap.
      by exists (k', a).
    + by apply IH.
Qed.

Lemma zf_open_unique entries n content :
  NoDup entries.*1 → (n, content) ∈ entries →
  zf_open entries n = Ok (ZipExtFile n content).
Proof.
  intros Hnd Hin. unfold zf_open.
  destruct (list_find _ _) as [[i [n' c']]|] eqn:Hf.
  - apply list_find_Some in Hf as (Hl & Hn & _). simpl in Hn. subst n'.
    apply list_elem_of_lookup_2 in Hl. rewrite elem_of_reverse in Hl.
    by rewrite (lookup_fst_unique _ _ _ _ Hnd Hl Hin).
  - apply list_find_None in Hf.
    rewrite <-elem_of_reverse in Hin.
    eapply Forall_forall in Hf; [|exact Hin]. done.
Qed.

Lemma read_entries_spec entries es rois' w :
  NoDup entries.*1 → es ⊆ entries →
  Forall2 (λ e r', (read_body (Dec.make e.2 (stem e.1) ∅)).1 = Ok r')
    es rois' →
  read_entries entries es.*1 w = Ok rois'.
Proof.
  intros Hnd Hsub Hall. induction Hall as [|[n c] r' es rois' Hr Hall IH].
  - done.
  - rewrite fmap_cons. cbn [read_entries fst].
    rewrite (zf_open_unique _ _ c) by (done || apply Hsub; by left).
    simpl. rewrite read_ZipExtFile. simpl in Hr. rewrite Hr. simpl.
    rewrite IH; [done|]. intros e He. apply Hsub. by right.
Qed.

Lemma NoDup_entry_names arc_path rois :
  NoDup ((λ r, ROIObject.name (roi_base r)) <$> rois) →
  Forall (λ r, no_slash (ROIObject.name (roi_base r))) rois →
  NoDup (entry_name arc_path <$> rois).
Proof.
  induction rois as [|r rois IH]; intros Hnd Hall; [constructor|].
  rewrite fmap_cons in *. apply NoDup_cons in Hnd as [Hr Hnd].
  apply Forall_cons in Hall as [Hs Hall].
  apply NoDup_cons. split; [|by apply IH].
  intros (r' & Heq & Hin)%list_elem_of_fmap. apply Hr.
  apply list_elem_of_fmap. exists r'. split; [|done].
  eapply arcname_inj; [done| |done].
  by eapply Forall_forall in Hall.
Qed.

Lemma entries_decode arc_path rois images :
  Forall header2_fits rois →
  Forall2 (λ r img, ∃ w1 w2,
             write (file_path arc_path r) r w1 = (Ok tt, w2)
             ∧ World.files w2 !! file_path arc_path r = Some img)
    rois images →
  Forall2 (λ e r', (read_body (Dec.make e.2 (stem e.1) ∅)).1 = Ok r')
    (zip (entry_name arc_path <$> rois) images)
    ((λ r, decoded (stem (entry_name arc_path r)) r) <$> rois).
Proof.
  intros Hfit Hall. induction Hall as [|r img rois images Hr Hall IH].
  - constructor.
  - apply Forall_cons in Hfit as [Hf Hfit]. rewrite !fmap_cons.
    constructor; [|by apply IH]. simpl.
    destruct Hr as (w1 & w2 & Hw & Himg).
    destruct (encoded_decodes _ _ _ _ (stem (entry_name arc_path r)) Hw Hf)
      as (data & Hdata & Hread).
    rewrite Himg in Hdata. by injection Hdata as ->.
Qed.

(** C8, amended. For every sequence of k ROIs whose names are pairwise
    distinct, not empty and free of '/', when writing them to an archive
    succeeds, reading the archive back yields exactly k ROIs in the order
    written; each is of the same kind with the same bounds and position,
    its coordinates are the original ones to single precision (a
    rectangle's corner arc is 0), and its name is the stem of its entry's
    file name, the stem of '<name>.roi'. *)
Theorem archive_roundtrip arc_path rois w w' :
  NoDup ((λ r, ROIObject.name (roi_base r)) <$> rois) →
  Forall (λ r, no_slash (ROIObject.name (roi_base r))
               ∧ ROIObject.name (roi_base r) ≠ EmptyString) rois →
  write_zip arc_path rois w = (Ok tt, w') →
  read_zip arc_path w'
    = Ok ((λ r, decoded (roi_file_stem (ROIObject.name (roi_base r))) r)
            <$> rois)
  ∧ ∃ entries,
      World.zips w' !! arc_path = Some entries
      ∧ entries.*1 = entry_name arc_path <$> rois
      ∧ Forall (λ r, stem (entry_name arc_path r)
                     = roi_file_stem (ROIObject.name (roi_base r))) rois.
Proof.
  intros Hnd Hnames (images & Hz & Himgs)%write_zip_inv.
  assert (Hslash : Forall (λ r, no_slash (ROIObject.name (roi_base r))) rois).
  { eapply Forall_impl; [exact Hnames|]. by intros r [? _]. }
  assert (Hfit : Forall header2_fits rois).
  { eapply Forall_impl; [exact Hnames|]. intros [| |] [_ ?]; simpl; auto. }
  assert (Hstems : Forall (λ r, stem (entry_name arc_path r)
                     = roi_file_stem (ROIObject.name (roi_base r))) rois).
  { eapply Forall_impl; [exact Hslash|]. intros r ?. by apply stem_arcname. }
  assert (Hfst : (zip (entry_name arc_path <$> rois) images).*1
                 = entry_name arc_path <$> rois).
  { apply fst_zip. rewrite length_fmap.
    by rewrite (Forall2_length _ _ _ Himgs). }
  split.
  - unfold read_zip. rewrite Hz.
    assert (Heq : (λ r, decoded (stem (entry_name arc_path r)) r) <$> rois
                  = (λ r, decoded (roi_file_stem
                                     (ROIObject.name (roi_base r))) r)
                      <$> rois).
    { apply Forall_fmap_ext_1.
      eapply Forall_impl; [exact Hstems|]. intros r Hr. simpl. by rewrite Hr. }
    rewrite <-Heq. apply read_entries_spec.
    + rewrite Hfst. by apply NoDup_entry_names.
    + done.
    + by apply entries_decode.
  - eexists. split_and!; [exact Hz|done|done].
Qed.

Lemma archive_roundtrip_witness :
  read_zip "/tmp/RoiSet.zip"
    (write_zip "/tmp/RoiSet.zip" [sample_rounded_rect; sample_shape]
       empty_world).2
  = Ok [decoded "roi-0001-0000" sample_rounded_rect;
        decoded "roi-0000-0000" sample_shape].
Proof.
  refine (eq_trans
    (proj1 (archive_roundtrip "/tmp/RoiSet.zip"
              [sample_rounded_rect; sample_shape] empty_world _ _ _ _)) _).
  - apply (bool_decide_unpack _). vm_compute. exact I.
  - repeat constructor; vm_compute; discriminate.
  - vm_compute. reflexivity.
  - vm_compute. reflexivity.
Defined.

(** C8 as stated fails: "x" and "./x" are distinct names, both files are
    written and zipped, but both entries are called [tmp/RoiSet_Ro/x.roi]
    and reading the archive yields the second rectangle twice. *)
Lemma distinct_names_same_entry :
  ROIObject.name (roi_base rect_x) ≠ ROIObject.name (roi_base rect_dot_x)
  ∧ let '(r, w') :=
      write_zip "/tmp/RoiSet.zip" [rect_x; rect_dot_x] empty_world in
    r = Ok tt
    ∧ read_zip "/tmp/RoiSet.zip" w'
      = Ok [decoded "x" rect_dot_x; decoded "x" rect_dot_x]
    ∧ decoded "x" rect_dot_x ≠ decoded "x" rect_x.
Proof. split; [done|]. vm_compute. split_and!; done. Qed.




(** * Further properties of the codec *)

(** ** The coordinate array *)

Lemma every_third_shift {A} r k (l : list A) :
  every_third r (k + 3) l = every_third r k l.
Proof.
  revert k. induction l as [|a l IH]; intros k; [done|].
  rewrite !every_third_cons. change (S (k + 3)) with (S k + 3)%nat.
  rewrite IH. replace (k + 3)%nat with (k + 1 * 3)%nat by lia.
  by rewrite Nat.Div0.mod_add.
Qed.

Lemma get_coords_every_third {A} (l : list A) :
  get_coords_from_shapeArray l = (every_third 2 0 l, every_third 1 0 l).
Proof. done. Qed.

Lemma get_coords_step {A} (a b c : A) l :
  get_coords_from_shapeArray (a :: b :: c :: l)
  = (c :: (get_coords_from_shapeArray l).1,
     b :: (get_coords_from_shapeArray l).2).
Proof.
  rewrite !get_coords_every_third, !every_third_cons.
  change 3%nat with (0 + 3)%nat. rewrite !every_third_shift. done.
Qed.

(** X1. [get_coords_from_shapeArray] on any array, well formed or
    not: the x coordinates are the values at the indices 2, 5, 8, ...,
    the y coordinates the values at the indices 1, 4, 7, ...; the values
    at the indices 0, 3, 6, ... (the sentinels and segment markers) are
    not looked at.  An array of n values gives n / 3 x coordinates and
    (n + 1) / 3 y coordinates. *)
Theorem coords_of_any_array {A} (shapeArray : list A) :
  let '(x_coords, y_coords) := get_coords_from_shapeArray shapeArray in
  (∀ j, x_coords !! j = shapeArray !! (3 * j + 2)%nat)
  ∧ (∀ j, y_coords !! j = shapeArray !! (3 * j + 1)%nat)
  ∧ length x_coords = (length shapeArray / 3)%nat
  ∧ length y_coords = ((length shapeArray + 1) / 3)%nat.
Proof.
  induction shapeArray as [l IH] using (induction_ltof1 _ length).
  unfold ltof in IH.
  destruct l as [|a [|b [|c l]]].
  - split_and!; try done; intros j; by rewrite !lookup_nil.
  - replace (get_coords_from_shapeArray [a]) with (@nil A, @nil A) by done.
    split_and!; try done; intros j; rewrite lookup_nil;
      symmetry; apply lookup_ge_None_2; simpl; lia.
  - replace (get_coords_from_shapeArray [a; b]) with (@nil A, [b]) by done.
    split_and!; try done.
    + intros j. rewrite lookup_nil. symmetry. apply lookup_ge_None_2.
      simpl. lia.
    + intros [|j]; [done|]. rewrite lookup_cons, lookup_nil.
      symmetry. apply lookup_ge_None_2. simpl. lia.
  - specialize (IH l). rewrite get_coords_step.
    destruct (get_coords_from_shapeArray l) as [xs ys].
    destruct IH as (Hx & Hy & Hlx & Hly); [simpl; lia|]. cbn [fst snd].
    split_and!.
    + intros [|j]; [done|].
      replace (3 * S j + 2)%nat with (S (S (S (3 * j + 2)))) by lia.
      apply Hx.
    + intros [|j]; [done|].
      replace (3 * S j + 1)%nat with (S (S (S (3 * j + 1)))) by lia.
      apply Hy.
    + cbn [length]. rewrite Hlx.
      replace (S (S (S (length l)))) with (length l + 1 * 3)%nat by lia.
      rewrite Nat.div_add by done. lia.
    + cbn [length]. rewrite Hly.
      replace (S (S (S (length l))) + 1)%nat
        with ((length l + 1) + 1 * 3)%nat by lia.
      rewrite Nat.div_add by done. lia.
Qed.

(** ** The constructor of [ROIShape] *)

(** X2. [ROIShape.__init__] fails only for want of coordinates: it
    raises ValueError exactly when a bound that was not given would have
    to come from an empty array ([top], [left] and [bottom] from
    [x_coords], [right] from [y_coords]), and otherwise builds the shape
    with the coordinates, name and position it was given; a bound that is
    given is kept as it is. *)
Theorem shape_init_needs_coordinates x_coords y_coords name position
    top left bottom right :
  let needs_x := top = None ∨ left = None ∨ bottom = None in
  let needs_y := right = None in
  match ROIShape_init x_coords y_coords name position top left bottom right
  with
  | Ok r =>
      (needs_x → x_coords ≠ []) ∧ (needs_y → y_coords ≠ [])
      ∧ (∃ base, r = ROIShape base x_coords y_coords
                 ∧ ROIObject.name base = name
                 ∧ ROIObject.position base = position
                 ∧ (∀ v, top = Some v → ROIObject.top base = v)
                 ∧ (∀ v, left = Some v → ROIObject.left base = v)
                 ∧ (∀ v, bottom = Some v → ROIObject.bottom base = v)
                 ∧ (∀ v, right = Some v → ROIObject.right base = v))
  | Raise e =>
      e = ValueError
      ∧ ((needs_x ∧ x_coords = []) ∨ (needs_y ∧ y_coords = []))
  end.
Proof.
  intros needs_x needs_y. subst needs_x needs_y. unfold ROIShape_init.
  destruct x_coords as [|x xs], y_coords as [|y ys],
    top as [t|], left as [l|], bottom as [b|], right as [r|]; simpl.
  all: try (split; [reflexivity|]; intuition congruence).
  all: split_and!; [intuition congruence|intuition congruence|].
  all: eexists; split_and!; [reflexivity|done|done|..].
  all: intros ? ?; by simplify_eq.
Qed.

(** ** Field sizes *)

Lemma first_digit_le n : (first_digit n ≤ 9)%nat.
Proof. unfold first_digit. destruct (Nat.to_uint n); lia. Qed.

(** X3. [_type_size] against [struct.calcsize]: the two agree on the
    plain formats, and on a counted format exactly when the count has a
    single digit; only the first digit of a longer count is used. *)
Theorem type_size_uses_first_digit t :
  _type_size t = calcsize t
  ↔ match t with Fmt_s count => (count < 10)%nat | _ => True end.
Proof.
  destruct t as [| | | |n]; try done. cbn [_type_size calcsize].
  split.
  - pose proof (first_digit_le n). lia.
  - intros Hn. do 10 (destruct n as [|n]; [done|]). lia.
Qed.

(** ** Decoding arbitrary buffers *)

Lemma field_at_short data :
  (length data < 4)%nat → field_at data 0 (Fmt_s 4) = Raise struct_error.
Proof.
  intros Hlen. unfold field_at, struct_unpack.
  rewrite bool_decide_eq_false_2; [done|].
  unfold py_slice, slice_index. simpl.
  rewrite length_take, length_drop. lia.
Qed.

(** X4. A buffer shorter than the 64 bytes of header block 1 is never
    decoded: when it has fewer than 4 bytes, or starts with the magic
    number, [read] raises [struct.error]. *)
Theorem short_buffer_struct_error name data w :
  (length data < 64)%nat →
  (length data < 4)%nat ∨ take 4 data = magic →
  read (ZipExtFile name data) w = Raise struct_error.
Proof.
  intros Hlen Hcase. rewrite read_ZipExtFile.
  pose proof (read_header_spec data (stem name) ∅) as Hspec.
  destruct (read_header _) as [[[]|e] self] eqn:Hh.
  - apply read_header_state in Hh as (_ & _ & ? & _). lia.
  - rewrite (read_body_header_raise _ _ _ _ _ Hh). f_equal.
    destruct Hspec as [[_ (m & Hm & Hne)]|[-> _]]; [|done].
    destruct Hcase as [Hshort|Hmagic].
    + by rewrite field_at_short in Hm.
    + destruct (decide (4 ≤ length data)%nat) as [H4|H4].
      * rewrite field_at_magic in Hm by done. congruence.
      * rewrite field_at_short in Hm by lia. done.
Qed.

Lemma short_buffer_struct_error_witness :
  read (ZipExtFile "a.roi" (magic ++ replicate 59 x00)) empty_world
  = Raise struct_error.
Proof.
  apply (short_buffer_struct_error "a.roi" (magic ++ replicate 59 x00)).
  - vm_compute. lia.
  - right. reflexivity.
Defined.

(** X5. A rectangle is decoded from any buffer whose header can be
    read, whose SHAPE_ROI_SIZE is not positive and whose type tag is 1:
    the bounds are the int16 values at bytes 8 to 15, the position is the
    int32 at byte 56, the corner arc is the int16 at byte 54 (a field the
    encoder never writes), and the name is the stem of the file name. *)
Theorem rect_of_any_buffer name data w :
  take 4 data = magic → (64 ≤ length data)%nat →
  0 ≤ stored_header2_offset data →
  stored_header2_offset data + 48 ≤ Z.of_nat (length data) →
  stored_shape_roi_size data ≤ 0 → stored_type data = 1 →
  read (ZipExtFile name data) w
  = Ok (ROIRect_init (PyInt (unpack_int 2 (sub 8 2 data)))
          (PyInt (unpack_int 2 (sub 10 2 data)))
          (PyInt (unpack_int 2 (sub 12 2 data)))
          (PyInt (unpack_int 2 (sub 14 2 data)))
          (PyInt (unpack_int 2 (sub 54 2 data)))
          (stem name)
          (PyInt (unpack_int 4 (sub 56 4 data)))).
Proof.
  intros Hmagic Hlen Hh2 Hh2' Hsize Htype. rewrite read_ZipExtFile.
  destruct (read_header_ok data (stem name) ∅) as [self Hrun]; try done.
  by apply (read_body_rect _ _ _ _ Hrun).
Qed.

Lemma rect_of_any_buffer_witness :
  read (ZipExtFile "cell.roi" (foreign_buffer x01)) empty_world
  = Ok (ROIRect_init (PyInt 0) (PyInt 0) (PyInt 0) (PyInt 0) (PyInt 7) "cell"
          (PyInt 0)).
Proof.
  refine (eq_trans
    (rect_of_any_buffer "cell.roi" (foreign_buffer x01) empty_world
       _ _ _ _ _ _) _).
  - vm_compute. reflexivity.
  - vm_compute. lia.
  - vm_compute. discriminate.
  - vm_compute. discriminate.
  - vm_compute. discriminate.
  - vm_compute. reflexivity.
  - vm_compute. reflexivity.
Defined.

(** The dispatch of [read] on the type tag of a buffer that is not
    composite. *)
Lemma read_body_dispatch data name hdr0 self :
  read_header (Dec.make data name hdr0) = (Ok tt, self) →
  stored_shape_roi_size data ≤ 0 →
  read_body (Dec.make data name hdr0)
  = match _roi_types !! stored_type data with
    | None => (Raise KeyError, self)
    | Some kind =>
        match getattr decoder_methods ("_read_roi_" +:+ kind) with
        | Ok roi_reader => roi_reader self
        | Raise (AttributeError _) =>
            (Raise (NotImplementedError
                      ("Reading roi type " +:+ kind +:+ " not implemented")),
             self)
        | Raise e => (Raise e, self)
        end
    end.
Proof.
  intros Hrun Hsize. rewrite (read_body_run _ _ _ _ Hrun).
  rewrite bool_decide_eq_false_2 by lia.
  destruct (read_header_items _ _ _ _ Hrun) as (Ht & _).
  rewrite ST_bind_unfold. unfold roi_type_name.
  rewrite ST_bind_unfold, (header_item_run _ _ _ Ht).
  unfold getitem. destruct (_roi_types !! stored_type data) as [kind|]; [|done].
  rewrite mret_run.
  by destruct (getattr decoder_methods _) as [rd|[]].
Qed.

#[local] Transparent _roi_types.

Lemma roi_types_inv tag kind :
  _roi_types !! tag = Some kind →
  (tag, kind) ∈ [ (0, "polygon"); (1, "rect"); (2, "oval"); (3, "line");
                  (4, "freeline"); (5, "polyline"); (6, "no_roi");
                  (7, "freehand"); (8, "traces"); (9, "angle");
                  (10, "point") ].
Proof. apply elem_of_list_to_map_2. Qed.

Lemma roi_types_None tag : ¬ (0 ≤ tag ≤ 10) → _roi_types !! tag = None.
Proof.
  intros Htag. unfold _roi_types. apply not_elem_of_list_to_map_1.
  intros Hin. cbn in Hin.
  repeat (apply elem_of_cons in Hin as [->|Hin]); try (apply Htag; lia).
  by apply elem_of_nil in Hin.
Qed.

Lemma roi_types_8 : _roi_types !! 8 = Some "traces".
Proof. by vm_compute. Qed.

#[local] Opaque _roi_types.

(** X6. Reading a kind the module does not implement: for a buffer
    whose header can be read, whose SHAPE_ROI_SIZE is not positive and
    whose type tag stands for polygon, oval, line, freeline, polyline,
    no_roi, freehand, angle or point, [read] raises NotImplementedError
    with the message of that kind's reader. *)
Theorem unsupported_kind_read name data w self kind :
  read_header (Dec.make data (stem name) ∅) = (Ok tt, self) →
  stored_shape_roi_size data ≤ 0 →
  _roi_types !! stored_type data = Some kind →
  kind ∈ unsupported_kinds →
  read (ZipExtFile name data) w
  = Raise (NotImplementedError
             ("Reading roi type " +:+ kind_label kind
                +:+ " is not implemented")).
Proof.
  intros Hrun Hsize Hkind Hin. rewrite read_ZipExtFile.
  rewrite (read_body_dispatch _ _ _ _ Hrun Hsize), Hkind.
  unfold unsupported_kinds in Hin.
  repeat (apply elem_of_cons in Hin as [->|Hin]); try done.
  by apply elem_of_nil in Hin.
Qed.

Lemma unsupported_kind_read_witness :
  read (ZipExtFile "cell.roi" (foreign_buffer x02)) empty_world
  = Raise (NotImplementedError "Reading roi type oval is not implemented").
Proof.
  refine (eq_trans
    (unsupported_kind_read "cell.roi" (foreign_buffer x02) empty_world
       (read_header (Dec.make (foreign_buffer x02) "cell" ∅)).2 "oval"
       _ _ _ _) _).
  - vm_compute. reflexivity.
  - vm_compute. discriminate.
  - vm_compute. reflexivity.
  - apply (bool_decide_unpack _). vm_compute. exact I.
  - vm_compute. reflexivity.
Defined.

(** X7. The type table of the decoder spells tag 8 'traces' while the
    reader method is [_read_roi_traced]: for a buffer with a readable
    header, a SHAPE_ROI_SIZE that is not positive and type tag 8, the
    method lookup fails and [read] raises the NotImplementedError of the
    fallback, 'Reading roi type traces not implemented'. *)
Theorem traced_kind_read name data w self :
  read_header (Dec.make data (stem name) ∅) = (Ok tt, self) →
  stored_shape_roi_size data ≤ 0 →
  stored_type data = 8 →
  read (ZipExtFile name data) w
  = Raise (NotImplementedError "Reading roi type traces not implemented").
Proof.
  intros Hrun Hsize Htype. rewrite read_ZipExtFile.
  by rewrite (read_body_dispatch _ _ _ _ Hrun Hsize), Htype, roi_types_8.
Qed.

Lemma traced_kind_read_witness :
  read (ZipExtFile "cell.roi" (foreign_buffer x08)) empty_world
  = Raise (NotImplementedError "Reading roi type traces not implemented").
Proof.
  refine (traced_kind_read "cell.roi" (foreign_buffer x08) empty_world
       (read_header (Dec.make (foreign_buffer x08) "cell" ∅)).2 _ _ _).
  - vm_compute. reflexivity.
  - vm_compute. discriminate.
  - vm_compute. reflexivity.
Defined.

(** X8. A type tag outside 0..10 is not checked before it is used as a
    key: for a buffer with a readable header and a SHAPE_ROI_SIZE that is
    not positive, [read] raises KeyError. *)
Theorem unknown_tag_read name data w self :
  read_header (Dec.make data (stem name) ∅) = (Ok tt, self) →
  stored_shape_roi_size data ≤ 0 →
  ¬ (0 ≤ stored_type data ≤ 10) →
  read (ZipExtFile name data) w = Raise KeyError.
Proof.
  intros Hrun Hsize Htype. rewrite read_ZipExtFile.
  by rewrite (read_body_dispatch _ _ _ _ Hrun Hsize), roi_types_None.
Qed.

Lemma unknown_tag_read_witness :
  read (ZipExtFile "cell.roi" (foreign_buffer x0b)) empty_world
  = Raise KeyError.
Proof.
  refine (unknown_tag_read "cell.roi" (foreign_buffer x0b) empty_world
       (read_header (Dec.make (foreign_buffer x0b) "cell" ∅)).2 _ _ _).
  - vm_compute. reflexivity.
  - vm_compute. discriminate.
  - vm_compute. intros [_ H]. by apply H.
Defined.

(** ** What the decoder keeps of a buffer *)

Lemma _get_header_state k self : (_get_header k self).2 = self.
Proof.
  unfold _get_header. rewrite get_bind.
  destruct (_header1_dict !! k) as [hd|]; [by rewrite _get_var_run|].
  destruct (_header2_dict !! k) as [hd|]; [|done].
  rewrite ST_bind_unfold. unfold getitem.
  by destruct (Dec.header self !! "HEADER2_OFFSET") as [[h2| |]|].
Qed.

Lemma for_each_set_header_keys l self self' :
  for_each l _set_header self = (Ok tt, self') →
  ∀ k, is_Some (Dec.header self' !! k)
       ↔ is_Some (Dec.header self !! k) ∨ k ∈ l.
Proof.
  revert self. induction l as [|h l IH]; intros self.
  - simpl. intros [= <-] k. rewrite elem_of_nil. tauto.
  - cbn [for_each]. rewrite ST_bind_unfold. unfold _set_header at 1.
    rewrite ST_bind_unfold. pose proof (_get_header_state h self) as Hs.
    destruct (_get_header h self) as [[v|e] s1]; [|done].
    simpl in Hs. subst s1. unfold modify at 1.
    intros Hrest k. rewrite (IH _ Hrest k). simpl.
    rewrite lookup_insert_is_Some, elem_of_cons.
    destruct (decide (h = k)) as [->|]; intuition congruence.
Qed.

Lemma for_each_zero_header l self self' :
  for_each l (λ h, modify (set_header (insert h (PyInt 0)))) self
    = (Ok tt, self') →
  ∀ k, Dec.header self' !! k
       = if bool_decide (k ∈ l) then Some (PyInt 0) else Dec.header self !! k.
Proof.
  revert self. induction l as [|h l IH]; intros self.
  - cbn [for_each]. rewrite mret_run. intros [= <-] k.
    rewrite bool_decide_eq_false_2; [done|apply not_elem_of_nil].
  - cbn [for_each]. rewrite ST_bind_unfold. unfold modify at 1.
    intros Hrest k. rewrite (IH _ Hrest k). simpl.
    destruct (decide (k ∈ l)) as [Hin|Hin].
    + rewrite !bool_decide_eq_true_2; [done|by right|done].
    + rewrite (bool_decide_eq_false_2 _ Hin).
      destruct (decide (h = k)) as [->|Hne].
      * rewrite lookup_insert_eq, bool_decide_eq_true_2; [done|by left].
      * rewrite lookup_insert_ne, bool_decide_eq_false_2; [done| |done].
        intros [->|?]%elem_of_cons; done.
Qed.

(** X9. What [read_header] leaves in [self.header]: exactly the fields
    of [to_read_h1] and of header block 2, whatever the decoder held from
    an earlier read, and the three overlay fields OVERLAY_LABEL_COLOR,
    OVERLAY_FONT_SIZE and IMAGE_OPACITY are 0 whatever the buffer stores
    for them. *)
Theorem header_after_read data name hdr0 self :
  read_header (Dec.make data name hdr0) = (Ok tt, self) →
  (∀ k, is_Some (Dec.header self !! k) ↔ k ∈ to_read_h1 ++ to_read_h2)
  ∧ (∀ k, k ∈ set_zero → Dec.header self !! k = Some (PyInt 0)).
Proof.
  unfold read_header. rewrite ST_bind_unfold. unfold modify at 1.
  set (self0 := set_header (λ _, ∅) (Dec.make data name hdr0)).
  rewrite ST_bind_unfold. pose proof (_get_header_state "MAGIC" self0) as Hs.
  destruct (_get_header "MAGIC" self0) as [[m|e] s1]; [|done].
  simpl in Hs. subst s1. rewrite ST_bind_unfold.
  destruct (py_eq m (PyBytes magic)); [|done]. rewrite mret_run.
  rewrite ST_bind_unfold.
  destruct (for_each (to_read_h1 ++ to_read_h2) _set_header self0)
    as [[[]|e] self1] eqn:Hloop; [|done].
  intros Hzero. pose proof (for_each_set_header_keys _ _ _ Hloop) as Hkeys.
  pose proof (for_each_zero_header _ _ _ Hzero) as Hz. split.
  - intros k. rewrite Hz. case_bool_decide as Hk.
    + split; [|by eauto]. intros _. apply elem_of_app. right.
      revert Hk. unfold set_zero.
      intros Hk. repeat (apply elem_of_cons in Hk as [->|Hk]);
        try (apply (bool_decide_unpack _); by vm_compute).
      by apply elem_of_nil in Hk.
    + rewrite Hkeys. unfold self0. simpl. rewrite lookup_empty.
      split; [intros [[? [=]]|?]; done|by right].
  - intros k Hk. by rewrite Hz, bool_decide_eq_true_2.
Qed.

Lemma header_after_read_witness :
  let self := (read_header (Dec.make (foreign_buffer x01) "cell"
                              {["STALE" := PyInt 1]})).2 in
  Dec.header self !! "STALE" = None
  ∧ Dec.header self !! "IMAGE_OPACITY" = Some (PyInt 0).
Proof.
  intros self.
  destruct (header_after_read (foreign_buffer x01) "cell"
              {["STALE" := PyInt 1]} self) as [Hkeys Hzero].
  - vm_compute. reflexivity.
  - split.
    + apply eq_None_not_Some. rewrite Hkeys.
      apply (bool_decide_unpack _). vm_compute. exact I.
    + apply Hzero. apply (bool_decide_unpack _). vm_compute. exact I.
Defined.

(** ** Ranges of the stored integers *)

Lemma be_value_range bs : 0 ≤ be_value bs < 256 ^ Z.of_nat (length bs).
Proof.
  induction bs as [|b bs IH].
  - by vm_compute.
  - rewrite be_value_cons, length_cons, Nat2Z.inj_succ, Z.pow_succ_r by lia.
    pose proof (Z_of_byte_range b). nia.
Qed.

Lemma unpack_int_bounds n bs :
  length bs = n → (0 < n)%nat →
  - (256 ^ Z.of_nat n / 2) ≤ unpack_int n bs < 256 ^ Z.of_nat n / 2.
Proof.
  intros <- Hn. unfold unpack_int. pose proof (be_value_range bs) as Hr.
  set (m := 256 ^ Z.of_nat (length bs)) in *.
  assert (Hp : m = 2 * (m / 2)).
  { unfold m. destruct (length bs) as [|k]; [lia|].
    rewrite Nat2Z.inj_succ, Z.pow_succ_r by lia.
    replace (256 * 256 ^ Z.of_nat k) with ((128 * 256 ^ Z.of_nat k) * 2) by lia.
    rewrite Z.div_mul by lia. lia. }
  case_bool_decide; lia.
Qed.

Lemma unpack_int_range bs :
  length bs = 2%nat → - 2 ^ 15 ≤ unpack_int 2 bs < 2 ^ 15.
Proof. intros H. by apply (unpack_int_bounds 2) in H; [|lia]. Qed.

Lemma unpack_int_range_4 bs :
  length bs = 4%nat → - 2 ^ 31 ≤ unpack_int 4 bs < 2 ^ 31.
Proof. intros H. by apply (unpack_int_bounds 4) in H; [|lia]. Qed.

(** ** What [read] can return *)

(** A successful [read] went through the rectangle reader or the shape
    reader. *)
Lemma read_body_Ok_inv data name hdr0 r s' :
  read_body (Dec.make data name hdr0) = (Ok r, s') →
  (64 ≤ length data)%nat ∧ stored_type data = 1
  ∧ ∃ arc coords,
      let base :=
        ROIObject.make (PyInt (unpack_int 2 (sub 8 2 data)))
          (PyInt (unpack_int 2 (sub 10 2 data)))
          (PyInt (unpack_int 2 (sub 12 2 data)))
          (PyInt (unpack_int 2 (sub 14 2 data)))
          name
          (PyInt (unpack_int 4 (sub 56 4 data))) in
      r = (if bool_decide (0 < stored_shape_roi_size data)
           then ROIShape base coords.1 coords.2
           else ROIRect base (PyInt arc))
      ∧ - 2 ^ 15 ≤ arc < 2 ^ 15.
Proof.
  intros Hread.
  destruct (read_header (Dec.make data name hdr0)) as [[[]|e] self] eqn:Hrun.
  2:{ apply read_body_header_raise in Hrun. by rewrite Hread in Hrun. }
  destruct (read_header_state _ _ _ _ Hrun) as (Hd & Hn & Hlen & _).
  destruct (read_header_items _ _ _ _ Hrun)
    as (Ht & Hsize & Htop & Hleft & Hbottom & Hright & Hpos).
  split; [done|]. case_bool_decide as Hcomp.
  - rewrite (read_body_run _ _ _ _ Hrun), bool_decide_eq_true_2 in Hread by done.
    rewrite (_read_roi_shape_run _ _ _ _ _ _ _ _
               Ht Htop Hleft Hbottom Hright Hpos Hsize) in Hread.
    case_bool_decide as Htype; [|done]. split; [done|].
    destruct (read_floats 64 _ self) as [[arr|e] s1]; [|done].
    destruct (get_coords_from_shapeArray arr) as [xs ys] eqn:Hc.
    injection Hread as <- <-. exists 0, (xs, ys). rewrite Hn. split; [done|lia].
  - rewrite (read_body_dispatch _ _ _ _ Hrun) in Hread by lia.
    destruct (_roi_types !! stored_type data) as [kind|] eqn:Hk; [|done].
    apply roi_types_inv in Hk.
    repeat (apply elem_of_cons in Hk as [[= Htag ->]|Hk]); try done.
    2:{ by apply elem_of_nil in Hk. }
    split; [done|].
    change (getattr decoder_methods _) with (Ok _read_roi_rect) in Hread.
    cbv iota beta in Hread.
    pose proof (_read_roi_rect_run self) as Hrect.
    rewrite Hread, Hd, Hn in Hrect. simpl in Hrect.
    injection (Hrect Hlen) as ->.
    exists (unpack_int 2 (sub 54 2 data)), ([], []). split; [done|].
    apply unpack_int_range. apply length_sub. lia.
Qed.

Lemma read_name roi_path w r :
  read roi_path w = Ok r →
  ROIObject.name (roi_base r)
  = stem match roi_path with
         | ZipExtFile name _ => name
         | PathStr path => path
         end.
Proof.
  assert (Hbody : ∀ data name,
            (read_body (Dec.make data name ∅)).1 = Ok r →
            ROIObject.name (roi_base r) = name).
  { intros data name Hread.
    destruct (read_body _) as [res s'] eqn:Hb. simpl in Hread. subst res.
    apply read_body_Ok_inv in Hb as (_ & _ & arc & coords & -> & _).
    by case_bool_decide. }
  destruct roi_path as [name content|path].
  - rewrite read_ZipExtFile. apply Hbody.
  - unfold read. destruct (World.files w !! path) as [content|]; [|done].
    apply Hbody.
Qed.

(** X10. The name of a decoded ROI comes from the file name alone:
    whatever the buffer holds, an ROI that [read] returns is named after
    the stem of the path, or of the archive member's name; the name
    stored in the file is not read. *)
Theorem decoded_name_is_file_stem roi_path w r :
  read roi_path w = Ok r →
  ROIObject.name (roi_base r)
  = stem match roi_path with
         | ZipExtFile name _ => name
         | PathStr path => path
         end.
Proof. apply read_name. Qed.

Lemma decoded_name_is_file_stem_witness :
  ROIObject.name
    (roi_base (ROIRect_init (PyInt 0) (PyInt 0) (PyInt 0) (PyInt 0) (PyInt 7)
                 "cell" (PyInt 0)))
  = stem "dir/cell.roi".
Proof.
  apply (decoded_name_is_file_stem
           (ZipExtFile "dir/cell.roi" (foreign_buffer x01)) empty_world).
  vm_compute. reflexivity.
Defined.



Lemma read_entries_names entries names w rois :
  read_entries entries names w = Ok rois →
  Forall2 (λ n r, ROIObject.name (roi_base r) = stem n) names rois.
Proof.
  revert rois. induction names as [|n names IH]; intros rois.
  - simpl. intros [= <-]. constructor.
  - cbn [read_entries]. unfold zf_open.
    destruct (list_find _ _) as [[i e]|]; [|done]. simpl.
    destruct (read (ZipExtFile n e.2) w) as [r|] eqn:Hr; [|done]. simpl.
    destruct (read_entries entries names w) as [rs|]; [|done]. simpl.
    intros [= <-]. constructor; [|by apply IH].
    by apply read_name in Hr.
Qed.

(** X12. When [read_zip] succeeds it returns one ROI per archive
    entry, in the order of the entries, each named after the stem of its
    entry's name, whatever name is stored inside the entry. *)
Theorem read_zip_names zip_path w entries rois :
  World.zips w !! zip_path = Some entries →
  read_zip zip_path w = Ok rois →
  length rois = length entries
  ∧ Forall2 (λ e r, ROIObject.name (roi_base r) = stem e.1) entries rois.
Proof.
  intros Hz. unfold read_zip. rewrite Hz.
  intros Hnames%read_entries_names.
  apply Forall2_fmap_l in Hnames. split; [|done].
  symmetry. by eapply Forall2_length.
Qed.

Lemma read_zip_names_witness :
  let entries := [("a/one.roi", foreign_buffer x01);
                  ("two.roi", foreign_buffer x01)] in
  let rect name :=
    ROIRect_init (PyInt 0) (PyInt 0) (PyInt 0) (PyInt 0) (PyInt 7) name
      (PyInt 0) in
  length [rect "one"; rect "two"] = length entries
  ∧ Forall2 (λ e r, ROIObject.name (roi_base r) = stem e.1) entries
      [rect "one"; rect "two"].
Proof.
  intros entries rect.
  apply (read_zip_names "set.zip" (set_zip "set.zip" entries empty_world)).
  - vm_compute. reflexivity.
  - vm_compute. reflexivity.
Defined.

(** ** When the encoder accepts a rectangle *)

Lemma pack_h_range v bs :
  struct_pack Fmt_h v = Ok bs → ∃ z, v = PyInt z ∧ - 2 ^ 15 ≤ z < 2 ^ 15.
Proof.
  intros [Hlen ->]%pack_h_inv. eexists. split; [done|].
  by apply unpack_int_range.
Qed.

Lemma pack_i_range v bs :
  struct_pack Fmt_i v = Ok bs → ∃ z, v = PyInt z ∧ - 2 ^ 31 ≤ z < 2 ^ 31.
Proof.
  intros [Hlen ->]%pack_i_inv. eexists. split; [done|].
  by apply unpack_int_range_4.
Qed.

Lemma write_rect_inv path base arc w w' :
  write path (ROIRect base arc) w = (Ok tt, w') →
  ∃ t l b r p,
    ROIObject.top base = PyInt t ∧ ROIObject.left base = PyInt l
    ∧ ROIObject.bottom base = PyInt b ∧ ROIObject.right base = PyInt r
    ∧ ROIObject.position base = PyInt p
    ∧ - 2 ^ 15 ≤ t < 2 ^ 15 ∧ - 2 ^ 15 ≤ l < 2 ^ 15
    ∧ - 2 ^ 15 ≤ b < 2 ^ 15 ∧ - 2 ^ 15 ≤ r < 2 ^ 15
    ∧ - 2 ^ 31 ≤ p < 2 ^ 31
    ∧ Z.of_nat (String.length (ROIObject.name base)) < 2 ^ 31.
Proof.
  intros (self & Hbody & _)%write_inv.
  apply write_body_rect in Hbody
    as (bt & bl & bb & br & bp & Ht & Hl & Hb & Hr & Hp & Hname & _);
    [|done].
  simpl in *.
  apply pack_h_range in Ht as (t & ? & ?), Hl as (l & ? & ?),
    Hb as (b & ? & ?), Hr as (r & ? & ?).
  apply pack_i_range in Hp as (p & ? & ?).
  exists t, l, b, r, p. done.
Qed.

(** The corner arc plays no part in what is written. *)
Lemma write_rect_any_arc path base arc arc' w w' :
  write path (ROIRect base arc) w = (Ok tt, w') →
  write path (ROIRect base arc') w = (Ok tt, w').
Proof.
  intros Hw. pose proof Hw as Hinv.
  apply write_rect_inv in Hinv
    as (t & l & b & r & p & Ht & Hl & Hb & Hr & Hp & ? & ? & ? & ? & ? & ?).
  destruct base as [top left bottom right name position]. simpl in *. subst.
  destruct (write_rect_ok path t l b r p name arc' w) as [w2 Hw2]; try done.
  unfold ROIRect_init in Hw2. rewrite Hw2. f_equal.
  apply write_inv in Hw as (s1 & Hb1 & ->), Hw2 as (s2 & Hb2 & ->).
  apply write_body_rect in Hb1
    as (bt & bl & bb & br & bp & Ht & Hl & Hb & Hr & Hp & _ & ->); [|done].
  apply write_body_rect in Hb2
    as (bt' & bl' & bb' & br' & bp' & Ht' & Hl' & Hb' & Hr' & Hp' & _ & ->);
    [|done].
  simpl in *. congruence.
Qed.




(** ** The file of an encoded rectangle *)

Lemma length_write_at_inside o bs f :
  (o + length bs ≤ length f)%nat → length (write_at o bs f) = length f.
Proof.
  intros Hin. destruct bs as [|b bs]; [done|].
  rewrite length_write_at by done. lia.
Qed.

Lemma length_write_at_end o bs f :
  o = length f → length (write_at o bs f) = (length f + length bs)%nat.
Proof.
  intros ->. destruct bs as [|b bs]; [unfold write_at; simpl; lia|].
  rewrite length_write_at by done. lia.
Qed.

Lemma length_write_at_128 o bs f :
  length f = 128%nat → (o + length bs ≤ 128)%nat →
  length (write_at o bs f) = 128%nat.
Proof. intros Hf Hin. rewrite length_write_at_inside; lia. Qed.

Lemma length_utf8_ge s : (String.length s ≤ length (utf8 s))%nat.
Proof.
  induction s as [|c s IH]; [done|].
  change (utf8 (String c s)) with (utf8_char c ++ utf8 s).
  cbn [String.length]. rewrite length_app. unfold utf8_char. case_bool_decide; simpl; lia.
Qed.

Lemma pack_bytes_take n bs :
  (n ≤ length bs)%nat → pack_bytes n bs = take n bs.
Proof.
  intros Hn. unfold pack_bytes.
  replace (n - length bs)%nat with 0%nat by lia. apply app_nil_r.
Qed.

(** X15. The file [write] produces for a rectangle: 128 bytes of
    header followed by the name, HEADER2_OFFSET = 64, NAME_OFFSET = 128,
    NAME_LENGTH = the number of characters of the name, and as name the
    first NAME_LENGTH bytes of its UTF-8 encoding (a name with non-ASCII
    characters is cut short). *)
Theorem rect_file_layout path base arc w w' :
  write path (ROIRect base arc) w = (Ok tt, w') →
  let name := ROIObject.name base in
  ∃ data,
    World.files w' !! path = Some data
    ∧ length data = (128 + String.length name)%nat
    ∧ stored_header2_offset data = 64
    ∧ h2_field data 64 "NAME_OFFSET" = Ok (PyInt 128)
    ∧ h2_field data 64 "NAME_LENGTH"
      = Ok (PyInt (Z.of_nat (String.length name)))
    ∧ sub 128 (String.length name) data
      = take (String.length name) (utf8 name).
Proof.
  intros (self & Hbody & ->)%write_inv name.
  apply write_body_rect in Hbody
    as (bt & bl & bb & br & bp & Ht & Hl & Hb & Hr & Hp & Hname & Hf);
    [|done].
  apply struct_pack_length in Ht, Hl, Hb, Hr, Hp. simpl in Ht, Hl, Hb, Hr, Hp.
  cbn [roi_base] in *. fold name in Hname, Hf.
  pose proof (length_be_bytes 4 64).
  pose proof (length_be_bytes 4 (Z.of_nat (64 + 64))).
  pose proof (length_be_bytes 4 (Z.of_nat (String.length name))).
  pose proof (length_pack_bytes (String.length name) (utf8 name)).
  set (image := rect_image bt bl bb br bp name) in *.
  assert (Hlen : length image = (128 + String.length name)%nat).
  { unfold image, rect_image, name_image, common_image.
    rewrite length_write_at_end.
    - f_equal; [|done].
      repeat (apply length_write_at_128; [|lia]). apply pad_image_length.
    - symmetry.
      repeat (apply length_write_at_128; [|lia]). apply pad_image_length. }
  exists image. simpl. rewrite lookup_insert_eq, Hf. split; [done|].
  split; [done|].
  assert (H60 : sub 60 4 image = be_bytes 4 64).
  { unfold image, rect_image, name_image, common_image. by sub_peel'. }
  assert (H80 : sub 80 4 image = be_bytes 4 (Z.of_nat (64 + 64))).
  { unfold image, rect_image, name_image, common_image. by sub_peel'. }
  assert (H84 : sub 84 4 image
                = be_bytes 4 (Z.of_nat (String.length name))).
  { unfold image, rect_image, name_image, common_image. by sub_peel'. }
  split_and!.
  - unfold stored_header2_offset. rewrite H60. by vm_compute.
  - unfold h2_field. rewrite h2_NAME_OFFSET.
    cbn [HeaderTuple.offset HeaderTuple.type].
    destruct (field_at_sub image (16 + 64) Fmt_i) as [-> _];
      [lia|simpl; lia|].
    change (Z.to_nat (16 + 64)) with 80%nat. cbn [calcsize]. rewrite H80.
    unfold struct_unpack. rewrite bool_decide_eq_true_2 by done.
    by vm_compute.
  - unfold h2_field. rewrite h2_NAME_LENGTH.
    cbn [HeaderTuple.offset HeaderTuple.type].
    destruct (field_at_sub image (20 + 64) Fmt_i) as [-> _];
      [lia|simpl; lia|].
    change (Z.to_nat (20 + 64)) with 84%nat. cbn [calcsize]. rewrite H84.
    unfold struct_unpack. rewrite bool_decide_eq_true_2 by done.
    rewrite unpack_int_be_bytes; [done|lia|].
    change (256 ^ Z.of_nat 4 / 2) with (2 ^ 31). lia.
  - unfold image, rect_image, name_image.
    rewrite sub_write_at_same' by done.
    apply pack_bytes_take, length_utf8_ge.
Qed.

Lemma rect_file_layout_witness :
  ∃ data,
    World.files (write "r.roi" sample_rect empty_world).2 !! "r.roi"
      = Some data
    ∧ length data = 141%nat
    ∧ stored_header2_offset data = 64
    ∧ h2_field data 64 "NAME_OFFSET" = Ok (PyInt 128)
    ∧ h2_field data 64 "NAME_LENGTH" = Ok (PyInt 13)
    ∧ sub 128 13 data = utf8 "roi-0001-0000".
Proof.
  refine (rect_file_layout "r.roi" sample_base (PyInt 0) empty_world _ _).
  vm_compute. reflexivity.
Defined.

(** ** Rectangles after a round trip *)

(** X16. The area of a rectangle with a corner arc is not implemented,
    but the rectangle read back from the file written for it has one:
    the arc is lost on the way, and [area] returns width times height of
    the bounds that were written. *)
Theorem area_after_round_trip path base arc w w' :
  py_eq arc (PyInt 0) = false →
  write path (ROIRect base arc) w = (Ok tt, w') →
  area (ROIRect base arc)
  = Raise (NotImplementedError "Rounded rectangle area not implemented")
  ∧ ∃ r' t l b r,
      read (PathStr path) w' = Ok r'
      ∧ ROIObject.top base = PyInt t ∧ ROIObject.left base = PyInt l
      ∧ ROIObject.bottom base = PyInt b ∧ ROIObject.right base = PyInt r
      ∧ area r' = Ok (PyInt ((r - l) * (b - t))).
Proof.
  intros Harc Hw. split; [unfold area; by rewrite Harc|].
  destruct (rect_decodes _ _ _ _ _ Hw) as [_ Hread].
  apply write_rect_inv in Hw
    as (t & l & b & r & p & Ht & Hl & Hb & Hr & Hp & _).
  eexists _, t, l, b, r. split; [exact Hread|]. split_and!; try done.
  unfold ROIRect_init, area, width, height. simpl.
  by rewrite Ht, Hl, Hb, Hr.
Qed.

Lemma area_after_round_trip_witness :
  area sample_rounded_rect
  = Raise (NotImplementedError "Rounded rectangle area not implemented")
  ∧ ∃ r' t l b r,
      read (PathStr "r.roi")
        (write "r.roi" sample_rounded_rect empty_world).2 = Ok r'
      ∧ PyInt 10 = PyInt t ∧ PyInt 5 = PyInt l
      ∧ PyInt 50 = PyInt b ∧ PyInt 40 = PyInt r
      ∧ area r' = Ok (PyInt ((r - l) * (b - t))).
Proof.
  refine (area_after_round_trip "r.roi" sample_base (PyInt 7) empty_world
            _ _ _).
  - vm_compute. reflexivity.
  - vm_compute. reflexivity.
Defined.

(** X17. Writing back what was read reproduces the file: when the
    file of a rectangle is named after it ([stem path] is its name), the
    rectangle read from the file is written to the very same bytes. *)
Theorem rect_reencode path base arc w w' :
  write path (ROIRect base arc) w = (Ok tt, w') →
  stem path = ROIObject.name base →
  ∃ r', read (PathStr path) w' = Ok r'
        ∧ write path r' w' = (Ok tt, w').
Proof.
  intros Hw Hstem. destruct (rect_decodes _ _ _ _ _ Hw) as [_ Hread].
  eexists. split; [exact Hread|].
  rewrite Hstem. destruct base as [top left bottom right name position].
  unfold ROIRect_init. simpl.
  apply (write_rect_any_arc _ _ _ (PyInt 0)) in Hw.
  apply write_inv in Hw as (self & Hbody & ->).
  unfold write. rewrite Hbody. f_equal. unfold set_file. simpl.
  by rewrite insert_insert_eq.
Qed.

Lemma rect_reencode_witness :
  let w' := (write "d/roi-0001-0000.roi" sample_rounded_rect empty_world).2 in
  ∃ r', read (PathStr "d/roi-0001-0000.roi") w' = Ok r'
        ∧ write "d/roi-0001-0000.roi" r' w' = (Ok tt, w').
Proof.
  refine (rect_reencode "d/roi-0001-0000.roi" sample_base (PyInt 7)
            empty_world _ _ _).
  - vm_compute. reflexivity.
  - vm_compute. reflexivity.
Defined.

(** ** Single fields *)

(** X18. A field written by [_write_var] is read back by [_get_var]
    at the same offset, whatever the file held before and wherever the
    offset lies, also past the end of the file: an integer as it was, a
    float to single precision, a byte string padded or cut to the count
    of its format. *)
Theorem field_round_trip offset t v s s' name hdr :
  (0 < calcsize t)%nat →
  _write_var offset t v s = (Ok tt, s') →
  (_get_var offset (calcsize t) t (Dec.make (Enc.f_obj s') name hdr)).1
  = Ok (unpacked t v).
Proof.
  intros Hsize. unfold _write_var.
  case_bool_decide as Hneg; [done|]. rewrite ST_bind_unfold, mret_run.
  rewrite ST_bind_unfold. unfold lift.
  destruct (struct_pack t v) as [bs|] eqn:Hpack; [|done].
  unfold modify. intros [= <-]. rewrite _get_var_run. simpl.
  pose proof (struct_pack_length _ _ _ Hpack) as Hlen.
  rewrite py_slice_sub; [|lia|].
  - rewrite sub_write_at_same' by done. by apply struct_unpack_pack.
  - pose proof (le_length_write_at_end' (Z.to_nat offset + calcsize t)
                  (Z.to_nat offset) bs (Enc.f_obj s)). lia.
Qed.

Lemma field_round_trip_witness :
  (_get_var 200 4 Fmt_i
     (Dec.make
        (Enc.f_obj
           (_write_var 200 Fmt_i (PyInt (-5))
              (Enc.make sample_rect 64 pad_image)).2) "x" ∅)).1
  = Ok (PyInt (-5)).
Proof.
  refine (field_round_trip 200 Fmt_i (PyInt (-5))
            (Enc.make sample_rect 64 pad_image) _ "x" ∅ _ _).
  - simpl. lia.
  - vm_compute. reflexivity.
Defined.

Lemma lookup_write_at o bs f i :
  (i < o ∨ o + length bs ≤ i)%nat → (i < length f)%nat →
  write_at o bs f !! i = f !! i.
Proof.
  intros Hout Hi. destruct bs as [|b bs']; [done|].
  set (bs := b :: bs') in *.
  destruct (write_at_unfold o bs f) as (pre & Hpre & -> & Hpre'); [done|].
  destruct Hout as [Hlt|Hge].
  - rewrite lookup_app_l by lia. rewrite Hpre'.
    rewrite lookup_app_l by (rewrite length_take; lia).
    by rewrite lookup_take_lt.
  - rewrite lookup_app_r by lia. rewrite lookup_app_r by lia.
    rewrite lookup_drop. f_equal. lia.
Qed.

(** X19. [_write_var] touches nothing but its field: when it succeeds
    the offset is not negative, the file is at least as long as before,
    and every byte the file had outside the field is unchanged. *)
Theorem write_var_frame offset t v s s' :
  _write_var offset t v s = (Ok tt, s') →
  0 ≤ offset
  ∧ (length (Enc.f_obj s) ≤ length (Enc.f_obj s'))%nat
  ∧ ∀ i, (i < Z.to_nat offset ∨ Z.to_nat offset + calcsize t ≤ i)%nat →
         (i < length (Enc.f_obj s))%nat →
         Enc.f_obj s' !! i = Enc.f_obj s !! i.
Proof.
  unfold _write_var.
  case_bool_decide as Hneg; [done|]. rewrite ST_bind_unfold, mret_run.
  rewrite ST_bind_unfold. unfold lift.
  destruct (struct_pack t v) as [bs|] eqn:Hpack; [|done].
  unfold modify. intros [= <-]. simpl.
  pose proof (struct_pack_length _ _ _ Hpack) as Hlen.
  split_and!; [lia|apply length_write_at_ge|].
  intros i Hout Hi. apply lookup_write_at; [lia|done].
Qed.

Lemma write_var_frame_witness :
  let s := Enc.make sample_rect 64 pad_image in
  let s' := (_write_var 8 Fmt_h (PyInt 10) s).2 in
  Enc.f_obj s' !! 7%nat = Enc.f_obj s !! 7%nat.
Proof.
  intros s s'.
  refine (proj2 (proj2 (write_var_frame 8 Fmt_h (PyInt 10) s s' _)) 7%nat _ _).
  - vm_compute. reflexivity.
  - left. vm_compute. lia.
  - vm_compute. lia.
Defined.

(** ** The temporary files of [write_zip] *)











(** ** Shapes in arbitrary buffers *)

Lemma _get_var_float base self :
  _get_var base 4 Fmt_f self = (field_at (Dec.data self) base Fmt_f, self).
Proof. by rewrite _get_var_run. Qed.

Lemma field_at_float data (base : nat) :
  (base + 4 ≤ length data)%nat →
  field_at data (Z.of_nat base) Fmt_f
  = Ok (PyFloat (unpack_float (sub base 4 data))).
Proof.
  intros Hlen.
  destruct (field_at_sub data (Z.of_nat base) Fmt_f) as [-> Hl];
    [lia|simpl; lia|].
  rewrite Nat2Z.id in *. cbn [calcsize] in *.
  unfold struct_unpack. by rewrite bool_decide_eq_true_2.
Qed.

Lemma field_at_float_short data (base : nat) :
  (length data < base + 4)%nat →
  field_at data (Z.of_nat base) Fmt_f = Raise struct_error.
Proof.
  intros Hlen. destruct (field_at _ _ _) as [v|e] eqn:Hf.
  - apply field_at_Ok_inv in Hf as [Hin _]; [|lia|simpl; lia].
    simpl in Hin. lia.
  - by apply field_at_raise in Hf as ->.
Qed.

(** The float loop of [_read_roi_shape] on any buffer. *)
Lemma read_floats_run (base n : nat) self :
  (base ≤ length (Dec.data self))%nat →
  read_floats (Z.of_nat base) n self
  = if bool_decide (base + 4 * n ≤ length (Dec.data self))%nat
    then (Ok ((λ i, PyFloat (unpack_float (sub (base + 4 * i) 4
                                              (Dec.data self))))
                <$> seq 0 n), self)
    else (Raise struct_error, self).
Proof.
  revert base. induction n as [|n IH]; intros base Hbase.
  - simpl. rewrite bool_decide_eq_true_2 by lia. done.
  - cbn [read_floats]. rewrite ST_bind_unfold, _get_var_float.
    destruct (decide (base + 4 ≤ length (Dec.data self))%nat) as [H4|H4].
    + rewrite field_at_float by done. rewrite ST_bind_unfold.
      replace (Z.of_nat base + 4) with (Z.of_nat (base + 4)) by lia.
      rewrite IH by done.
      case_bool_decide as Hall.
      * rewrite bool_decide_eq_true_2 by lia. rewrite mret_run.
        cbn [seq fmap list_fmap]. f_equal. f_equal. f_equal.
        { by rewrite Nat.mul_0_r, Nat.add_0_r. }
        rewrite <-fmap_S_seq, <-list_fmap_compose.
        apply list_fmap_ext. intros _ i _. simpl. do 3 f_equal. lia.
      * rewrite bool_decide_eq_false_2 by lia. done.
    + rewrite field_at_float_short by lia.
      rewrite bool_decide_eq_false_2 by lia. done.
Qed.

(** X22. A shape is decoded from any buffer whose header can be read,
    whose SHAPE_ROI_SIZE n is positive and whose type tag is 1: when the
    n floats from byte 64 on lie inside the buffer, the coordinates are
    picked from them by position alone, with the bounds and the position
    of the header and the name of the file; no sentinel and no segment
    marker is checked.  When the floats run past the end of the buffer,
    [read] raises [struct.error]. *)
Theorem shape_of_any_buffer name data w self :
  read_header (Dec.make data (stem name) ∅) = (Ok tt, self) →
  0 < stored_shape_roi_size data → stored_type data = 1 →
  let n := Z.to_nat (stored_shape_roi_size data) in
  let floats :=
    (λ i, PyFloat (unpack_float (sub (64 + 4 * i) 4 data))) <$> seq 0 n in
  read (ZipExtFile name data) w
  = if bool_decide (64 + 4 * n ≤ length data)%nat
    then Ok (ROIShape
               (ROIObject.make (PyInt (unpack_int 2 (sub 8 2 data)))
                  (PyInt (unpack_int 2 (sub 10 2 data)))
                  (PyInt (unpack_int 2 (sub 12 2 data)))
                  (PyInt (unpack_int 2 (sub 14 2 data)))
                  (stem name)
                  (PyInt (unpack_int 4 (sub 56 4 data))))
               (get_coords_from_shapeArray floats).1
               (get_coords_from_shapeArray floats).2)
    else Raise struct_error.
Proof.
  intros Hrun Hsize Htype n floats. rewrite read_ZipExtFile.
  rewrite (read_body_run _ _ _ _ Hrun), bool_decide_eq_true_2 by done.
  destruct (read_header_items _ _ _ _ Hrun)
    as (Ht & Hsz & Htop & Hleft & Hbottom & Hright & Hpos).
  destruct (read_header_state _ _ _ _ Hrun) as (Hd & Hn & Hlen & _).
  rewrite (_read_roi_shape_run _ _ _ _ _ _ _ _
             Ht Htop Hleft Hbottom Hright Hpos Hsz).
  rewrite bool_decide_eq_true_2 by done.
  change 64 with (Z.of_nat 64). rewrite read_floats_run by (rewrite Hd; lia).
  rewrite Hd, Hn. fold n. case_bool_decide; [|done].
  fold floats. by destruct (get_coords_from_shapeArray floats).
Qed.

Lemma shape_of_any_buffer_witness :
  read (ZipExtFile "s.roi"
          (write_at 36 [x00; x00; x00; x10] (foreign_buffer x01)))
    empty_world
  = Ok (ROIShape
          (ROIObject.make (PyInt 0) (PyInt 0) (PyInt 0) (PyInt 0) "s"
             (PyInt 0))
          (replicate 5 (PyFloat (S754_zero false)))
          (replicate 5 (PyFloat (S754_zero false)))).
Proof.
  refine (eq_trans
    (shape_of_any_buffer "s.roi"
       (write_at 36 [x00; x00; x00; x10] (foreign_buffer x01)) empty_world
       (read_header
          (Dec.make (write_at 36 [x00; x00; x00; x10] (foreign_buffer x01))
             "s" ∅)).2 _ _ _) _).
  - vm_compute. reflexivity.
  - vm_compute. reflexivity.
  - vm_compute. reflexivity.
  - vm_compute. reflexivity.
Defined.

(** ** Shapes without a name *)

Lemma length_write_at_le M o bs f :
  (length f ≤ M)%nat → (o + length bs ≤ M)%nat →
  (length (write_at o bs f) ≤ M)%nat.
Proof.
  intros Hf Hbs. destruct bs as [|b bs]; [done|].
  rewrite length_write_at by done. lia.
Qed.

Lemma write_at_empty o (f : list byte) : write_at o [] f = f.
Proof. done. Qed.

Lemma shape_image_unnamed_length bt bl bb br bp shapeArray :
  length bt = 2%nat → length bl = 2%nat → length bb = 2%nat →
  length br = 2%nat → length bp = 4%nat →
  (length (shape_image bt bl bb br bp shapeArray EmptyString)
   ≤ 128 `max` (88 + 4 * length shapeArray))%nat.
Proof.
  intros Hbt Hbl Hbb Hbr Hbp.
  unfold shape_image, name_image, common_image.
  replace (pack_bytes (String.length EmptyString) (utf8 EmptyString))
    with (@nil byte) by done.
  rewrite write_at_empty.
  pose proof (length_concat_float_image shapeArray).
  repeat (apply length_write_at_le; [|rewrite ?length_be_bytes; simpl; lia]).
  rewrite pad_image_length. lia.
Qed.

Lemma ROI_PROPS_LENGTH_read : "ROI_PROPS_LENGTH" ∈ to_read_h2.
Proof. apply (bool_decide_unpack _). by vm_compute. Qed.

#[local] Transparent _header2_dict.

Lemma h2_ROI_PROPS_LENGTH :
  _header2_dict !! "ROI_PROPS_LENGTH" = Some (HeaderTuple.make Fmt_i 4 44).
Proof. by vm_compute. Qed.

#[local] Opaque _header2_dict.

(** A buffer whose header can be read holds all of header block 2. *)
Lemma read_header_block2 data name hdr0 self :
  read_header (Dec.make data name hdr0) = (Ok tt, self) →
  stored_header2_offset data + 48 ≤ Z.of_nat (length data).
Proof.
  intros Hrun. pose proof (read_header_spec data name hdr0) as Hspec.
  rewrite Hrun in Hspec. destruct Hspec as (_ & _ & _ & Hh1 & Hh2).
  destruct (Hh2 _ ROI_PROPS_LENGTH_read) as [v Hv].
  unfold h2_field in Hv. rewrite h2_ROI_PROPS_LENGTH in Hv.
  cbn [HeaderTuple.offset HeaderTuple.type] in Hv.
  destruct (decide (0 ≤ 44 + stored_header2_offset data)) as [Hpos|Hneg].
  - apply field_at_Ok_inv in Hv as [Hin _]; [|done|simpl; lia].
    simpl in Hin. lia.
  - apply read_header_state in Hrun as (_ & _ & Hlen & _). lia.
Qed.

(** X23. A shape without a name and with two or more coordinate pairs
    is written to a file that cannot be read back: nothing is written
    for the empty name, the file ends before header block 2 does, and
    [read] raises [struct.error]. *)
Theorem unnamed_shape_not_decodable path base x_coords y_coords w w' :
  ROIObject.name base = EmptyString →
  (2 ≤ length (zip x_coords y_coords))%nat →
  write path (ROIShape base x_coords y_coords) w = (Ok tt, w') →
  read (PathStr path) w' = Raise struct_error.
Proof.
  intros Hname Hpairs Hw.
  apply shape_encoded in Hw
    as (bt & bl & bb & br & bp & _ & Ht & Hl & Hb & Hr & Hp & Hsmall & Hfile).
  apply struct_pack_length in Ht, Hl, Hb, Hr, Hp. simpl in Ht, Hl, Hb, Hr, Hp.
  rewrite Hname in Hfile. rewrite (read_PathStr _ _ _ Hfile).
  set (shapeArray := shape_form float_0_0 float_4_0 (zip x_coords y_coords))
    in *.
  assert (Hn : length shapeArray = (3 * length (zip x_coords y_coords) + 1)%nat)
    by apply length_shape_form.
  set (data := shape_image bt bl bb br bp shapeArray EmptyString).
  pose proof (shape_image_unnamed_length bt bl bb br bp shapeArray
                Ht Hl Hb Hr Hp) as Hlen.
  pose proof (shape_image_length bt bl bb br bp EmptyString
                Ht Hl Hb Hr Hp shapeArray) as Hlen'.
  destruct (shape_image_fields bt bl bb br bp EmptyString
              Ht Hl Hb Hr Hp shapeArray)
    as (Hmagic & _ & _ & _ & _ & _ & _ & _ & Hh2 & _); [lia|].
  fold data in Hlen, Hlen', Hmagic, Hh2.
  assert (Hoff : stored_header2_offset data
                 = Z.of_nat (64 + 4 * length shapeArray)).
  { unfold stored_header2_offset. rewrite Hh2.
    apply unpack_int_be_bytes; [lia|].
    change (256 ^ Z.of_nat 4 / 2) with (2 ^ 31). lia. }
  pose proof (read_header_spec data (stem path) ∅) as Hspec.
  destruct (read_header _) as [[[]|e] self] eqn:Hrun.
  - apply read_header_block2 in Hrun. lia.
  - rewrite (read_body_header_raise _ _ _ _ _ Hrun). f_equal.
    destruct Hspec as [[_ (m & Hm & Hne)]|[-> _]]; [|done].
    rewrite field_at_magic in Hm by lia.
    injection Hm as <-. by destruct Hne.
Qed.

Lemma unnamed_shape_not_decodable_witness :
  read (PathStr "s.roi")
    (write "s.roi"
       (ROIShape (rename EmptyString sample_base) [PyInt 1; PyInt 2]
          [PyInt 3; PyInt 4]) empty_world).2
  = Raise struct_error.
Proof.
  apply (unnamed_shape_not_decodable "s.roi" (rename EmptyString sample_base)
           [PyInt 1; PyInt 2] [PyInt 3; PyInt 4] empty_world).
  - reflexivity.
  - simpl. lia.
  - vm_compute. reflexivity.
Defined.

(** ** Coordinate lists of different lengths *)

Lemma zip_take_min {A B} (l : list A) (k : list B) :
  zip (take (length l `min` length k) l) (take (length l `min` length k) k)
  = zip l k.
Proof.
  revert k. induction l as [|a l IH]; intros [|b k]; try done.
  simpl. by rewrite IH.
Qed.

(** X24. [get_shapeArray] pairs the coordinates with [zip]: the
    surplus of the longer list is dropped without notice, the array is
    the one of the two lists cut to their common length.  With no pair
    at all the leading 0.0 is popped and the array is just [4.0]. *)
Theorem shape_array_of_unequal_lists x_coords y_coords :
  let m := (length x_coords `min` length y_coords)%nat in
  get_shapeArray x_coords y_coords
  = get_shapeArray (take m x_coords) (take m y_coords)
  ∧ (m = 0%nat → get_shapeArray x_coords y_coords = Ok [float_4_0])
  ∧ ∀ shapeArray,
      get_shapeArray x_coords y_coords = Ok shapeArray →
      length shapeArray = (3 * m + 1)%nat.
Proof.
  intros m. split_and!.
  - unfold get_shapeArray, m. by rewrite zip_take_min.
  - intros Hm. unfold get_shapeArray.
    assert (zip x_coords y_coords = []) as ->; [|done].
    by destruct x_coords, y_coords.
  - intros shapeArray [_ ->]%get_shapeArray_spec.
    by rewrite length_shape_form, length_zip.
Qed.

(** ** Archives with entries of the same name *)

Lemma read_entries_each entries names w rois :
  read_entries entries names w = Ok rois →
  Forall2 (λ n r, (zf_open entries n ≫= λ member, read member w) = Ok r)
    names rois.
Proof.
  revert rois. induction names as [|n names IH]; intros rois.
  - simpl. intros [= <-]. constructor.
  - cbn [read_entries].
    destruct (zf_open entries n) as [member|] eqn:Ho; [|done]. simpl.
    destruct (read member w) as [r|] eqn:Hr; [|done]. simpl.
    destruct (read_entries entries names w) as [rs|]; [|done]. simpl.
    intros [= <-]. constructor; [|by apply IH]. by rewrite Ho.
Qed.

(** X25. [read_zip] opens every entry by its name: when an archive
    holds several entries of one name, the ROIs returned at their
    positions are all the same one, decoded from the last of them; the
    content of the earlier ones is never read. *)
Theorem read_zip_same_name zip_path w entries rois i j n ei ej :
  World.zips w !! zip_path = Some entries →
  read_zip zip_path w = Ok rois →
  entries !! i = Some (n, ei) → entries !! j = Some (n, ej) →
  ∃ r last,
    rois !! i = Some r ∧ rois !! j = Some r
    ∧ zf_open entries n = Ok (ZipExtFile n last)
    ∧ read (ZipExtFile n last) w = Ok r.
Proof.
  intros Hz. unfold read_zip. rewrite Hz. intros Hall%read_entries_each Hi Hj.
  assert (Hname : ∀ k e, entries !! k = Some (n, e) →
            ∃ r, rois !! k = Some r
                 ∧ (zf_open entries n ≫= λ member, read member w) = Ok r).
  { intros k e Hk.
    assert (entries.*1 !! k = Some n) as Hn
      by (by rewrite list_lookup_fmap, Hk).
    destruct (Forall2_lookup_l _ _ _ _ _ Hall Hn) as (r & Hr & Hread).
    eauto. }
  destruct (Hname _ _ Hi) as (r & Hri & Hread).
  destruct (Hname _ _ Hj) as (r' & Hrj & Hread').
  assert (r' = r) as -> by congruence.
  unfold zf_open in *.
  destruct (list_find _ _) as [[k e]|]; [|done]. simpl in Hread.
  exists r, e.2. done.
Qed.

Lemma read_zip_same_name_witness :
  let entries := [("x.roi", foreign_buffer x02);
                  ("x.roi", foreign_buffer x01)] in
  let w := set_zip "set.zip" entries empty_world in
  let rect :=
    ROIRect_init (PyInt 0) (PyInt 0) (PyInt 0) (PyInt 0) (PyInt 7) "x"
      (PyInt 0) in
  ∃ r last,
    [rect; rect] !! 0%nat = Some r ∧ [rect; rect] !! 1%nat = Some r
    ∧ zf_open entries "x.roi" = Ok (ZipExtFile "x.roi" last)
    ∧ read (ZipExtFile "x.roi" last) w = Ok r.
Proof.
  intros entries w rect.
  refine (read_zip_same_name "set.zip" w entries [rect; rect] 0 1 "x.roi"
            (foreign_buffer x02) (foreign_buffer x01) _ _ _ _).
  - vm_compute. reflexivity.
  - vm_compute. reflexivity.
  - reflexivity.
  - reflexivity.
Defined.

(** ** The file of an encoded shape *)

Lemma length_name_image h2 name f :
  name ≠ EmptyString → (length f ≤ 64 + h2)%nat →
  length (name_image h2 name f) = (64 + h2 + String.length name)%nat.
Proof.
  intros Hname Hf. unfold name_image.
  pose proof (length_pack_bytes (String.length name) (utf8 name)) as Hp.
  assert (0 < String.length name)%nat by (destruct name; [done|simpl; lia]).
  rewrite length_write_at by (intros Hnil; rewrite Hnil in Hp; simpl in Hp; lia).
  rewrite Hp.
  assert (length (write_at (20 + h2) (be_bytes 4 (Z.of_nat (String.length name)))
                    (write_at (16 + h2) (be_bytes 4 (Z.of_nat (64 + h2))) f))
          ≤ 64 + h2)%nat; [|lia].
  repeat (apply length_write_at_le; [|rewrite length_be_bytes; lia]). done.
Qed.

(** X26. The file [write] produces for a named shape whose array has
    k floats: the floats follow header block 1, header block 2 comes
    after them (HEADER2_OFFSET = 64 + 4k), the name comes 64 bytes
    later (NAME_OFFSET = 128 + 4k, NAME_LENGTH = the number of
    characters of the name), and the file ends with the name. *)
Theorem shape_file_layout path base x_coords y_coords w w' :
  ROIObject.name base ≠ EmptyString →
  write path (ROIShape base x_coords y_coords) w = (Ok tt, w') →
  let name := ROIObject.name base in
  let k := (3 * length (zip x_coords y_coords) + 1)%nat in
  ∃ data,
    World.files w' !! path = Some data
    ∧ length data = (128 + 4 * k + String.length name)%nat
    ∧ stored_shape_roi_size data = Z.of_nat k
    ∧ stored_header2_offset data = Z.of_nat (64 + 4 * k)
    ∧ h2_field data (Z.of_nat (64 + 4 * k)) "NAME_OFFSET"
      = Ok (PyInt (Z.of_nat (128 + 4 * k)))
    ∧ h2_field data (Z.of_nat (64 + 4 * k)) "NAME_LENGTH"
      = Ok (PyInt (Z.of_nat (String.length name)))
    ∧ sub (128 + 4 * k) (String.length name) data
      = take (String.length name) (utf8 name).
Proof.
  intros Hne Hw name k. pose proof Hw as Hw'.
  apply write_inv in Hw' as (self & Hbody & _).
  apply write_body_shape in Hbody
    as (sa & ? & ? & ? & ? & ? & _ & _ & _ & _ & _ & _ & _ & _ & Hname & _).
  apply shape_encoded in Hw
    as (bt & bl & bb & br & bp & _ & Ht & Hl & Hb & Hr & Hp & Hsmall & Hfile).
  apply struct_pack_length in Ht, Hl, Hb, Hr, Hp. simpl in Ht, Hl, Hb, Hr, Hp.
  fold name in Hfile, Hname, Hne.
  set (shapeArray := shape_form float_0_0 float_4_0 (zip x_coords y_coords))
    in *.
  assert (Hk : length shapeArray = k) by apply length_shape_form.
  rewrite Hk in Hsmall. assert (0 < k)%nat by (unfold k; lia).
  clearbody shapeArray k name.
  set (image := shape_image bt bl bb br bp shapeArray name) in *.
  pose proof (length_be_bytes 4 (Z.of_nat (length shapeArray))).
  pose proof (length_be_bytes 4 (Z.of_nat (64 + 4 * length shapeArray))).
  pose proof (length_be_bytes 4 (Z.of_nat (64 + (64 + 4 * length shapeArray)))).
  pose proof (length_be_bytes 4 (Z.of_nat (String.length name))).
  pose proof (length_pack_bytes (String.length name) (utf8 name)).
  pose proof (length_concat_float_image shapeArray).
  assert (0 < String.length name)%nat by (destruct name; [done|simpl; lia]).
  destruct (shape_image_fields bt bl bb br bp name
              Ht Hl Hb Hr Hp shapeArray)
    as (_ & _ & _ & _ & _ & _ & Hsize & _ & Hh2 & _); [lia|].
  fold image in Hsize, Hh2.
  assert (Hlen : length image = (128 + 4 * k + String.length name)%nat).
  { unfold image, shape_image. rewrite length_name_image; [lia|done|].
    unfold common_image.
    repeat (apply length_write_at_le;
            [|rewrite ?length_be_bytes, ?length_concat_float_image; simpl;
              lia]).
    rewrite pad_image_length. lia. }
  assert (H80 : sub (80 + 4 * k) 4 image
                = be_bytes 4 (Z.of_nat (64 + (64 + 4 * length shapeArray)))).
  { unfold image, shape_image, name_image.
    replace (80 + 4 * k)%nat with (16 + (64 + 4 * length shapeArray))%nat
      by lia.
    rewrite sub_write_at_before;
      [|lia|apply le_length_write_at_end'; rewrite ?length_be_bytes; lia].
    rewrite sub_write_at_before;
      [|lia|apply le_length_write_at_end'; rewrite ?length_be_bytes; lia].
    apply sub_write_at_same'. by rewrite length_be_bytes. }
  assert (H84 : sub (84 + 4 * k) 4 image
                = be_bytes 4 (Z.of_nat (String.length name))).
  { unfold image, shape_image, name_image.
    replace (84 + 4 * k)%nat with (20 + (64 + 4 * length shapeArray))%nat
      by lia.
    rewrite sub_write_at_before;
      [|lia|apply le_length_write_at_end'; rewrite ?length_be_bytes; lia].
    apply sub_write_at_same'. by rewrite length_be_bytes. }
  exists image. split; [done|]. split; [done|].
  change (256 ^ Z.of_nat 4 / 2) with (2 ^ 31) in *.
  split_and!.
  - unfold stored_shape_roi_size. rewrite Hsize, Hk.
    apply unpack_int_be_bytes; [lia|].
    change (256 ^ Z.of_nat 4 / 2) with (2 ^ 31). lia.
  - unfold stored_header2_offset. rewrite Hh2, Hk.
    apply unpack_int_be_bytes; [lia|].
    change (256 ^ Z.of_nat 4 / 2) with (2 ^ 31). lia.
  - unfold h2_field. rewrite h2_NAME_OFFSET.
    cbn [HeaderTuple.offset HeaderTuple.type].
    destruct (field_at_sub image (16 + Z.of_nat (64 + 4 * k)) Fmt_i)
      as [-> _]; [lia|simpl; lia|].
    replace (Z.to_nat (16 + Z.of_nat (64 + 4 * k))) with (80 + 4 * k)%nat
      by lia.
    cbn [calcsize]. rewrite H80.
    unfold struct_unpack. rewrite bool_decide_eq_true_2 by done.
    rewrite unpack_int_be_bytes; [do 2 f_equal; lia|lia|].
    change (256 ^ Z.of_nat 4 / 2) with (2 ^ 31). lia.
  - unfold h2_field. rewrite h2_NAME_LENGTH.
    cbn [HeaderTuple.offset HeaderTuple.type].
    destruct (field_at_sub image (20 + Z.of_nat (64 + 4 * k)) Fmt_i)
      as [-> _]; [lia|simpl; lia|].
    replace (Z.to_nat (20 + Z.of_nat (64 + 4 * k))) with (84 + 4 * k)%nat
      by lia.
    cbn [calcsize]. rewrite H84.
    unfold struct_unpack. rewrite bool_decide_eq_true_2 by done.
    rewrite unpack_int_be_bytes; [done|lia|].
    change (256 ^ Z.of_nat 4 / 2) with (2 ^ 31). lia.
  - unfold image, shape_image, name_image.
    replace (128 + 4 * k)%nat with (64 + (64 + 4 * length shapeArray))%nat
      by lia.
    rewrite sub_write_at_same' by done.
    apply pack_bytes_take, length_utf8_ge.
Qed.

Lemma shape_file_layout_witness :
  ∃ data,
    World.files (write "s.roi" sample_shape empty_world).2 !! "s.roi"
      = Some data
    ∧ length data = 181%nat
    ∧ stored_shape_roi_size data = 10
    ∧ stored_header2_offset data = 104
    ∧ h2_field data 104 "NAME_OFFSET" = Ok (PyInt 168)
    ∧ h2_field data 104 "NAME_LENGTH" = Ok (PyInt 13)
    ∧ sub 168 13 data = utf8 "roi-0000-0000".
Proof.
  refine (shape_file_layout "s.roi"
            (ROIObject.make (PyInt 1) (PyInt 1) (PyInt 3) (PyInt 6)
               "roi-0000-0000" (PyInt 0))
            [PyInt 1; PyInt 2; PyInt 3] [PyInt 4; PyInt 5; PyInt 6]
            empty_world _ _ _).
  - discriminate.
  - vm_compute. reflexivity.
Defined.
